(** * adf-lint: a shallow embedding of the linter and its specification

    The development follows the three Python modules of the repository:

    - [Py] models the fragment of Python the linter runs on: the values
      [json.load] produces (plus tuples, which [main] builds), the
      exceptions the built-in operations raise, and the string methods
      used by the helpers;
    - [Helper] embeds [adf_lint/helper.py];
    - [Linter] embeds [adf_lint/adf_linter.py] and the [lint] command of
      [adf_lint/main.py];
    - [Spec] holds the data model and the two algorithms of the
      specification (orphan detection, contradiction detection), which
      the code is compared with;
    - [Shape] and [Examples] hold the predicates and the templates the
      theorems use.

    Characters are Rocq's [ascii], read as the code points below 256;
    numbers are integers (no floats).  Printing to the console has no
    effect on the state of the checker and is left out.  A run of the
    linter either returns or raises: every operation that can raise in
    Python returns a [result] here. *)

From Stdlib Require Import ZArith List String Ascii Bool Lia Permutation.
From Stdlib Require Import Numbers.DecimalString.
Import ListNotations.

Open Scope string_scope.
Open Scope Z_scope.

Set Warnings "-register-all".

(* ================================================================== *)
(** * Python values, exceptions and built-in operations *)
(* ================================================================== *)

Module Py.

(** The values of the program: what [json.load] returns, and tuples. *)
Inductive value : Type :=
| VNone
| VBool (b : bool)
| VInt (z : Z)
| VStr (s : string)
| VList (l : list value)
| VDict (kvs : list (string * value))
| VTuple (l : list value).

(** The built-in exceptions the linter can run into. *)
Inductive exn : Type :=
| KeyError
| TypeError
| AttributeError
| IndexError
| ValueError.

(** A computation either returns or raises. *)
Inductive result (A : Type) : Type :=
| Ok (a : A)
| Raise (e : exn).

Arguments Ok {A} a.
Arguments Raise {A} e.

Definition bind {A B : Type} (m : result A) (k : A -> result B) : result B :=
  match m with
  | Ok a => k a
  | Raise e => Raise e
  end.

Notation "x <- m ;; k" := (bind m (fun x => k))
  (at level 61, m at next level, right associativity).
Notation "' pat <- m ;; k" := (bind m (fun x => match x with pat => k end))
  (at level 61, pat pattern, m at next level, right associativity).

(** [for x in xs: body], threading the loop state. *)
Fixpoint for_each {A S : Type} (xs : list A) (body : A -> S -> result S)
    (s : S) : result S :=
  match xs with
  | [] => Ok s
  | x :: xs' => s' <- body x s ;; for_each xs' body s'
  end.

(** A list comprehension whose element expression may raise. *)
Fixpoint map_m {A B : Type} (f : A -> result B) (xs : list A)
    : result (list B) :=
  match xs with
  | [] => Ok []
  | x :: xs' => y <- f x ;; ys <- map_m f xs' ;; Ok (y :: ys)
  end.

(** [[x for x in xs if p(x)]] with a condition that may raise. *)
Fixpoint filter_m {A : Type} (p : A -> result bool) (xs : list A)
    : result (list A) :=
  match xs with
  | [] => Ok []
  | x :: xs' =>
      b <- p x ;; ys <- filter_m p xs' ;; Ok (if b then x :: ys else ys)
  end.

(** ** Strings *)

Definition str_len (s : string) : Z := Z.of_nat (String.length s).

(** [s.startswith(p)] *)
Definition startswith (s p : string) : bool := String.prefix p s.

(** [s.find(sub)]: the lowest index of an occurrence, or -1. *)
Fixpoint find (s sub : string) : Z :=
  if String.prefix sub s then 0
  else match s with
       | EmptyString => -1
       | String _ s' => let r := find s' sub in if r <? 0 then -1 else r + 1
       end.

(** [s.rfind(sub)]: the highest index of an occurrence, or -1. *)
Fixpoint rfind (s sub : string) : Z :=
  match s with
  | EmptyString => if String.prefix sub EmptyString then 0 else -1
  | String _ s' =>
      let r := rfind s' sub in
      if 0 <=? r then r + 1
      else if String.prefix sub s then 0 else -1
  end.

(** [sub in s] for two strings. *)
Definition str_contains (s sub : string) : bool := 0 <=? find s sub.

(** How a slice bound is adjusted to a sequence of length [n]
    (step 1): a negative bound counts from the end, and both ends are
    clamped to [0, n]. *)
Definition adjust_index (n i : Z) : Z :=
  if i <? 0 then Z.max 0 (i + n) else Z.min i n.

(** [s[start:stop]] *)
Definition slice (s : string) (start stop : Z) : string :=
  let n := str_len s in
  let a := adjust_index n start in
  let b := adjust_index n stop in
  String.substring (Z.to_nat a) (Z.to_nat (b - a)) s.

(** [s[start:]] *)
Definition slice_from (s : string) (start : Z) : string :=
  slice s start (str_len s).

(** [s.replace(old, new)] for a non-empty [old]; [skip] counts the
    characters of a matched occurrence still to be dropped. *)
Fixpoint replace_from (old new s : string) (skip : nat) : string :=
  match s with
  | EmptyString => EmptyString
  | String c s' =>
      match skip with
      | S k => replace_from old new s' k
      | O =>
          if String.prefix old s
          then new ++ replace_from old new s' (String.length old - 1)
          else String c (replace_from old new s' 0)
      end
  end.

(** With an empty [old], Python inserts [new] around every character. *)
Fixpoint intersperse (new s : string) : string :=
  match s with
  | EmptyString => new
  | String c s' => new ++ String c (intersperse new s')
  end.

Definition replace (s old new : string) : string :=
  match old with
  | EmptyString => intersperse new s
  | _ => replace_from old new s 0
  end.

(** [s.split(sep)] for a non-empty [sep]; [cur] is the piece being read. *)
Fixpoint split_from (sep s : string) (skip : nat) (cur : string)
    : list string :=
  match s with
  | EmptyString => [cur]
  | String c s' =>
      match skip with
      | S k => split_from sep s' k cur
      | O =>
          if String.prefix sep s
          then cur :: split_from sep s' (String.length sep - 1) EmptyString
          else split_from sep s' 0 (cur ++ String c EmptyString)
      end
  end.

Definition split (s sep : string) : result (list string) :=
  match sep with
  | EmptyString => Raise ValueError
  | _ => Ok (split_from sep s 0 EmptyString)
  end.

(** [s.lower()] on the code points below 256. *)
Definition lower_char (c : ascii) : ascii :=
  let n := nat_of_ascii c in
  if ((65 <=? n) && (n <=? 90))%nat then ascii_of_nat (n + 32)
  else if ((192 <=? n) && (n <=? 222) && negb (n =? 215))%nat
       then ascii_of_nat (n + 32)
       else c.

Fixpoint lower (s : string) : string :=
  match s with
  | EmptyString => EmptyString
  | String c s' => String (lower_char c) (lower s')
  end.

Fixpoint join (sep : string) (l : list string) : string :=
  match l with
  | [] => EmptyString
  | [x] => x
  | x :: l' => x ++ sep ++ join sep l'
  end.

(** ** [repr] and [str] *)

Definition dquote : ascii := ascii_of_nat 34.
Definition squote : ascii := ascii_of_nat 39.
Definition backslash : ascii := ascii_of_nat 92.

Definition hex_digit (n : nat) : ascii :=
  if (n <? 10)%nat then ascii_of_nat (48 + n) else ascii_of_nat (87 + n).

(** [str.isprintable] on one code point below 256. *)
Definition printable (c : ascii) : bool :=
  let n := nat_of_ascii c in
  (((32 <=? n) && (n <? 127)) || ((161 <=? n) && negb (n =? 173)))%nat.

Definition repr_char (quote c : ascii) : string :=
  let n := nat_of_ascii c in
  if Ascii.eqb c quote || Ascii.eqb c backslash
  then String backslash (String c EmptyString)
  else if (n =? 9)%nat then String backslash "t"
  else if (n =? 10)%nat then String backslash "n"
  else if (n =? 13)%nat then String backslash "r"
  else if printable c then String c EmptyString
  else String backslash
         (String "x" (String (hex_digit (n / 16))
                        (String (hex_digit (n mod 16)) EmptyString))).

Fixpoint repr_chars (quote : ascii) (s : string) : string :=
  match s with
  | EmptyString => EmptyString
  | String c s' => repr_char quote c ++ repr_chars quote s'
  end.

Fixpoint has_char (c : ascii) (s : string) : bool :=
  match s with
  | EmptyString => false
  | String a s' => Ascii.eqb a c || has_char c s'
  end.

(** [repr(s)] of a string: single quotes unless the string holds a
    single quote and no double quote. *)
Definition repr_str (s : string) : string :=
  let quote :=
    if has_char squote s && negb (has_char dquote s) then dquote else squote in
  String quote (repr_chars quote s ++ String quote EmptyString).

Definition repr_int (z : Z) : string := NilZero.string_of_int (Z.to_int z).

Fixpoint repr (v : value) : string :=
  match v with
  | VNone => "None"
  | VBool true => "True"
  | VBool false => "False"
  | VInt z => repr_int z
  | VStr s => repr_str s
  | VList l => "[" ++ join ", " (map repr l) ++ "]"
  | VDict kvs =>
      "{" ++ join ", " (map (fun kv => repr_str (fst kv) ++ ": " ++ repr (snd kv)) kvs)
          ++ "}"
  | VTuple l =>
      match l with
      | [x] => "(" ++ repr x ++ ",)"
      | _ => "(" ++ join ", " (map repr l) ++ ")"
      end
  end.

(** [str(v)] *)
Definition str (v : value) : string :=
  match v with
  | VStr s => s
  | _ => repr v
  end.

(** ** Equality, truth and containers *)

Fixpoint assoc (k : string) (kvs : list (string * value)) : option value :=
  match kvs with
  | [] => None
  | (k', v) :: kvs' => if String.eqb k k' then Some v else assoc k kvs'
  end.

(** [a == b] *)
Fixpoint py_eq (a b : value) {struct a} : bool :=
  match a, b with
  | VNone, VNone => true
  | VBool x, VBool y => Bool.eqb x y
  | VBool x, VInt y => Z.b2z x =? y
  | VInt x, VBool y => x =? Z.b2z y
  | VInt x, VInt y => x =? y
  | VStr x, VStr y => String.eqb x y
  | VList x, VList y =>
      (fix go (l m : list value) {struct l} : bool :=
         match l, m with
         | [], [] => true
         | u :: l', v :: m' => py_eq u v && go l' m'
         | _, _ => false
         end) x y
  | VTuple x, VTuple y =>
      (fix go (l m : list value) {struct l} : bool :=
         match l, m with
         | [], [] => true
         | u :: l', v :: m' => py_eq u v && go l' m'
         | _, _ => false
         end) x y
  | VDict x, VDict y =>
      (List.length x =? List.length y)%nat &&
      (fix go (l : list (string * value)) {struct l} : bool :=
         match l with
         | [] => true
         | (k, u) :: l' =>
             match assoc k y with
             | Some v => py_eq u v
             | None => false
             end && go l'
         end) x
  | _, _ => false
  end.

(** [v in l] for a Python list [l]. *)
Definition list_mem (v : value) (l : list value) : bool :=
  existsb (py_eq v) l.

(** [s in l] for a list of strings. *)
Definition str_mem (s : string) (l : list string) : bool :=
  existsb (String.eqb s) l.

(** The truth value of [v] ([if v], [not v]). *)
Definition truthy (v : value) : bool :=
  match v with
  | VNone => false
  | VBool b => b
  | VInt z => negb (z =? 0)
  | VStr s => negb (String.eqb s EmptyString)
  | VList l | VTuple l => match l with [] => false | _ => true end
  | VDict kvs => match kvs with [] => false | _ => true end
  end.

(** [x[k]] with a string key. *)
Definition getitem (x : value) (k : string) : result value :=
  match x with
  | VDict kvs =>
      match assoc k kvs with
      | Some v => Ok v
      | None => Raise KeyError
      end
  | _ => Raise TypeError
  end.

(** [x[0]] *)
Definition getitem0 (x : value) : result value :=
  match x with
  | VList l | VTuple l =>
      match l with
      | v :: _ => Ok v
      | [] => Raise IndexError
      end
  | VStr s =>
      match s with
      | String c _ => Ok (VStr (String c EmptyString))
      | EmptyString => Raise IndexError
      end
  | VDict _ => Raise KeyError
  | _ => Raise TypeError
  end.

(** [l[i]] on a list of strings. *)
Definition nth_str (l : list string) (i : nat) : result string :=
  match nth_error l i with
  | Some s => Ok s
  | None => Raise IndexError
  end.

(** [k in x] with a string [k]. *)
Definition contains (k : string) (x : value) : result bool :=
  match x with
  | VDict kvs => Ok (match assoc k kvs with Some _ => true | None => false end)
  | VList l | VTuple l => Ok (list_mem (VStr k) l)
  | VStr s => Ok (str_contains s k)
  | _ => Raise TypeError
  end.

(** [len(x)] *)
Definition len (x : value) : result Z :=
  match x with
  | VStr s => Ok (str_len s)
  | VList l | VTuple l => Ok (Z.of_nat (List.length l))
  | VDict kvs => Ok (Z.of_nat (List.length kvs))
  | _ => Raise TypeError
  end.

Fixpoint chars (s : string) : list value :=
  match s with
  | EmptyString => []
  | String c s' => VStr (String c EmptyString) :: chars s'
  end.

(** [for u in x]: the elements [x] yields. *)
Definition iter (x : value) : result (list value) :=
  match x with
  | VList l | VTuple l => Ok l
  | VDict kvs => Ok (map (fun kv => VStr (fst kv)) kvs)
  | VStr s => Ok (chars s)
  | _ => Raise TypeError
  end.

(** [x.get(k, default)] *)
Definition get (x : value) (k : string) (default : value) : result value :=
  match x with
  | VDict kvs =>
      Ok (match assoc k kvs with Some v => v | None => default end)
  | _ => Raise AttributeError
  end.

(** [x.items()] *)
Definition items (x : value) : result (list (string * value)) :=
  match x with
  | VDict kvs => Ok kvs
  | _ => Raise AttributeError
  end.

(** A method of [str] called on [x]. *)
Definition as_str (x : value) : result string :=
  match x with
  | VStr s => Ok s
  | _ => Raise AttributeError
  end.

(** [for a, b in ...]: unpacking one element into two names. *)
Definition unpack2 (x : value) : result (value * value) :=
  match x with
  | VList [a; b] | VTuple [a; b] => Ok (a, b)
  | VList _ | VTuple _ => Raise ValueError
  | VDict [(a, _); (b, _)] => Ok (VStr a, VStr b)
  | VDict _ => Raise ValueError
  | VStr (String a (String b EmptyString)) =>
      Ok (VStr (String a EmptyString), VStr (String b EmptyString))
  | VStr _ => Raise ValueError
  | _ => Raise TypeError
  end.

(** ** [int(x)] *)

Definition is_space (c : ascii) : bool :=
  let n := nat_of_ascii c in
  (((9 <=? n) && (n <=? 13)) || (n =? 32)
   || (n =? 133) || (n =? 160))%nat.

Fixpoint lstrip (s : string) : string :=
  match s with
  | EmptyString => EmptyString
  | String c s' => if is_space c then lstrip s' else s
  end.

Fixpoint rstrip (s : string) : string :=
  match s with
  | EmptyString => EmptyString
  | String c s' =>
      match rstrip s' with
      | EmptyString => if is_space c then EmptyString else String c EmptyString
      | r => String c r
      end
  end.

(** Decimal digits, single underscores allowed between two digits. *)
Fixpoint parse_digits (s : string) (acc : Z) (after_digit : bool)
    : option Z :=
  match s with
  | EmptyString => if after_digit then Some acc else None
  | String c s' =>
      let n := nat_of_ascii c in
      if ((48 <=? n) && (n <=? 57))%nat
      then parse_digits s' (10 * acc + Z.of_nat (n - 48)) true
      else if ((n =? 95)%nat && after_digit)%bool
           then parse_digits s' acc false
           else None
  end.

Definition parse_int (s : string) : option Z :=
  match rstrip (lstrip s) with
  | String "+" d => parse_digits d 0 false
  | String "-" d => option_map Z.opp (parse_digits d 0 false)
  | d => parse_digits d 0 false
  end.

(** [int(x)]; the interpreter's limit on the number of digits of a
    string is not modelled. *)
Definition int (x : value) : result Z :=
  match x with
  | VBool b => Ok (Z.b2z b)
  | VInt z => Ok z
  | VStr s =>
      match parse_int s with
      | Some z => Ok z
      | None => Raise ValueError
      end
  | _ => Raise TypeError
  end.

(** [x is None] *)
Definition is_none (x : value) : bool :=
  match x with
  | VNone => true
  | _ => false
  end.

(** [if v not in l: l.append(v)] on a list of values. *)
Definition append_new_value (v : value) (l : list value) : list value :=
  if list_mem v l then l else (l ++ [v])%list.

(** [l.remove(x)]: drops the first occurrence. *)
Fixpoint remove_first (x : string) (l : list string) : list string :=
  match l with
  | [] => []
  | y :: l' => if String.eqb x y then l' else y :: remove_first x l'
  end.

End Py.

(* ================================================================== *)
(** * helper.py *)
(* ================================================================== *)

Module Helper.
Import Py.

(** [clean_name] on a [str]: the text between the first slash and the
    last single quote. *)
Definition clean_name_str (raw_value : string) : string :=
  let slash_index := find raw_value "/" + 1 in
  let last_quote_index := rfind raw_value "'" in
  slice raw_value slash_index last_quote_index.

(** [clean_name(raw_value)]: [find] is a method of [str] only. *)
Definition clean_name (raw_value : value) : result string :=
  s <- as_str raw_value ;; Ok (clean_name_str s).

Definition clean_type_str (raw_value : string) : string :=
  let last_slash_index := rfind raw_value "/" + 1 in
  slice_from raw_value last_slash_index.

(** [clean_type(raw_value)] *)
Definition clean_type (raw_value : value) : result string :=
  s <- as_str raw_value ;; Ok (clean_type_str s).

(** [if x not in l: l.append(x)] *)
Definition append_new (x : string) (l : list string) : list string :=
  if str_mem x l then l else (l ++ [x])%list.

(** The three lines that build [complete_resource] from a resource. *)
Definition complete_resource (resource : value) : result string :=
  n <- getitem resource "name" ;;
  resource_name <- clean_name n ;;
  t <- getitem resource "type" ;;
  resource_type <- clean_type t ;;
  Ok (resource_type ++ "|" ++ resource_name).

(** First loop: the identifier of every resource, once each. *)
Definition resources_list (adf : value) : result (list string) :=
  rs <- getitem adf "resources" ;;
  rl <- iter rs ;;
  for_each rl
    (fun resource acc =>
       c <- complete_resource resource ;; Ok (append_new c acc))
    [].

(** ['dependsOn' in resource and len(resource['dependsOn']) == 1] *)
Definition has_single_dependency (resource : value) : result bool :=
  has <- contains "dependsOn" resource ;;
  if has
  then d <- getitem resource "dependsOn" ;; n <- len d ;; Ok (n =? 1)
  else Ok false.

(** The body of the second loop, for one resource. *)
Definition add_dependants (resource : value) (acc : list string)
    : result (list string) :=
  single <- has_single_dependency resource ;;
  if single
  then
    d <- getitem resource "dependsOn" ;;
    d0 <- getitem0 d ;;
    let dependant_name := clean_name_str (str d0) in
    let complete_dependant := replace dependant_name "/" "|" in
    Ok (append_new complete_dependant acc)
  else
    has <- contains "dependsOn" resource ;;
    if has
    then
      d <- getitem resource "dependsOn" ;;
      ds <- iter d ;;
      for_each ds
        (fun dependant acc =>
           dependant_name <- clean_name dependant ;;
           let complete_dependant := replace dependant_name "/" "|" in
           Ok (append_new complete_dependant acc))
        acc
    else Ok acc.

(** The body of the third loop, for one trigger. *)
Definition add_trigger (resource : value) (acc : list string)
    : result (list string) :=
  c <- complete_resource resource ;;
  has <- contains "dependsOn" resource ;;
  wired <- (if has
            then d <- getitem resource "dependsOn" ;; n <- len d ;; Ok (1 <=? n)
            else Ok false) ;;
  Ok (if wired then append_new c acc else acc).

(** Second and third loops: everything that counts as referenced. *)
Definition dependants_list (adf : value) (triggers : list value)
    : result (list string) :=
  rs <- getitem adf "resources" ;;
  rl <- iter rs ;;
  deps <- for_each rl add_dependants [] ;;
  for_each triggers add_trigger deps.

(** [get_resource_dependants(adf, triggers)] *)
Definition get_resource_dependants (adf : value) (triggers : list value)
    : result (list string) :=
  declared <- resources_list adf ;;
  referenced <- dependants_list adf triggers ;;
  Ok (filter (fun res => negb (str_mem res referenced)) declared).

(** [is_sensitive_property(name)] *)
Definition is_sensitive_property (name : string) : bool :=
  let lowered_name := lower name in
  str_contains lowered_name "key"
  || str_contains lowered_name "secret"
  || str_contains lowered_name "password"
  || str_contains lowered_name "token".

(** The escape sequences of [colorama] that [get_colored_severity]
    uses: [Fore.LIGHTBLUE_EX], [Fore.YELLOW], [Fore.RED] and
    [Style.RESET_ALL]. *)
Record colors : Type := {
  LIGHTBLUE_EX : string;
  YELLOW : string;
  RED : string;
  RESET_ALL : string
}.

(** [get_colored_severity(severity)]: [None] when no case matches. *)
Definition get_colored_severity (c : colors) (severity : string)
    : option string :=
  if String.eqb severity "Low"
  then Some (LIGHTBLUE_EX c ++ severity ++ RESET_ALL c)
  else if String.eqb severity "Medium"
  then Some (YELLOW c ++ severity ++ RESET_ALL c)
  else if String.eqb severity "High"
  then Some (RED c ++ severity ++ RESET_ALL c)
  else None.

End Helper.

(* ================================================================== *)
(** * adf_linter.py *)
(* ================================================================== *)

Module Linter.
Import Py Helper.

(** One entry of [summary_table]. *)
Record summary_row : Type := {
  IssueCount : Z;
  CheckDetail : string;
  Severity : string
}.

(** One entry of [verbose_detail_table] (a Finding). *)
Record detail_row : Type := {
  Component : string;
  Name : value;
  FindingDetail : string;
  FindingSeverity : string
}.

(** The fields of an [ADFLintChecker]; [verbose] is the integer the
    command line passes and is tested for truth. *)
Record checker : Type := {
  check_number : Z;
  summary_table : list summary_row;
  verbose_detail_table : list detail_row;
  verbose : Z;
  ignore_assertion : bool
}.

(** [ADFLintChecker(verbose, ignore_assertion)] *)
Definition init (verbose : Z) (ignore_assertion : bool) : checker :=
  {| check_number := 0;
     summary_table := [];
     verbose_detail_table := [];
     verbose := verbose;
     ignore_assertion := ignore_assertion |}.

Definition is_verbose (self : checker) : bool := negb (verbose self =? 0).

(** What a check's loop changes: [check_counter] and the detail table. *)
Definition loop_state : Type := (Z * list detail_row)%type.

Definition enter (self : checker) : loop_state :=
  (0, verbose_detail_table self).

(** [check_counter += 1], then, under [if self.verbose], the append of
    a Finding whose name is computed inside that branch. *)
Definition report (self : checker) (component : string)
    (name : result value) (detail severity : string) (st : loop_state)
    : result loop_state :=
  if is_verbose self
  then
    n <- name ;;
    Ok (fst st + 1,
        (snd st ++ [ {| Component := component; Name := n;
                        FindingDetail := detail;
                        FindingSeverity := severity |} ])%list)
  else Ok (fst st + 1, snd st).

(** [self.check_number += 1] and [self.summary_table.append(...)]. *)
Definition finish (self : checker) (check_detail severity : string)
    (st : loop_state) : checker :=
  {| check_number := check_number self + 1;
     summary_table :=
       (summary_table self
          ++ [ {| IssueCount := fst st; CheckDetail := check_detail;
                  Severity := severity |} ])%list;
     verbose_detail_table := snd st;
     verbose := verbose self;
     ignore_assertion := ignore_assertion self |}.

(** [assert_adf_lint_free]: the argument of [sys.exit] when it is
    called, [None] when the method returns. *)
Definition has_errors (self : checker) : bool :=
  let d := Z.of_nat (List.length (verbose_detail_table self)) in
  let s := Z.of_nat (List.length (summary_table self)) in
  (s <? d) && (0 <? s).

Definition assert_adf_lint_free (self : checker) : option bool :=
  if negb (ignore_assertion self) then Some (has_errors self) else None.

(** ** The checks *)

Definition check_master_pipeline_without_triggers
    (redundant_resources : list string) (self : checker) : result checker :=
  let check_detail :=
    "Master Pipeline(s) without any triggers attached. Directly or indirectly." in
  let severity := "Medium" in
  st <- for_each
          (filter (fun r => startswith r "pipelines" && str_contains r "master")
             redundant_resources)
          (fun redundant_resource st =>
             parts <- split redundant_resource "|" ;;
             report self "Pipeline" (p <- nth_str parts 1 ;; Ok (VStr p))
               "Does not have any triggers attached." severity st)
          (enter self) ;;
  Ok (finish self check_detail severity st).

(** [pipeline['properties']['activities']], as iterated. *)
Definition pipeline_activity_list (pipeline : value) : result (list value) :=
  props <- getitem pipeline "properties" ;;
  acts <- getitem props "activities" ;;
  iter acts.

(** The innermost loop of both passes: the targets of the entries of
    [depends_on] that carry [condition]. *)
Definition collect_targets (condition : string) (depends_on : value)
    (acc : list value) : result (list value) :=
  ds <- iter depends_on ;;
  for_each ds
    (fun stream_activity acc =>
       conds <- getitem stream_activity "dependencyConditions" ;;
       hit <- contains condition conds ;;
       if hit
       then a <- getitem stream_activity "activity" ;;
            Ok (append_new_value a acc)
       else Ok acc)
    acc.

Definition activity_failure_dependencies (pipeline : value)
    : result (list value) :=
  al <- pipeline_activity_list pipeline ;;
  for_each al
    (fun activity acc =>
       has <- contains "dependsOn" activity ;;
       multi <- (if has
                 then d <- getitem activity "dependsOn" ;;
                      n <- len d ;; Ok (1 <? n)
                 else Ok false) ;;
       if multi
       then d <- getitem activity "dependsOn" ;;
            collect_targets "Failed" d acc
       else Ok acc)
    [].

Definition activity_success_dependencies (pipeline : value)
    (failure : list value) : result (list value) :=
  for_each failure
    (fun activity_dependant acc =>
       al <- pipeline_activity_list pipeline ;;
       named <- filter_m
                  (fun act =>
                     n <- getitem act "name" ;;
                     Ok (py_eq n activity_dependant))
                  al ;;
       for_each named
         (fun activity acc =>
            has <- contains "dependsOn" activity ;;
            some <- (if has
                     then d <- getitem activity "dependsOn" ;;
                          n <- len d ;; Ok (1 <=? n)
                     else Ok false) ;;
            if some
            then d <- getitem activity "dependsOn" ;;
                 collect_targets "Succeeded" d acc
            else Ok acc)
         acc)
    [].

(** [problems], and whether it is non-empty. *)
Definition problems (pipeline : value) : result (list value) :=
  failure <- activity_failure_dependencies pipeline ;;
  success <- activity_success_dependencies pipeline failure ;;
  Ok (filter (fun problem => list_mem problem success) failure).

Definition check_pipeline_impossible_execution_chain
    (pipelines : list value) (self : checker) : result checker :=
  let check_detail :=
    "Pipeline(s) with an impossible AND/OR activity execution chain." in
  let severity := "High" in
  st <- for_each pipelines
          (fun pipeline st =>
             n <- getitem pipeline "name" ;;
             pipeline_name <- clean_name n ;;
             ps <- problems pipeline ;;
             match ps with
             | [] => Ok st
             | _ :: _ =>
                 report self "Pipeline" (Ok (VStr pipeline_name))
                   "Has an impossible AND/OR activity execution chain."
                   severity st
             end)
          (enter self) ;;
  Ok (finish self check_detail severity st).

Definition check_pipeline_descriptions
    (pipelines : list value) (self : checker) : result checker :=
  let check_detail := "Pipeline(s) without a description value." in
  let severity := "Low" in
  st <- for_each pipelines
          (fun pipeline st =>
             n <- getitem pipeline "name" ;;
             pipeline_name <- clean_name n ;;
             props <- getitem pipeline "properties" ;;
             pipeline_description <- get props "description" (VStr EmptyString) ;;
             if negb (truthy pipeline_description)
             then report self "Pipeline" (Ok (VStr pipeline_name))
                    "Does not have a description." severity st
             else Ok st)
          (enter self) ;;
  Ok (finish self check_detail severity st).

Definition check_pipelines_not_in_folder
    (pipelines : list value) (self : checker) : result checker :=
  let check_detail := "Pipeline(s) not organised into folders." in
  let severity := "Low" in
  st <- for_each pipelines
          (fun pipeline st =>
             n <- getitem pipeline "name" ;;
             pipeline_name <- clean_name n ;;
             props <- getitem pipeline "properties" ;;
             folder <- get props "folder" (VDict []) ;;
             pipeline_folder <- get folder "name" (VStr EmptyString) ;;
             if negb (truthy pipeline_folder)
             then report self "Pipeline" (Ok (VStr pipeline_name))
                    "Not organised into a folder." severity st
             else Ok st)
          (enter self) ;;
  Ok (finish self check_detail severity st).

Definition check_pipelines_without_annotation
    (pipelines : list value) (self : checker) : result checker :=
  let check_detail := "Pipeline(s) without annotations." in
  let severity := "Low" in
  st <- for_each pipelines
          (fun pipeline st =>
             n <- getitem pipeline "name" ;;
             pipeline_name <- clean_name n ;;
             props <- getitem pipeline "properties" ;;
             annotations <- get props "annotations" (VList []) ;;
             pipeline_annotations <- len annotations ;;
             if pipeline_annotations <=? 0
             then report self "Pipeline" (Ok (VStr pipeline_name))
                    "Does not have any annotations." severity st
             else Ok st)
          (enter self) ;;
  Ok (finish self check_detail severity st).

Definition check_data_flow_descriptions
    (dataflows : list value) (self : checker) : result checker :=
  let check_detail := "Data Flow(s) without a description value." in
  let severity := "Low" in
  st <- for_each dataflows
          (fun data_flow st =>
             n <- getitem data_flow "name" ;;
             data_flow_name <- clean_name n ;;
             props <- getitem data_flow "properties" ;;
             data_flow_description <- get props "description" (VStr EmptyString) ;;
             if negb (truthy data_flow_description)
             then report self "Data Flow" (Ok (VStr data_flow_name))
                    "Does not have a description." severity st
             else Ok st)
          (enter self) ;;
  Ok (finish self check_detail severity st).

(** ['policy' in activity and 'timeout' in activity['policy']] *)
Definition has_policy_timeout (activity : value) : result bool :=
  has_policy <- contains "policy" activity ;;
  if has_policy
  then p <- getitem activity "policy" ;; contains "timeout" p
  else Ok false.

Definition check_copy_activity_diu_values
    (activities : list value) (self : checker) : result checker :=
  let check_detail :=
    "Activities with DIU (Data Integration Units) values still set to the service default value of 'Auto'" in
  let severity := "High" in
  st <- for_each activities
          (fun item st =>
             '(folder_name, activity) <- unpack2 item ;;
             guarded <- has_policy_timeout activity ;;
             if guarded
             then
               tp <- getitem activity "typeProperties" ;;
               diu <- get tp "dataIntegrationUnits" VNone ;;
               activity_type <- getitem activity "type" ;;
               if py_eq activity_type (VStr "Copy") && is_none diu
               then report self "Activity"
                      (n <- get activity "name" (VStr "Unnamed Activity") ;;
                       Ok (VStr (str folder_name ++ "/" ++ str n)))
                      "DIU still set to the service default value of 'Auto'."
                      severity st
               else Ok st
             else Ok st)
          (enter self) ;;
  Ok (finish self check_detail severity st).

Definition check_activity_timeout_values
    (activities : list value) (self : checker) : result checker :=
  let check_detail :=
    "Activities with timeout values still set to the service default value of 7 days." in
  let severity := "High" in
  st <- for_each activities
          (fun activity st =>
             guarded <- has_policy_timeout activity ;;
             if guarded
             then
               p <- getitem activity "policy" ;;
               timeout <- getitem p "timeout" ;;
               if truthy timeout && py_eq timeout (VStr "7.00:00:00")
               then report self "Activity"
                      (get activity "name" (VStr "Unnamed Activity"))
                      "Timeout policy still set to the service default value of 7 days."
                      severity st
               else Ok st
             else Ok st)
          (enter self) ;;
  Ok (finish self check_detail severity st).

Definition check_activity_description
    (activities : list value) (self : checker) : result checker :=
  let check_detail := "Activities without a description value." in
  let severity := "Low" in
  st <- for_each activities
          (fun activity st =>
             activity_description <- get activity "description" (VStr EmptyString) ;;
             if negb (truthy activity_description)
             then report self "Activity"
                    (get activity "name" (VStr "Unnamed Activity"))
                    "Does not have a description." severity st
             else Ok st)
          (enter self) ;;
  Ok (finish self check_detail severity st).

(** [[act for act in activities if act.get('type') == 'ForEach']] *)
Definition foreach_activities (activities : list value)
    : result (list value) :=
  filter_m (fun act => t <- get act "type" VNone ;; Ok (py_eq t (VStr "ForEach")))
    activities.

Definition check_foreach_batch_size_unset
    (activities : list value) (self : checker) : result checker :=
  let check_detail :=
    "Activities ForEach iteration without a batch count value set." in
  let severity := "High" in
  fe <- foreach_activities activities ;;
  st <- for_each fe
          (fun activity st =>
             tp <- getitem activity "typeProperties" ;;
             is_sequential <- get tp "isSequential" (VBool false) ;;
             tp' <- getitem activity "typeProperties" ;;
             batch_count <- get tp' "batchCount" (VStr EmptyString) ;;
             if negb (truthy is_sequential) && negb (truthy batch_count)
             then report self "Activity"
                    (get activity "name" (VStr "Unnamed ForEach Activity"))
                    "ForEach does not have a batch count value set."
                    severity st
             else Ok st)
          (enter self) ;;
  Ok (finish self check_detail severity st).

Definition check_foreach_activity_batch_size_lt_service_maximum
    (activities : list value) (self : checker) : result checker :=
  let check_detail :=
    "Activities ForEach iteration with a batch count size that is less than the service maximum." in
  let severity := "Medium" in
  fe <- foreach_activities activities ;;
  st <- for_each fe
          (fun activity st =>
             tp <- getitem activity "typeProperties" ;;
             is_sequential <- get tp "isSequential" (VBool false) ;;
             tp' <- getitem activity "typeProperties" ;;
             batch_count <- get tp' "batchCount" VNone ;;
             small <- (if negb (truthy is_sequential) && negb (is_none batch_count)
                       then n <- int batch_count ;; Ok (n <? 50)
                       else Ok false) ;;
             if small
             then report self "Activity"
                    (get activity "name" (VStr "Unnamed ForEach Activity"))
                    "ForEach has a batch size that is less than the service maximum."
                    severity st
             else Ok st)
          (enter self) ;;
  Ok (finish self check_detail severity st).

(** The loop of [check_linked_services_using_key_vault] over the
    properties of one linked service. *)
Definition scan_type_properties (linked_service : value)
    (props : list (string * value)) (acc : list string)
    : result (list string) :=
  for_each props
    (fun prop acc =>
       let '(prop_name, prop_value) := prop in
       if negb (str_contains (str prop_value) "secretName")
          && is_sensitive_property prop_name
       then
         n <- getitem linked_service "name" ;;
         c <- clean_name n ;;
         let linked_service_name := c ++ " -> " ++ prop_name in
         Ok (append_new linked_service_name acc)
       else
         n <- getitem linked_service "name" ;;
         linked_service_name <- clean_name n ;;
         Ok (if str_mem linked_service_name acc
             then remove_first linked_service_name acc
             else acc))
    acc.

Definition check_linked_services_using_key_vault
    (linked_services : list value) (self : checker) : result checker :=
  let check_detail :=
    "Linked Service(s) not using Azure Key Vault to store credentials." in
  let severity := "High" in
  candidates <- filter_m
                  (fun ls =>
                     p <- getitem ls "properties" ;;
                     t <- getitem p "type" ;;
                     Ok (negb (py_eq t (VStr "AzureKeyVault"))))
                  linked_services ;;
  linked_service_list <-
    for_each candidates
      (fun linked_service acc =>
         p <- getitem linked_service "properties" ;;
         tp <- getitem p "typeProperties" ;;
         props <- items tp ;;
         scan_type_properties linked_service props acc)
      [] ;;
  let check_counter := Z.of_nat (List.length linked_service_list) in
  let rows :=
    map (fun linked_service_output =>
           {| Component := "Linked Service";
              Name := VStr linked_service_output;
              FindingDetail := "Not using Key Vault to store credentials.";
              FindingSeverity := severity |})
      linked_service_list in
  Ok (finish self check_detail severity
        (check_counter,
         if is_verbose self
         then (verbose_detail_table self ++ rows)%list
         else verbose_detail_table self)).

Definition check_orphaned_linked_services
    (redundant_resources : list string) (self : checker) : result checker :=
  let check_detail := "Linked Service(s) not used by any other resource." in
  let severity := "Medium" in
  st <- for_each
          (filter (fun r => startswith r "linkedServices") redundant_resources)
          (fun redundant_resource st =>
             parts <- split redundant_resource "|" ;;
             report self "Linked Service" (p <- nth_str parts 1 ;; Ok (VStr p))
               "Not used by any other resource." severity st)
          (enter self) ;;
  Ok (finish self check_detail severity st).

Definition check_linked_services_has_description
    (linked_services : list value) (self : checker) : result checker :=
  let check_detail := "Linked Service(s) without a description value." in
  let severity := "Low" in
  st <- for_each linked_services
          (fun linked_service st =>
             n <- getitem linked_service "name" ;;
             linked_service_name <- clean_name n ;;
             props <- getitem linked_service "properties" ;;
             linked_service_description <-
               get props "description" (VStr EmptyString) ;;
             if negb (truthy linked_service_description)
             then report self "Linked Service" (Ok (VStr linked_service_name))
                    "Does not have a description." severity st
             else Ok st)
          (enter self) ;;
  Ok (finish self check_detail severity st).

Definition check_linked_services_has_annotation
    (linked_services : list value) (self : checker) : result checker :=
  let check_detail := "Linked Service(s) without annotations." in
  let severity := "Low" in
  st <- for_each linked_services
          (fun linked_service st =>
             n <- getitem linked_service "name" ;;
             linked_service_name <- clean_name n ;;
             props <- getitem linked_service "properties" ;;
             annotations <- get props "annotations" (VList []) ;;
             linked_service_annotations <- len annotations ;;
             if linked_service_annotations <=? 0
             then report self "Linked Service" (Ok (VStr linked_service_name))
                    "Does not have any annotations." severity st
             else Ok st)
          (enter self) ;;
  Ok (finish self check_detail severity st).

Definition check_orphaned_dataset
    (redundant_resources : list string) (self : checker) : result checker :=
  let check_detail := "Dataset(s) not used by any other resource." in
  let severity := "Medium" in
  st <- for_each
          (filter (fun r => startswith r "datasets") redundant_resources)
          (fun redundant_resource st =>
             parts <- split redundant_resource "|" ;;
             report self "Dataset" (p <- nth_str parts 1 ;; Ok (VStr p))
               "Not used by any other resource." severity st)
          (enter self) ;;
  Ok (finish self check_detail severity st).

Definition check_datasets_without_description
    (datasets : list value) (self : checker) : result checker :=
  let check_detail := "Dataset(s) without a description value." in
  let severity := "Low" in
  st <- for_each datasets
          (fun dataset st =>
             n <- getitem dataset "name" ;;
             dataset_name <- clean_name n ;;
             props <- getitem dataset "properties" ;;
             dataset_description <- get props "description" (VStr EmptyString) ;;
             if negb (truthy dataset_description)
             then report self "Dataset" (Ok (VStr dataset_name))
                    "Does not have a description." severity st
             else Ok st)
          (enter self) ;;
  Ok (finish self check_detail severity st).

Definition check_datasets_not_in_folder
    (datasets : list value) (self : checker) : result checker :=
  let check_detail := "Dataset(s) not organised into folders." in
  let severity := "Low" in
  st <- for_each datasets
          (fun dataset st =>
             n <- getitem dataset "name" ;;
             dataset_name <- clean_name n ;;
             props <- getitem dataset "properties" ;;
             folder <- get props "folder" (VDict []) ;;
             dataset_folder <- get folder "name" (VStr EmptyString) ;;
             if negb (truthy dataset_folder)
             then report self "Dataset" (Ok (VStr dataset_name))
                    "Not organised into a folder." severity st
             else Ok st)
          (enter self) ;;
  Ok (finish self check_detail severity st).

Definition check_datasets_without_annotation
    (datasets : list value) (self : checker) : result checker :=
  let check_detail := "Dataset(s) without annotations." in
  let severity := "Low" in
  st <- for_each datasets
          (fun dataset st =>
             n <- getitem dataset "name" ;;
             dataset_name <- clean_name n ;;
             props <- getitem dataset "properties" ;;
             annotations <- get props "annotations" (VList []) ;;
             dataset_annotations <- len annotations ;;
             if dataset_annotations <=? 0
             then report self "Dataset" (Ok (VStr dataset_name))
                    "Does not have any annotations." severity st
             else Ok st)
          (enter self) ;;
  Ok (finish self check_detail severity st).

Definition check_orphaned_triggers
    (redundant_resources : list string) (self : checker) : result checker :=
  let check_detail := "Trigger(s) not used by any other resource." in
  let severity := "Medium" in
  st <- for_each
          (filter (fun r => startswith r "triggers") redundant_resources)
          (fun redundant_resource st =>
             parts <- split redundant_resource "|" ;;
             report self "Trigger" (p <- nth_str parts 1 ;; Ok (VStr p))
               "Not used by any other resource." severity st)
          (enter self) ;;
  Ok (finish self check_detail severity st).

Definition check_triggers_has_description
    (triggers : list value) (self : checker) : result checker :=
  let check_detail := "Trigger(s) without a description value." in
  let severity := "Low" in
  st <- for_each triggers
          (fun trigger st =>
             n <- getitem trigger "name" ;;
             trigger_name <- clean_name n ;;
             props <- getitem trigger "properties" ;;
             trigger_description <- get props "description" (VStr EmptyString) ;;
             if negb (truthy trigger_description)
             then report self "Trigger" (Ok (VStr trigger_name))
                    "Does not have a description." severity st
             else Ok st)
          (enter self) ;;
  Ok (finish self check_detail severity st).

Definition check_triggers_without_annotation
    (triggers : list value) (self : checker) : result checker :=
  let check_detail := "Trigger(s) without annotations." in
  let severity := "Low" in
  st <- for_each triggers
          (fun trigger st =>
             n <- getitem trigger "name" ;;
             trigger_name <- clean_name n ;;
             props <- getitem trigger "properties" ;;
             annotations <- get props "annotations" (VList []) ;;
             trigger_annotations <- len annotations ;;
             if trigger_annotations <=? 0
             then report self "Trigger" (Ok (VStr trigger_name))
                    "Does not have any annotations." severity st
             else Ok st)
          (enter self) ;;
  Ok (finish self check_detail severity st).

(** ** [main] *)

(** [[res for res in adf['resources'] if res['type'] == ty]] *)
Definition resources_of_type (adf : value) (ty : string)
    : result (list value) :=
  rs <- getitem adf "resources" ;;
  rl <- iter rs ;;
  filter_m (fun res => t <- getitem res "type" ;; Ok (py_eq t (VStr ty))) rl.

(** The part of the [activities] comprehension run for one pipeline:
    the iterable is evaluated first, the element expression once per
    activity. *)
Definition pipeline_activities (pipeline : value) : result (list value) :=
  al <- pipeline_activity_list pipeline ;;
  map_m (fun p =>
           props <- getitem pipeline "properties" ;;
           folder <- getitem props "folder" ;;
           name <- getitem folder "name" ;;
           Ok (VTuple [name; p]))
    al.

(** The six lists [main] slices the template into (the fields of the
    [ARMTemplate] dataclass). *)
Record ARMTemplate : Type := {
  linked_services : list value;
  datasets : list value;
  pipelines : list value;
  activities : list value;
  dataflows : list value;
  triggers : list value
}.

Definition slice_template (adf : value) : result ARMTemplate :=
  linked_services <-
    resources_of_type adf "Microsoft.DataFactory/factories/linkedServices" ;;
  datasets <- resources_of_type adf "Microsoft.DataFactory/factories/datasets" ;;
  pipelines <- resources_of_type adf "Microsoft.DataFactory/factories/pipelines" ;;
  per_pipeline <- map_m pipeline_activities pipelines ;;
  dataflows <- resources_of_type adf "Microsoft.DataFactory/factories/dataflows" ;;
  triggers <- resources_of_type adf "Microsoft.DataFactory/factories/triggers" ;;
  Ok {| linked_services := linked_services;
        datasets := datasets;
        pipelines := pipelines;
        activities := List.concat per_pipeline;
        dataflows := dataflows;
        triggers := triggers |}.

(** The twenty-two calls of [main], in its order. *)
Definition run_checks (t : ARMTemplate) (redundant_resources : list string)
    (self : checker) : result checker :=
  self <- check_master_pipeline_without_triggers redundant_resources self ;;
  self <- check_pipeline_impossible_execution_chain (pipelines t) self ;;
  self <- check_pipeline_descriptions (pipelines t) self ;;
  self <- check_pipelines_not_in_folder (pipelines t) self ;;
  self <- check_pipelines_without_annotation (pipelines t) self ;;
  self <- check_data_flow_descriptions (dataflows t) self ;;
  self <- check_activity_timeout_values (activities t) self ;;
  self <- check_copy_activity_diu_values (activities t) self ;;
  self <- check_activity_description (activities t) self ;;
  self <- check_foreach_batch_size_unset (activities t) self ;;
  self <- check_foreach_activity_batch_size_lt_service_maximum (activities t) self ;;
  self <- check_linked_services_using_key_vault (linked_services t) self ;;
  self <- check_orphaned_linked_services redundant_resources self ;;
  self <- check_linked_services_has_description (linked_services t) self ;;
  self <- check_linked_services_has_annotation (linked_services t) self ;;
  self <- check_orphaned_dataset redundant_resources self ;;
  self <- check_datasets_without_description (datasets t) self ;;
  self <- check_datasets_not_in_folder (datasets t) self ;;
  self <- check_datasets_without_annotation (datasets t) self ;;
  self <- check_orphaned_triggers redundant_resources self ;;
  self <- check_triggers_has_description (triggers t) self ;;
  check_triggers_without_annotation (triggers t) self.

(** [main], from the parsed template on: the final checker and what
    [assert_adf_lint_free] hands to [sys.exit], if it calls it. *)
Definition main (adf : value) (self : checker)
    : result (checker * option bool) :=
  t <- slice_template adf ;;
  redundant_resources <- get_resource_dependants adf (triggers t) ;;
  self <- run_checks t redundant_resources self ;;
  Ok (self, assert_adf_lint_free self).

(** ** main.py: the [lint] command *)

Definition lint (adf : value) (verbose : Z) (assertion : string)
    : result (checker * option bool) :=
  let ignore_assertion := String.eqb assertion "n" in
  main adf (init verbose ignore_assertion).

(** The exit status of the process: an uncaught exception ends it with
    status 1, [sys.exit(True)] with 1, [sys.exit(False)] and a normal
    return with 0. *)
Definition exit_status (r : result (checker * option bool)) : Z :=
  match r with
  | Raise _ => 1
  | Ok (_, Some b) => Z.b2z b
  | Ok (_, None) => 0
  end.

(** ** [log_summary_table]: what it hands to the console *)

(** The three columns of the summary, as the loop fills them. *)
Record summary_columns : Type := {
  IssueCountColumn : list Z;
  CheckDetailsColumn : list string;
  SeverityColumn : list (option string)
}.

(** The four columns of the detail table. *)
Record detail_columns : Type := {
  ComponentColumn : list string;
  NameColumn : list value;
  CheckDetailColumn : list string;
  SeverityColoredColumn : list (option string)
}.

(** The detail columns (verbose only), the summary columns and the
    three numbers of the results summary. *)
Record summary_output : Type := {
  Details : option detail_columns;
  Columns : summary_columns;
  ChecksRan : Z;
  ChecksWithIssues : Z;
  TotalIssueCount : Z
}.

Definition log_summary_table (c : colors) (self : checker) : summary_output :=
  let columns :=
    fold_left
      (fun cols item =>
         if negb (IssueCount item =? 0)
         then {| IssueCountColumn :=
                   (IssueCountColumn cols ++ [IssueCount item])%list;
                 CheckDetailsColumn :=
                   (CheckDetailsColumn cols ++ [CheckDetail item])%list;
                 SeverityColumn :=
                   (SeverityColumn cols
                      ++ [get_colored_severity c (Severity item)])%list |}
         else cols)
      (summary_table self)
      {| IssueCountColumn := []; CheckDetailsColumn := [];
         SeverityColumn := [] |} in
  {| Details :=
       if is_verbose self
       then Some
              {| ComponentColumn := map Component (verbose_detail_table self);
                 NameColumn := map Name (verbose_detail_table self);
                 CheckDetailColumn :=
                   map FindingDetail (verbose_detail_table self);
                 SeverityColoredColumn :=
                   map (fun detail =>
                          get_colored_severity c (FindingSeverity detail))
                     (verbose_detail_table self) |}
       else None;
     Columns := columns;
     ChecksRan := check_number self;
     ChecksWithIssues :=
       fold_left (fun acc item => if negb (IssueCount item =? 0) then acc + 1 else acc)
         (summary_table self) 0;
     TotalIssueCount :=
       fold_left (fun acc item => acc + IssueCount item) (summary_table self) 0 |}.

End Linter.

(* ================================================================== *)
(** * The specification: data model, orphans and contradictions *)
(* ================================================================== *)

Module Spec.
Import Py Helper.

(** ** Reading a template as the data model of the specification *)

(** A list of strings, when every element is one. *)
Fixpoint strings_of (l : list value) : option (list string) :=
  match l with
  | [] => Some []
  | VStr s :: l' => option_map (cons s) (strings_of l')
  | _ :: _ => None
  end.

(** Every element read by [f], or nothing. *)
Fixpoint read_all {A : Type} (f : value -> option A) (l : list value)
    : option (list A) :=
  match l with
  | [] => Some []
  | v :: l' =>
      match f v, read_all f l' with
      | Some a, Some al => Some (a :: al)
      | _, _ => None
      end
  end.

(** A Resource: raw type, raw name and the references of [dependsOn],
    if it has the field. *)
Record resource : Type := {
  res_type : string;
  res_name : string;
  res_dependsOn : option (list string)
}.

Definition read_resource (v : value) : option resource :=
  match v with
  | VDict kvs =>
      match assoc "name" kvs, assoc "type" kvs with
      | Some (VStr n), Some (VStr t) =>
          match assoc "dependsOn" kvs with
          | None =>
              Some {| res_type := t; res_name := n; res_dependsOn := None |}
          | Some (VList ds) =>
              option_map
                (fun l => {| res_type := t; res_name := n;
                             res_dependsOn := Some l |})
                (strings_of ds)
          | Some _ => None
          end
      | _, _ => None
      end
  | _ => None
  end.

(** A Document: the ordered sequence of its Resources. *)
Definition read_document (adf : value) : option (list resource) :=
  match adf with
  | VDict kvs =>
      match assoc "resources" kvs with
      | Some (VList rl) => read_all read_resource rl
      | _ => None
      end
  | _ => None
  end.

(** One entry of an Activity's [dependsOn]: target and conditions. *)
Record dependency : Type := {
  dep_activity : string;
  dep_conditions : list string
}.

(** An Activity, as far as the chain analyzer looks at it. *)
Record activity : Type := {
  act_name : string;
  act_dependsOn : option (list dependency)
}.

(** A Pipeline: raw name and its Activities in declaration order. *)
Record pipeline : Type := {
  pl_name : string;
  pl_activities : list activity
}.

Definition read_dependency (v : value) : option dependency :=
  match v with
  | VDict kvs =>
      match assoc "activity" kvs, assoc "dependencyConditions" kvs with
      | Some (VStr a), Some (VList cs) =>
          option_map
            (fun l => {| dep_activity := a; dep_conditions := l |})
            (strings_of cs)
      | _, _ => None
      end
  | _ => None
  end.

Definition read_activity (v : value) : option activity :=
  match v with
  | VDict kvs =>
      match assoc "name" kvs with
      | Some (VStr n) =>
          match assoc "dependsOn" kvs with
          | None => Some {| act_name := n; act_dependsOn := None |}
          | Some (VList ds) =>
              option_map
                (fun l => {| act_name := n; act_dependsOn := Some l |})
                (read_all read_dependency ds)
          | Some _ => None
          end
      | _ => None
      end
  | _ => None
  end.

Definition read_pipeline (v : value) : option pipeline :=
  match v with
  | VDict kvs =>
      match assoc "name" kvs, assoc "properties" kvs with
      | Some (VStr n), Some (VDict props) =>
          match assoc "activities" props with
          | Some (VList al) =>
              option_map
                (fun l => {| pl_name := n; pl_activities := l |})
                (read_all read_activity al)
          | _ => None
          end
      | _, _ => None
      end
  | _ => None
  end.

(** ** Sets kept as lists in order of first occurrence *)

Fixpoint dedup (l : list string) : list string :=
  match l with
  | [] => []
  | x :: l' => x :: filter (fun y => negb (String.eqb y x)) (dedup l')
  end.

Definition member (x : string) (l : list string) : bool :=
  existsb (String.eqb x) l.

(** ** Orphan detection (section 4.3) *)

(** The identifier [typeFamily|canonicalName] of a Resource. *)
Definition identifier (r : resource) : string :=
  clean_type_str (res_type r) ++ "|" ++ clean_name_str (res_name r).

(** The identifier a [dependsOn] reference is normalized to. *)
Definition target_identifier (reference : string) : string :=
  replace (clean_name_str reference) "/" "|".

Definition references (r : resource) : list string :=
  match res_dependsOn r with
  | Some ds => ds
  | None => []
  end.

(** Step 1: the identifiers of every top-level Resource. *)
Definition declared (rs : list resource) : list string :=
  dedup (map identifier rs).

Definition is_trigger (r : resource) : bool :=
  String.eqb (res_type r) "Microsoft.DataFactory/factories/triggers".

(** Step 3: the Triggers that have one or more [dependsOn] entries. *)
Definition wired_triggers (rs : list resource) : list resource :=
  filter (fun r => is_trigger r
                   && match references r with [] => false | _ => true end)
    rs.

(** Steps 2 and 3: every normalized target, then the own identifier of
    every wired Trigger. *)
Definition referenced (rs : list resource) : list string :=
  dedup (flat_map (fun r => map target_identifier (references r)) rs
         ++ map identifier (wired_triggers rs)).

(** Step 4: [declared - referenced], in declaration order. *)
Definition orphaned (rs : list resource) : list string :=
  filter (fun i => negb (member i (referenced rs))) (declared rs).

(** ** Contradiction detection (section 4.4) *)

Definition dependencies (a : activity) : list dependency :=
  match act_dependsOn a with
  | Some ds => ds
  | None => []
  end.

(** The targets of the entries of [a] that carry [condition]. *)
Definition targets_with (condition : string) (a : activity) : list string :=
  map dep_activity
    (filter (fun d => member condition (dep_conditions d)) (dependencies a)).

(** Step 1: the [Failed] targets of the activities whose [dependsOn]
    has more than one entry. *)
Definition mustHaveFailed (acts : list activity) : list string :=
  dedup
    (flat_map (targets_with "Failed")
       (filter (fun a => (1 <? List.length (dependencies a))%nat) acts)).

(** Step 2: for every name in [mustHaveFailed], the [Succeeded]
    targets of the activities of that name. *)
Definition mustHaveSucceeded (acts : list activity) : list string :=
  dedup
    (flat_map
       (fun n =>
          flat_map (targets_with "Succeeded")
            (filter (fun a => String.eqb (act_name a) n) acts))
       (mustHaveFailed acts)).

(** Step 3: the intersection. *)
Definition contradictions (acts : list activity) : list string :=
  filter (fun n => member n (mustHaveSucceeded acts)) (mustHaveFailed acts).

(** Step 4: the pipeline is flagged when the intersection is not empty. *)
Definition flagged (p : pipeline) : bool :=
  match contradictions (pl_activities p) with
  | [] => false
  | _ :: _ => true
  end.

(** The Rule Result and the Findings of the rule: one issue and one
    Finding of severity High for each flagged pipeline. *)
Definition chain_result (ps : list pipeline) : Linter.summary_row :=
  {| Linter.IssueCount := Z.of_nat (List.length (filter flagged ps));
     Linter.CheckDetail :=
       "Pipeline(s) with an impossible AND/OR activity execution chain.";
     Linter.Severity := "High" |}.

Definition chain_findings (ps : list pipeline) : list Linter.detail_row :=
  map (fun p =>
         {| Linter.Component := "Pipeline";
            Linter.Name := VStr (clean_name_str (pl_name p));
            Linter.FindingDetail :=
              "Has an impossible AND/OR activity execution chain.";
            Linter.FindingSeverity := "High" |})
    (filter flagged ps).

(** ** Support for the proofs *)

(** The loop that adds the elements of [l] one by one, each once. *)
Definition add_all (l acc : list string) : list string :=
  fold_left (fun acc x => append_new x acc) l acc.

End Spec.

(* ================================================================== *)
(** * Predicates on the checker used by the proofs *)
(* ================================================================== *)

Module Shape.
Import Py Linter.

(** What one completed check does to the checker: one more check,
    one more summary row, and Findings only when verbose, as many as
    the issues counted. *)
Definition check_step (self self' : checker) : Prop :=
  check_number self' = check_number self + 1
  /\ verbose self' = verbose self
  /\ ignore_assertion self' = ignore_assertion self
  /\ exists row findings,
       summary_table self' = (summary_table self ++ [row])%list
       /\ verbose_detail_table self'
          = (verbose_detail_table self ++ findings)%list
       /\ (is_verbose self = false -> findings = [])
       /\ (is_verbose self = true ->
           Z.of_nat (List.length findings) = IssueCount row).

(** The invariant of a check's loop. *)
Definition loop_inv (self : checker) (st : loop_state) : Prop :=
  exists findings,
    snd st = (verbose_detail_table self ++ findings)%list
    /\ (is_verbose self = false -> findings = [])
    /\ (is_verbose self = true -> Z.of_nat (List.length findings) = fst st).

(** [total_issue_count] of [log_summary_table]: the sum of the counts. *)
Definition total_issue_count (rows : list summary_row) : Z :=
  fold_right (fun item acc => IssueCount item + acc) 0 rows.

(** [n] checks completed between two states of the checker. *)
Definition ran (n : nat) (self self' : checker) : Prop :=
  check_number self' = check_number self + Z.of_nat n
  /\ verbose self' = verbose self
  /\ ignore_assertion self' = ignore_assertion self
  /\ exists rows findings,
       summary_table self' = (summary_table self ++ rows)%list
       /\ List.length rows = n
       /\ verbose_detail_table self'
          = (verbose_detail_table self ++ findings)%list
       /\ (is_verbose self = false -> findings = [])
       /\ (is_verbose self = true ->
           Z.of_nat (List.length findings) = total_issue_count rows).

(** The catalog: detail text and severity of the twenty-two checks,
    in the order [main] calls them. *)
Definition catalog : list (string * string) :=
  [("Master Pipeline(s) without any triggers attached. Directly or indirectly.", "Medium");
   ("Pipeline(s) with an impossible AND/OR activity execution chain.", "High");
   ("Pipeline(s) without a description value.", "Low");
   ("Pipeline(s) not organised into folders.", "Low");
   ("Pipeline(s) without annotations.", "Low");
   ("Data Flow(s) without a description value.", "Low");
   ("Activities with timeout values still set to the service default value of 7 days.", "High");
   ("Activities with DIU (Data Integration Units) values still set to the service default value of 'Auto'", "High");
   ("Activities without a description value.", "Low");
   ("Activities ForEach iteration without a batch count value set.", "High");
   ("Activities ForEach iteration with a batch count size that is less than the service maximum.", "Medium");
   ("Linked Service(s) not using Azure Key Vault to store credentials.", "High");
   ("Linked Service(s) not used by any other resource.", "Medium");
   ("Linked Service(s) without a description value.", "Low");
   ("Linked Service(s) without annotations.", "Low");
   ("Dataset(s) not used by any other resource.", "Medium");
   ("Dataset(s) without a description value.", "Low");
   ("Dataset(s) not organised into folders.", "Low");
   ("Dataset(s) without annotations.", "Low");
   ("Trigger(s) not used by any other resource.", "Medium");
   ("Trigger(s) without a description value.", "Low");
   ("Trigger(s) without annotations.", "Low")].

(** One completed check added the row of the catalog entry
    [(detail, severity)], with a count that is not negative. *)
Definition check_row (detail severity : string) (self self' : checker) : Prop :=
  exists n, 0 <= n
            /\ summary_table self'
               = (summary_table self
                    ++ [ {| IssueCount := n; CheckDetail := detail;
                            Severity := severity |} ])%list.

(** The rows added between two states are those of the entries [cat]. *)
Definition ran_rows (cat : list (string * string)) (self self' : checker)
    : Prop :=
  exists rows,
    summary_table self' = (summary_table self ++ rows)%list
    /\ map (fun r => (CheckDetail r, Severity r)) rows = cat
    /\ Forall (fun r => 0 <= IssueCount r) rows.

(** The second field of an identifier, as [split('|')] and [parts[1]]
    read it. *)
Definition second_part (r : string) : string :=
  nth 1 (split_from "|" r 0 EmptyString) EmptyString.

(** The summary rows with a count other than 0. *)
Definition shown_rows (self : checker) : list summary_row :=
  filter (fun item => negb (IssueCount item =? 0)) (summary_table self).

(** A check that found nothing: one more row, with count 0. *)
Definition clean_step (self self' : checker) : Prop :=
  exists detail severity,
    self' = finish self detail severity (0, verbose_detail_table self).

(** [n] checks in a row that found nothing. *)
Definition clean_run (n : nat) (self self' : checker) : Prop :=
  check_number self' = check_number self + Z.of_nat n
  /\ map IssueCount (summary_table self')
     = (map IssueCount (summary_table self) ++ repeat 0 n)%list
  /\ verbose_detail_table self' = verbose_detail_table self
  /\ ignore_assertion self' = ignore_assertion self.

(** The Findings of an orphan check for the identifiers it keeps. *)
Definition orphan_findings (component finding : string)
    (found : list string) : list detail_row :=
  map (fun r => {| Component := component;
                   Name := VStr (second_part r);
                   FindingDetail := finding;
                   FindingSeverity := "Medium" |})
    found.

(** The checker an orphan check leaves when it kept [found]. *)
Definition orphan_outcome (self : checker)
    (check_detail component finding : string) (found : list string)
    : checker :=
  finish self check_detail "Medium"
    (Z.of_nat (List.length found),
     if is_verbose self
     then (verbose_detail_table self
             ++ orphan_findings component finding found)%list
     else verbose_detail_table self).

(** A linked service as [check_linked_services_using_key_vault] reads
    it: its raw name, [properties.type] and the entries of
    [properties.typeProperties]. *)
Record linked_service : Type := {
  ls_name : string;
  ls_type : value;
  ls_typeProperties : list (string * value)
}.

Definition read_linked_service (v : value) : option linked_service :=
  match v with
  | VDict kvs =>
      match assoc "name" kvs, assoc "properties" kvs with
      | Some (VStr n), Some (VDict p) =>
          match assoc "type" p, assoc "typeProperties" p with
          | Some t, Some (VDict tp) =>
              Some {| ls_name := n; ls_type := t; ls_typeProperties := tp |}
          | _, _ => None
          end
      | _, _ => None
      end
  | _ => None
  end.

(** A linked service the check looks into: any type but the key vault. *)
Definition in_scope (l : linked_service) : bool :=
  negb (py_eq (ls_type l) (VStr "AzureKeyVault")).

(** A property with a sensitive name whose value, as text, does not
    mention [secretName]. *)
Definition exposes (prop : string * value) : bool :=
  negb (str_contains (str (snd prop)) "secretName")
  && Helper.is_sensitive_property (fst prop).

(** The entries a linked service contributes: [name -> property]. *)
Definition exposed (l : linked_service) : list string :=
  map (fun prop => Helper.clean_name_str (ls_name l) ++ " -> " ++ fst prop)
    (filter exposes (ls_typeProperties l)).

(** [' -> ' in s] *)
Definition has_arrow (s : string) : bool := str_contains s " -> ".

(** The checker the key vault check leaves when it lists [found]. *)
Definition key_vault_outcome (self : checker) (found : list string)
    : checker :=
  finish self
    "Linked Service(s) not using Azure Key Vault to store credentials." "High"
    (Z.of_nat (List.length found),
     if is_verbose self
     then (verbose_detail_table self
             ++ map (fun linked_service_output =>
                       {| Component := "Linked Service";
                          Name := VStr linked_service_output;
                          FindingDetail :=
                            "Not using Key Vault to store credentials.";
                          FindingSeverity := "High" |})
                  found)%list
     else verbose_detail_table self).

(** An activity as the two ForEach checks read it: a ForEach with its
    name (or the default the Finding shows), [isSequential] (false
    when absent) and an integer [batchCount] when there is one; or
    any other activity. *)
Inductive activity_kind : Type :=
| Other
| Loop (name : value) (sequential : bool) (batch : option Z).

Definition read_kind (v : value) : option activity_kind :=
  match v with
  | VDict kvs =>
      let type := match assoc "type" kvs with Some t => t | None => VNone end in
      if py_eq type (VStr "ForEach")
      then
        match assoc "typeProperties" kvs with
        | Some (VDict tp) =>
            let name :=
              match assoc "name" kvs with
              | Some n => n
              | None => VStr "Unnamed ForEach Activity"
              end in
            match assoc "isSequential" tp, assoc "batchCount" tp with
            | None, None => Some (Loop name false None)
            | None, Some (VInt n) => Some (Loop name false (Some n))
            | Some (VBool b), None => Some (Loop name b None)
            | Some (VBool b), Some (VInt n) => Some (Loop name b (Some n))
            | _, _ => None
            end
        | _ => None
        end
      else Some Other
  | _ => None
  end.

Definition is_loop (k : activity_kind) : bool :=
  match k with
  | Loop _ _ _ => true
  | Other => false
  end.

(** A parallel ForEach without a batch count, or with 0. *)
Definition batch_unset (k : activity_kind) : bool :=
  match k with
  | Loop _ false None => true
  | Loop _ false (Some n) => n =? 0
  | _ => false
  end.

(** A parallel ForEach with a batch count below 50. *)
Definition batch_small (k : activity_kind) : bool :=
  match k with
  | Loop _ false (Some n) => n <? 50
  | _ => false
  end.

Definition kind_name (k : activity_kind) : value :=
  match k with
  | Loop name _ _ => name
  | Other => VNone
  end.

(** The checker a ForEach check leaves when it flags [found]. *)
Definition foreach_outcome (self : checker)
    (check_detail severity finding : string) (found : list activity_kind)
    : checker :=
  finish self check_detail severity
    (Z.of_nat (List.length found),
     if is_verbose self
     then (verbose_detail_table self
             ++ map (fun k => {| Component := "Activity";
                                 Name := kind_name k;
                                 FindingDetail := finding;
                                 FindingSeverity := severity |})
                  found)%list
     else verbose_detail_table self).

(** A resource as the documentation checks read it: its raw name and
    the entries of [properties]. *)
Record described : Type := {
  d_name : string;
  d_properties : list (string * value)
}.

Definition read_described (v : value) : option described :=
  match v with
  | VDict kvs =>
      match assoc "name" kvs, assoc "properties" kvs with
      | Some (VStr n), Some (VDict p) =>
          Some {| d_name := n; d_properties := p |}
      | _, _ => None
      end
  | _ => None
  end.

(** No description, or one that is not true ([null], the empty string). *)
Definition lacks_description (d : described) : bool :=
  match assoc "description" (d_properties d) with
  | Some x => negb (truthy x)
  | None => true
  end.

(** The folder name when [folder] is absent or an object. *)
Definition folder_name (d : described) : option value :=
  match assoc "folder" (d_properties d) with
  | None => Some (VStr EmptyString)
  | Some (VDict folder) =>
      Some (match assoc "name" folder with
            | Some x => x
            | None => VStr EmptyString
            end)
  | Some _ => None
  end.

Definition lacks_folder (d : described) : bool :=
  match folder_name d with
  | Some x => negb (truthy x)
  | None => false
  end.

(** The number of annotations when [annotations] is absent or has a
    length. *)
Definition annotation_count (d : described) : option Z :=
  match assoc "annotations" (d_properties d) with
  | None => Some 0
  | Some a => match len a with Ok n => Some n | Raise _ => None end
  end.

Definition lacks_annotation (d : described) : bool :=
  match annotation_count d with
  | Some n => n <=? 0
  | None => false
  end.

Definition is_some {A : Type} (o : option A) : bool :=
  match o with
  | Some _ => true
  | None => false
  end.

(** The checker a documentation check leaves when it flags [found]. *)
Definition documentation_outcome (self : checker)
    (check_detail component finding : string) (found : list described)
    : checker :=
  finish self check_detail "Low"
    (Z.of_nat (List.length found),
     if is_verbose self
     then (verbose_detail_table self
             ++ map (fun d => {| Component := component;
                                 Name := VStr (Helper.clean_name_str (d_name d));
                                 FindingDetail := finding;
                                 FindingSeverity := "Low" |})
                  found)%list
     else verbose_detail_table self).

(** A pair [(folder name, activity)] as the DIU check reads it: an
    activity without [policy.timeout] is passed over; one with it has
    the name the Finding shows, its type compared with [Copy], and
    whether [dataIntegrationUnits] is absent or [null]. *)
Inductive timed_activity : Type :=
| Untimed
| Timed (shown_name : string) (is_copy : bool) (diu_unset : bool).

Definition read_timed (item : value) : option timed_activity :=
  match item with
  | VTuple [folder_name; VDict kvs] =>
      match assoc "policy" kvs with
      | None => Some Untimed
      | Some (VDict policy) =>
          match assoc "timeout" policy with
          | None => Some Untimed
          | Some _ =>
              match assoc "typeProperties" kvs, assoc "type" kvs with
              | Some (VDict tp), Some t =>
                  let name :=
                    match assoc "name" kvs with
                    | Some n => n
                    | None => VStr "Unnamed Activity"
                    end in
                  Some (Timed (str folder_name ++ "/" ++ str name)
                          (py_eq t (VStr "Copy"))
                          (match assoc "dataIntegrationUnits" tp with
                           | Some d => is_none d
                           | None => true
                           end))
              | _, _ => None
              end
          end
      | Some _ => None
      end
  | _ => None
  end.

Definition default_diu (a : timed_activity) : bool :=
  match a with
  | Timed _ is_copy diu_unset => is_copy && diu_unset
  | Untimed => false
  end.

Definition shown (a : timed_activity) : string :=
  match a with
  | Timed shown_name _ _ => shown_name
  | Untimed => EmptyString
  end.

End Shape.

(* ================================================================== *)
(** * Templates used as concrete inputs *)
(* ================================================================== *)

Module Examples.
Import Py.

(** The name expression of an exported template. *)
Definition arm_name (n : string) : value :=
  VStr ("[concat(parameters('factoryName'), '/" ++ n ++ "')]").

(** A reference as it stands in a [dependsOn] list. *)
Definition arm_ref (target : string) : value :=
  VStr ("[concat(variables('factoryId'), '/" ++ target ++ "')]").

(** A top-level resource of the factory. *)
Definition arm_resource (family name : string) (properties : value)
    (depends_on : list string) : value :=
  VDict [("name", arm_name name);
         ("type", VStr ("Microsoft.DataFactory/factories/" ++ family));
         ("apiVersion", VStr "2018-06-01");
         ("properties", properties);
         ("dependsOn", VList (map arm_ref depends_on))].

Definition template (resources : list value) : value :=
  VDict [("contentVersion", VStr "1.0.0.0"); ("resources", VList resources)].

(** One data flow without a description: a single Finding. *)
Definition adf_one_finding : value :=
  template [arm_resource "dataflows" "DF1" (VDict [("type", VStr "MappingDataFlow")]) []].

(** An activity left at the default timeout. *)
Definition wait_activity : value :=
  VDict [("name", VStr "Wait1");
         ("type", VStr "Wait");
         ("description", VStr "pause");
         ("policy", VDict [("timeout", VStr "7.00:00:00")]);
         ("typeProperties", VDict [("waitTimeInSeconds", VInt 1)])].

Definition adf_default_timeout : value :=
  template
    [arm_resource "pipelines" "P1"
       (VDict [("activities", VList [wait_activity]);
               ("folder", VDict [("name", VStr "ingest")])])
       []].



(** A pipeline with no activity and no folder. *)
Definition adf_empty_pipeline_without_folder : value :=
  template
    [arm_resource "pipelines" "P1"
       (VDict [("description", VStr "nothing to run");
               ("activities", VList []);
               ("annotations", VList [VStr "draft"])])
       []].

(** A pipeline with one activity and no folder. *)
Definition adf_pipeline_without_folder : value :=
  template
    [arm_resource "pipelines" "P1" (VDict [("activities", VList [wait_activity])]) []].

(** A small factory: a linked service used by a data set, a data set
    used by nothing, a pipeline started by a trigger, and a trigger
    with an empty [dependsOn]. *)
Definition adf_small_factory : value :=
  template
    [arm_resource "linkedServices" "LS1" (VDict [("type", VStr "AzureKeyVault")]) [];
     arm_resource "datasets" "D1" (VDict []) ["linkedServices/LS1"];
     arm_resource "datasets" "D2" (VDict []) ["linkedServices/LS1"];
     arm_resource "pipelines" "P1"
       (VDict [("activities", VList []); ("folder", VDict [("name", VStr "ingest")])])
       ["datasets/D1"];
     arm_resource "triggers" "T1" (VDict []) ["pipelines/P1"];
     arm_resource "triggers" "T2" (VDict []) []].

(** One entry of an activity's [dependsOn]. *)
Definition depends_on (target condition : string) : value :=
  VDict [("activity", VStr target);
         ("dependencyConditions", VList [VStr condition])].

Definition wait_named (name : string) (deps : list value) : value :=
  VDict [("name", VStr name);
         ("type", VStr "Wait");
         ("dependsOn", VList deps);
         ("typeProperties", VDict [("waitTimeInSeconds", VInt 1)])].

Definition pipeline_of (name : string) (acts : list value) : value :=
  arm_resource "pipelines" name
    (VDict [("activities", VList acts);
            ("folder", VDict [("name", VStr "ingest")])])
    [].

(** [A] waits for [B] and [C] to fail, [B] for [C] to succeed and [C]
    for [B] to succeed: both [B] and [C] must have failed and must
    have succeeded. *)
Definition activity_A : value :=
  wait_named "A" [depends_on "B" "Failed"; depends_on "C" "Failed"].
Definition activity_B : value := wait_named "B" [depends_on "C" "Succeeded"].
Definition activity_C : value := wait_named "C" [depends_on "B" "Succeeded"].

Definition clash_pipeline : value :=
  pipeline_of "clash" [activity_A; activity_B; activity_C].

Definition clash_pipeline_swapped : value :=
  pipeline_of "clash" [activity_B; activity_A; activity_C].

(** A single dependency is not part of a combination. *)
Definition plain_pipeline : value :=
  pipeline_of "plain"
    [wait_named "X" [depends_on "Y" "Failed"];
     wait_named "Y" [depends_on "X" "Succeeded"]].

(** The escape sequences of the console colours. *)
Definition escape (code : string) : string :=
  String (ascii_of_nat 27) ("[" ++ code ++ "m").

Definition ansi_colors : Helper.colors :=
  {| Helper.LIGHTBLUE_EX := escape "94";
     Helper.YELLOW := escape "33";
     Helper.RED := escape "31";
     Helper.RESET_ALL := escape "0" |}.

(** A storage linked service with a connection string in clear and
    an account key kept in the key vault, and the key vault itself. *)
Definition storage_linked_service : value :=
  VDict [("name", arm_name "Storage");
         ("type", VStr "Microsoft.DataFactory/factories/linkedServices");
         ("properties",
          VDict [("type", VStr "AzureBlobStorage");
                 ("typeProperties",
                  VDict [("connectionString", VStr "DefaultEndpointsProtocol=https");
                         ("sasToken", VStr "sv=2020");
                         ("accountKey",
                          VDict [("type", VStr "AzureKeyVaultSecret");
                                 ("secretName", VStr "storage-key")])])])].

Definition key_vault_linked_service : value :=
  VDict [("name", arm_name "Vault");
         ("type", VStr "Microsoft.DataFactory/factories/linkedServices");
         ("properties", VDict [("type", VStr "AzureKeyVault")])].

(** The key vault with its address. *)
Definition key_vault_linked_service_full : value :=
  VDict [("name", arm_name "Vault");
         ("type", VStr "Microsoft.DataFactory/factories/linkedServices");
         ("properties",
          VDict [("type", VStr "AzureKeyVault");
                 ("typeProperties", VDict [("baseUrl", VStr "https://vault")])])].

(** A storage linked service whose only credential is a key vault
    reference. *)
Definition vaulted_linked_service : value :=
  VDict [("name", arm_name "Storage");
         ("type", VStr "Microsoft.DataFactory/factories/linkedServices");
         ("properties",
          VDict [("type", VStr "AzureBlobStorage");
                 ("typeProperties",
                  VDict [("accountKey",
                          VDict [("type", VStr "AzureKeyVaultSecret");
                                 ("secretName", VStr "storage-key")])])])].

(** A ForEach activity with the given entries of [typeProperties]. *)
Definition foreach_activity (name : string) (tp : list (string * value))
    : value :=
  VDict [("name", VStr name); ("type", VStr "ForEach");
         ("typeProperties", VDict tp)].

(** A Copy activity without [dataIntegrationUnits], with or without
    a policy. *)
Definition copy_activity (name : string) (with_policy : bool) : value :=
  VDict ([("name", VStr name); ("type", VStr "Copy");
          ("typeProperties", VDict [("enableStaging", VBool false)])]
           ++ (if with_policy
               then [("policy", VDict [("timeout", VStr "0.12:00:00")])]
               else []))%list.

End Examples.

Import Py Helper Linter Spec Shape.

(* ================================================================== *)
(** * Facts about the string operations *)
(* ================================================================== *)

Section StringFacts.

Lemma prefix_one (c a : ascii) (s : string) :
  String.prefix (String c EmptyString) (String a s) = Ascii.eqb a c.
Proof.
  simpl. destruct (ascii_dec c a) as [->|n].
  - rewrite Ascii.eqb_refl. now destruct s.
  - symmetry. apply Ascii.eqb_neq. congruence.
Qed.

Lemma str_len_cons (a : ascii) (s : string) :
  str_len (String a s) = str_len s + 1.
Proof. unfold str_len. simpl String.length. lia. Qed.

Lemma str_len_app (s t : string) : str_len (s ++ t) = str_len s + str_len t.
Proof.
  induction s as [|a s IH]; simpl append.
  - change (str_len EmptyString) with 0. lia.
  - rewrite !str_len_cons, IH. lia.
Qed.

Lemma str_len_nonneg (s : string) : 0 <= str_len s.
Proof. unfold str_len. lia. Qed.

Lemma find_one_cons (c a : ascii) (s : string) :
  find (String a s) (String c EmptyString)
  = if Ascii.eqb a c then 0
    else let r := find s (String c EmptyString) in if r <? 0 then -1 else r + 1.
Proof.
  change (find (String a s) (String c EmptyString))
    with (if String.prefix (String c EmptyString) (String a s) then 0
          else let r := find s (String c EmptyString) in if r <? 0 then -1 else r + 1).
  now rewrite prefix_one.
Qed.

Lemma rfind_one_cons (c a : ascii) (s : string) :
  rfind (String a s) (String c EmptyString)
  = let r := rfind s (String c EmptyString) in
    if 0 <=? r then r + 1 else if Ascii.eqb a c then 0 else -1.
Proof.
  change (rfind (String a s) (String c EmptyString))
    with (let r := rfind s (String c EmptyString) in
          if 0 <=? r then r + 1
          else if String.prefix (String c EmptyString) (String a s) then 0 else -1).
  now rewrite prefix_one.
Qed.

Lemma find_absent (c : ascii) (s : string) :
  has_char c s = false -> find s (String c EmptyString) = -1.
Proof.
  induction s as [|a s IH]; intros H.
  - reflexivity.
  - simpl in H. apply orb_false_iff in H as [Ha Hs].
    rewrite find_one_cons, Ha, (IH Hs). reflexivity.
Qed.

Lemma find_first (c : ascii) (pre rest : string) :
  has_char c pre = false ->
  find (pre ++ String c rest) (String c EmptyString) = str_len pre.
Proof.
  induction pre as [|a pre IH]; intros H.
  - simpl append. rewrite find_one_cons, Ascii.eqb_refl. reflexivity.
  - simpl in H. apply orb_false_iff in H as [Ha Hs].
    simpl append. rewrite find_one_cons, Ha, (IH Hs), str_len_cons.
    cbv zeta. pose proof (str_len_nonneg pre).
    destruct (str_len pre <? 0) eqn:E; [apply Z.ltb_lt in E; lia | reflexivity].
Qed.

Lemma rfind_absent (c : ascii) (s : string) :
  has_char c s = false -> rfind s (String c EmptyString) = -1.
Proof.
  induction s as [|a s IH]; intros H.
  - reflexivity.
  - simpl in H. apply orb_false_iff in H as [Ha Hs].
    rewrite rfind_one_cons, (IH Hs), Ha. reflexivity.
Qed.

Lemma rfind_last (c : ascii) (pre post : string) :
  has_char c post = false ->
  rfind (pre ++ String c post) (String c EmptyString) = str_len pre.
Proof.
  intros H. induction pre as [|a pre IH].
  - simpl append. rewrite rfind_one_cons, (rfind_absent _ _ H), Ascii.eqb_refl.
    reflexivity.
  - simpl append. rewrite rfind_one_cons, IH, str_len_cons.
    cbv zeta. pose proof (str_len_nonneg pre).
    destruct (0 <=? str_len pre) eqn:E; [reflexivity | apply Z.leb_gt in E; lia].
Qed.



Lemma substring_middle (a m b : string) :
  String.substring (String.length a) (String.length m) (a ++ m ++ b) = m.
Proof.
  induction a as [|x a IH]; simpl.
  - induction m as [|y m IHm]; simpl.
    + now destruct b.
    + now rewrite IHm.
  - exact IH.
Qed.

(** A slice with both bounds inside the string is the text between. *)
Lemma slice_middle (a m b : string) :
  slice (a ++ m ++ b) (str_len a) (str_len a + str_len m) = m.
Proof.
  unfold slice, adjust_index. rewrite !str_len_app.
  pose proof (str_len_nonneg a). pose proof (str_len_nonneg m).
  pose proof (str_len_nonneg b).
  destruct (str_len a <? 0) eqn:E1; [apply Z.ltb_lt in E1; lia|].
  destruct (str_len a + str_len m <? 0) eqn:E2; [apply Z.ltb_lt in E2; lia|].
  rewrite !Z.min_l by lia.
  replace (str_len a + str_len m - str_len a) with (str_len m) by lia.
  unfold str_len. rewrite !Nat2Z.id. apply substring_middle.
Qed.

(** A slice whose upper bound is not above the lower one is empty. *)
Lemma slice_empty (s : string) (i j : Z) :
  0 <= i -> 0 <= j <= i -> slice s i j = EmptyString.
Proof.
  intros Hi Hj. unfold slice, adjust_index.
  destruct (i <? 0) eqn:E1; [apply Z.ltb_lt in E1; lia|].
  destruct (j <? 0) eqn:E2; [apply Z.ltb_lt in E2; lia|].
  replace (Z.to_nat (Z.min j (str_len s) - Z.min i (str_len s))) with 0%nat by lia.
  generalize (Z.to_nat (Z.min i (str_len s))). clear.
  induction s as [|a s IH]; intros n; destruct n; simpl; auto.
Qed.


End StringFacts.

(* ================================================================== *)
(** * Facts about loops and about the shape of a check *)
(* ================================================================== *)

Section LoopFacts.

Context {A S : Type}.

(** A property kept by every iteration is kept by the loop. *)
Lemma for_each_invariant (P : S -> Prop) (body : A -> S -> result S) :
  (forall x s s', body x s = Ok s' -> P s -> P s') ->
  forall xs s s', for_each xs body s = Ok s' -> P s -> P s'.
Proof.
  intros Hbody xs. induction xs as [|x xs IH]; intros s s' H Hs.
  - simpl in H. now inversion H; subst.
  - simpl in H. destruct (body x s) as [s1|e] eqn:E; simpl in H; [|discriminate].
    eapply IH; eauto.
Qed.


End LoopFacts.

Lemma map_m_in {A B : Type} (f : A -> result B) (xs : list A) (ys : list B) :
  map_m f xs = Ok ys ->
  forall x, In x xs -> exists y, f x = Ok y /\ In y ys.
Proof.
  revert ys. induction xs as [|a xs IH]; intros ys H x Hin.
  - contradiction.
  - simpl in H. destruct (f a) as [b|e] eqn:Ea; simpl in H; [|discriminate].
    destruct (map_m f xs) as [bs|e] eqn:Em; simpl in H; [|discriminate].
    inversion H; subst. destruct Hin as [->|Hin].
    + exists b. split; [assumption | now left].
    + destruct (IH bs eq_refl x Hin) as [y [Hy Hin']].
      exists y. split; [assumption | now right].
Qed.

Lemma map_m_forall {A B : Type} (P : B -> Prop) (f : A -> result B) :
  (forall x y, f x = Ok y -> P y) ->
  forall xs ys, map_m f xs = Ok ys -> Forall P ys.
Proof.
  intros Hf xs. induction xs as [|a xs IH]; intros ys H.
  - inversion H. constructor.
  - simpl in H. destruct (f a) as [b|e] eqn:Ea; simpl in H; [|discriminate].
    destruct (map_m f xs) as [bs|e] eqn:Em; simpl in H; [|discriminate].
    inversion H; subst. constructor; eauto.
Qed.

(** A comprehension with a failing element raises. *)
Lemma map_m_raises {A B : Type} (f : A -> result B) (x : A) (e : exn) :
  f x = Raise e ->
  forall xs, In x xs -> exists e', map_m f xs = Raise e'.
Proof.
  intros Hx xs. induction xs as [|y xs IH]; intros Hin.
  - contradiction.
  - simpl. destruct Hin as [->|Hin].
    + rewrite Hx. simpl. eauto.
    + destruct (f y) as [b|e1]; simpl; [|eauto].
      destruct (IH Hin) as [e' ->]. simpl. eauto.
Qed.

(** A comprehension raises at its first failing element. *)
Lemma map_m_first_raise {A B : Type} (f : A -> result B)
    (pre : list A) (x : A) (post : list A) (e : exn) :
  Forall (fun q => exists y, f q = Ok y) pre ->
  f x = Raise e ->
  map_m f (pre ++ x :: post) = Raise e.
Proof.
  intros Hpre Hx. induction Hpre as [|q pre [y Hq] _ IH]; simpl.
  - now rewrite Hx.
  - now rewrite Hq, IH.
Qed.

Lemma filter_m_ok {A : Type} (p q : A -> result bool) (xs : list A) :
  (forall x, (exists b, p x = Ok b) -> exists b, q x = Ok b) ->
  forall ys, filter_m p xs = Ok ys -> exists zs, filter_m q xs = Ok zs.
Proof.
  intros Hpq. induction xs as [|a xs IH]; intros ys H.
  - now exists [].
  - simpl in H. destruct (p a) as [b|e] eqn:Ea; simpl in H; [|discriminate].
    destruct (filter_m p xs) as [bs|e] eqn:Em; simpl in H; [|discriminate].
    destruct (Hpq a (ex_intro _ b Ea)) as [b' Hb'].
    destruct (IH bs eq_refl) as [zs Hzs].
    simpl. rewrite Hb', Hzs. simpl. eauto.
Qed.

Section CheckShape.

Lemma loop_inv_enter (self : checker) : loop_inv self (enter self).
Proof.
  exists []. simpl. rewrite app_nil_r. repeat split; auto.
Qed.

Lemma loop_inv_report (self : checker) (c : string) (n : result value)
    (d s : string) (st st' : loop_state) :
  report self c n d s st = Ok st' -> loop_inv self st -> loop_inv self st'.
Proof.
  unfold report. intros H [fs (Hd & Hq & Hv)].
  destruct (is_verbose self) eqn:V.
  - destruct n as [v|e]; simpl in H; [|discriminate]. inversion H; subst; clear H.
    eexists (fs ++ [_])%list. simpl. rewrite Hd, <- app_assoc.
    repeat split; [congruence|]. intros _. rewrite length_app. simpl.
    specialize (Hv eq_refl). lia.
  - inversion H; subst; clear H. exists fs. simpl. repeat split; auto.
    congruence.
Qed.

Lemma total_issue_count_app (a b : list summary_row) :
  total_issue_count (a ++ b) = total_issue_count a + total_issue_count b.
Proof.
  unfold total_issue_count. induction a as [|r a IH]; simpl; [reflexivity|].
  rewrite IH. lia.
Qed.

Lemma check_step_finish (self : checker) (cd sev : string) (st : loop_state) :
  loop_inv self st -> check_step self (finish self cd sev st).
Proof.
  intros [fs (Hd & Hq & Hv)]. unfold check_step, finish. simpl.
  repeat split. eexists _, fs. repeat split; eauto.
Qed.

End CheckShape.

(** Case analysis on a computation known to return. *)
Ltac returned :=
  repeat match goal with
    | H : Ok _ = Ok _ |- _ => inversion H; subst; clear H
    | H : Raise _ = Ok _ |- _ => discriminate H
    | H : bind ?m _ = Ok _ |- _ =>
        let E := fresh "E" in destruct m eqn:E; cbn [bind] in H
    | H : (if ?b then _ else _) = Ok _ |- _ =>
        let E := fresh "E" in destruct b eqn:E
    | H : (let '(_, _) := ?p in _) = Ok _ |- _ => destruct p
    | H : match ?x with _ => _ end = Ok _ |- _ =>
        let E := fresh "E" in destruct x eqn:E
    end.

(** The usual loop of a check: decide, then report or pass. *)
Ltac check_loop :=
  match goal with
  | H : for_each _ _ (enter ?self) = Ok ?st |- check_step ?self _ =>
      apply check_step_finish;
      refine (for_each_invariant (loop_inv self) _ _ _ _ _ H (loop_inv_enter self));
      clear; intros x s s' Hb Hs; returned;
      solve [ assumption | eapply loop_inv_report; eassumption ]
  end.

Section Checks.

Variables (self self' : checker).

Lemma check_master_pipeline_without_triggers_step rr :
  check_master_pipeline_without_triggers rr self = Ok self' -> check_step self self'.
Proof. unfold check_master_pipeline_without_triggers. intros H. returned. check_loop. Qed.

Lemma check_pipeline_impossible_execution_chain_step ps :
  check_pipeline_impossible_execution_chain ps self = Ok self' -> check_step self self'.
Proof. unfold check_pipeline_impossible_execution_chain. intros H. returned. check_loop. Qed.

Lemma check_pipeline_descriptions_step ps :
  check_pipeline_descriptions ps self = Ok self' -> check_step self self'.
Proof. unfold check_pipeline_descriptions. intros H. returned. check_loop. Qed.

Lemma check_pipelines_not_in_folder_step ps :
  check_pipelines_not_in_folder ps self = Ok self' -> check_step self self'.
Proof. unfold check_pipelines_not_in_folder. intros H. returned. check_loop. Qed.

Lemma check_pipelines_without_annotation_step ps :
  check_pipelines_without_annotation ps self = Ok self' -> check_step self self'.
Proof. unfold check_pipelines_without_annotation. intros H. returned. check_loop. Qed.

Lemma check_data_flow_descriptions_step ps :
  check_data_flow_descriptions ps self = Ok self' -> check_step self self'.
Proof. unfold check_data_flow_descriptions. intros H. returned. check_loop. Qed.

Lemma check_copy_activity_diu_values_step ps :
  check_copy_activity_diu_values ps self = Ok self' -> check_step self self'.
Proof. unfold check_copy_activity_diu_values. intros H. returned. check_loop. Qed.

Lemma check_activity_timeout_values_step ps :
  check_activity_timeout_values ps self = Ok self' -> check_step self self'.
Proof. unfold check_activity_timeout_values. intros H. returned. check_loop. Qed.

Lemma check_activity_description_step ps :
  check_activity_description ps self = Ok self' -> check_step self self'.
Proof. unfold check_activity_description. intros H. returned. check_loop. Qed.

Lemma check_foreach_batch_size_unset_step ps :
  check_foreach_batch_size_unset ps self = Ok self' -> check_step self self'.
Proof. unfold check_foreach_batch_size_unset. intros H. returned. check_loop. Qed.

Lemma check_foreach_activity_batch_size_lt_service_maximum_step ps :
  check_foreach_activity_batch_size_lt_service_maximum ps self = Ok self' ->
  check_step self self'.
Proof.
  unfold check_foreach_activity_batch_size_lt_service_maximum.
  intros H. returned. check_loop.
Qed.

Lemma check_linked_services_using_key_vault_step ps :
  check_linked_services_using_key_vault ps self = Ok self' -> check_step self self'.
Proof.
  unfold check_linked_services_using_key_vault. intros H. returned.
  apply check_step_finish. unfold loop_inv. simpl.
  destruct (is_verbose self).
  - eexists. split; [reflexivity|]. split; [congruence|].
    intros _. now rewrite length_map.
  - exists []. rewrite app_nil_r. repeat split; auto. congruence.
Qed.

Lemma check_orphaned_linked_services_step rr :
  check_orphaned_linked_services rr self = Ok self' -> check_step self self'.
Proof. unfold check_orphaned_linked_services. intros H. returned. check_loop. Qed.

Lemma check_linked_services_has_description_step ps :
  check_linked_services_has_description ps self = Ok self' -> check_step self self'.
Proof. unfold check_linked_services_has_description. intros H. returned. check_loop. Qed.

Lemma check_linked_services_has_annotation_step ps :
  check_linked_services_has_annotation ps self = Ok self' -> check_step self self'.
Proof. unfold check_linked_services_has_annotation. intros H. returned. check_loop. Qed.

Lemma check_orphaned_dataset_step rr :
  check_orphaned_dataset rr self = Ok self' -> check_step self self'.
Proof. unfold check_orphaned_dataset. intros H. returned. check_loop. Qed.

Lemma check_datasets_without_description_step ps :
  check_datasets_without_description ps self = Ok self' -> check_step self self'.
Proof. unfold check_datasets_without_description. intros H. returned. check_loop. Qed.

Lemma check_datasets_not_in_folder_step ps :
  check_datasets_not_in_folder ps self = Ok self' -> check_step self self'.
Proof. unfold check_datasets_not_in_folder. intros H. returned. check_loop. Qed.

Lemma check_datasets_without_annotation_step ps :
  check_datasets_without_annotation ps self = Ok self' -> check_step self self'.
Proof. unfold check_datasets_without_annotation. intros H. returned. check_loop. Qed.

Lemma check_orphaned_triggers_step rr :
  check_orphaned_triggers rr self = Ok self' -> check_step self self'.
Proof. unfold check_orphaned_triggers. intros H. returned. check_loop. Qed.

Lemma check_triggers_has_description_step ps :
  check_triggers_has_description ps self = Ok self' -> check_step self self'.
Proof. unfold check_triggers_has_description. intros H. returned. check_loop. Qed.

Lemma check_triggers_without_annotation_step ps :
  check_triggers_without_annotation ps self = Ok self' -> check_step self self'.
Proof. unfold check_triggers_without_annotation. intros H. returned. check_loop. Qed.

End Checks.

(* ================================================================== *)
(** * The run as a whole *)
(* ================================================================== *)

Section Run.

Lemma ran_zero (self : checker) : ran 0 self self.
Proof.
  unfold ran. repeat split; [simpl; lia|].
  exists [], []. rewrite !app_nil_r. repeat split; auto.
Qed.

Lemma ran_succ (n : nat) (a b c : checker) :
  ran n a b -> check_step b c -> ran (S n) a c.
Proof.
  intros (Hn & Hv & Hi & rows & fs & Hs & Hl & Hd & Hq & Hc)
         (Hn' & Hv' & Hi' & row & fs' & Hs' & Hd' & Hq' & Hc').
  assert (V : is_verbose b = is_verbose a) by (unfold is_verbose; now rewrite Hv).
  rewrite V in Hq', Hc'.
  unfold ran. repeat split; try congruence; [lia|].
  exists (rows ++ [row])%list, (fs ++ fs')%list.
  rewrite Hs', Hs, Hd', Hd, <- !app_assoc. repeat split.
  - rewrite length_app. simpl. lia.
  - intros X. now rewrite (Hq X), (Hq' X).
  - intros X. rewrite length_app, total_issue_count_app. simpl.
    specialize (Hc X). specialize (Hc' X). lia.
Qed.

End Run.

Create HintDb checks.

#[local] Hint Resolve
  check_master_pipeline_without_triggers_step
  check_pipeline_impossible_execution_chain_step
  check_pipeline_descriptions_step
  check_pipelines_not_in_folder_step
  check_pipelines_without_annotation_step
  check_data_flow_descriptions_step
  check_activity_timeout_values_step
  check_copy_activity_diu_values_step
  check_activity_description_step
  check_foreach_batch_size_unset_step
  check_foreach_activity_batch_size_lt_service_maximum_step
  check_linked_services_using_key_vault_step
  check_orphaned_linked_services_step
  check_linked_services_has_description_step
  check_linked_services_has_annotation_step
  check_orphaned_dataset_step
  check_datasets_without_description_step
  check_datasets_not_in_folder_step
  check_datasets_without_annotation_step
  check_orphaned_triggers_step
  check_triggers_has_description_step
  check_triggers_without_annotation_step : checks.

(** The bodies of the checks play no part in chaining them. *)
Opaque
  check_master_pipeline_without_triggers
  check_pipeline_impossible_execution_chain
  check_pipeline_descriptions
  check_pipelines_not_in_folder
  check_pipelines_without_annotation
  check_data_flow_descriptions
  check_activity_timeout_values
  check_copy_activity_diu_values
  check_activity_description
  check_foreach_batch_size_unset
  check_foreach_activity_batch_size_lt_service_maximum
  check_linked_services_using_key_vault
  check_orphaned_linked_services
  check_linked_services_has_description
  check_linked_services_has_annotation
  check_orphaned_dataset
  check_datasets_without_description
  check_datasets_not_in_folder
  check_datasets_without_annotation
  check_orphaned_triggers
  check_triggers_has_description
  check_triggers_without_annotation.

(** A completed catalog ran twenty-two checks. *)
Lemma run_checks_ran (t : ARMTemplate) (rr : list string) (self self' : checker) :
  run_checks t rr self = Ok self' -> ran 22 self self'.
Proof.
  unfold run_checks. intros H. returned.
  do 22 (eapply ran_succ; [| solve [eauto with checks]]).
  apply ran_zero.
Qed.

Transparent
  check_master_pipeline_without_triggers
  check_pipeline_impossible_execution_chain
  check_pipeline_descriptions
  check_pipelines_not_in_folder
  check_pipelines_without_annotation
  check_data_flow_descriptions
  check_activity_timeout_values
  check_copy_activity_diu_values
  check_activity_description
  check_foreach_batch_size_unset
  check_foreach_activity_batch_size_lt_service_maximum
  check_linked_services_using_key_vault
  check_orphaned_linked_services
  check_linked_services_has_description
  check_linked_services_has_annotation
  check_orphaned_dataset
  check_datasets_without_description
  check_datasets_not_in_folder
  check_datasets_without_annotation
  check_orphaned_triggers
  check_triggers_has_description
  check_triggers_without_annotation.

Lemma main_ran (adf : value) (self self' : checker) (code : option bool) :
  main adf self = Ok (self', code) ->
  ran 22 self self' /\ code = assert_adf_lint_free self'.
Proof.
  unfold main. intros H. returned. split; [|reflexivity].
  eapply run_checks_ran; eassumption.
Qed.

(** With assertion enabled, a completed run ends with a failure status
    exactly when it recorded more Findings than the twenty-two checks. *)
Lemma lint_exit_status (adf : value) (v : Z) (assertion : string)
    (self : checker) (code : option bool) :
  String.eqb assertion "n" = false ->
  lint adf v assertion = Ok (self, code) ->
  List.length (summary_table self) = 22%nat
  /\ (exit_status (lint adf v assertion) = 1
      <-> (22 < List.length (verbose_detail_table self))%nat)
  /\ (exit_status (lint adf v assertion) = 0
      <-> (List.length (verbose_detail_table self) <= 22)%nat).
Proof.
  intros Ha H. rewrite H. unfold lint in H. rewrite Ha in H.
  apply main_ran in H as [(_ & _ & Hi & rows & fs & Hs & Hl & _) ->].
  simpl in Hs, Hi. assert (L : List.length (summary_table self) = 22%nat) by now rewrite Hs.
  split; [assumption|].
  unfold exit_status, assert_adf_lint_free, has_errors. rewrite Hi, L. simpl negb. cbv iota.
  destruct (Z.of_nat 22 <? Z.of_nat (List.length (verbose_detail_table self))) eqn:E;
    [apply Z.ltb_lt in E | apply Z.ltb_ge in E]; simpl; split; split; intros; try lia; try discriminate.
Qed.

(* ================================================================== *)
(** * Exit status *)
(* ================================================================== *)

Import Examples.

(** C1 (the code departs from it).  One data flow without a
    description, verbose output on, assertion enabled: the run
    completes, twenty-two checks ran, one Finding was recorded, and
    the process still ends with status 0, because [has_errors]
    compares the number of Findings with the number of summary rows. *)
Theorem one_finding_exits_zero :
  exists self,
    lint adf_one_finding 1 "y" = Ok (self, Some false)
    /\ check_number self = 22
    /\ List.length (summary_table self) = 22%nat
    /\ map Name (verbose_detail_table self) = [VStr "DF1"]
    /\ exit_status (lint adf_one_finding 1 "y") = 0.
Proof.
  eexists. vm_compute. repeat split; reflexivity.
Qed.

(** C9, counterexample.  A pipeline with one activity, verbose output
    disabled and assertion enabled: [check_activity_description] raises
    on the pair [main] builds, the run is aborted and the process ends
    with status 1. *)
Lemma quiet_run_with_activity_exits_one :
  lint adf_default_timeout 0 "y" = Raise AttributeError
  /\ exit_status (lint adf_default_timeout 0 "y") = 1.
Proof.
  vm_compute. split; reflexivity.
Qed.

(** C9, as the code has it.  With verbose output disabled and
    assertion enabled, a run that completes has recorded no Finding,
    hands [False] to [sys.exit] and the process ends with status 0,
    whatever the checks counted; a run that a check aborts ends with
    status 1.  So the status is 0 exactly when the run completes. *)
Theorem quiet_completed_run_exits_zero (adf : value) (assertion : string) :
  String.eqb assertion "n" = false ->
  (forall self code,
      lint adf 0 assertion = Ok (self, code) ->
      code = Some false
      /\ verbose_detail_table self = []
      /\ List.length (summary_table self) = 22%nat
      /\ has_errors self = false
      /\ exit_status (lint adf 0 assertion) = 0)
  /\ (forall e,
         lint adf 0 assertion = Raise e ->
         exit_status (lint adf 0 assertion) = 1)
  /\ (exit_status (lint adf 0 assertion) = 0
      <-> exists self code, lint adf 0 assertion = Ok (self, code)).
Proof.
  intros Ha.
  assert (C : forall self code,
             lint adf 0 assertion = Ok (self, code) ->
             code = Some false
             /\ verbose_detail_table self = []
             /\ List.length (summary_table self) = 22%nat
             /\ has_errors self = false
             /\ exit_status (lint adf 0 assertion) = 0).
  { intros self code H. rewrite H. unfold lint in H. rewrite Ha in H.
    apply main_ran in H
      as [(_ & _ & Hi & rows & fs & Hs & Hl & Hd & Hq & _) ->].
    simpl in Hs, Hd, Hi. rewrite (Hq eq_refl) in Hd.
    assert (E : has_errors self = false).
    { unfold has_errors. rewrite Hd. simpl. apply andb_false_iff. left.
      apply Z.ltb_ge. lia. }
    unfold exit_status, assert_adf_lint_free. rewrite Hi, E, Hs, Hl.
    repeat split; auto. }
  split; [exact C|]. split.
  - intros e H. rewrite H. reflexivity.
  - split.
    + destruct (lint adf 0 assertion) as [[self code]|e] eqn:H.
      * intros _. now exists self, code.
      * simpl. discriminate.
    + intros (self & code & H). now destruct (C self code H) as (_ & _ & _ & _ & E).
Qed.

(** One issue is counted, none is recorded, the status is 0. *)
Lemma quiet_completed_run_exits_zero_witness :
  exists self,
    lint adf_one_finding 0 "y" = Ok (self, Some false)
    /\ Shape.total_issue_count (summary_table self) = 1
    /\ exit_status (lint adf_one_finding 0 "y") = 0.
Proof.
  destruct (lint adf_one_finding 0 "y") as [[self code]|e] eqn:H;
    [|vm_compute in H; discriminate H].
  destruct (proj1 (quiet_completed_run_exits_zero adf_one_finding "y" eq_refl)
              self code H) as (-> & _ & _ & _ & Hx).
  exists self. split; [reflexivity|]. split; [|rewrite <- H; exact Hx].
  vm_compute in H. inversion H. vm_compute. reflexivity.
Defined.

(* ================================================================== *)
(** * Slicing the template and the checks on activities *)
(* ================================================================== *)

Section Slicing.

Lemma for_each_invariant_in {A S : Type} (P : S -> Prop) (Q : A -> Prop)
    (body : A -> S -> result S) :
  (forall x s s', Q x -> body x s = Ok s' -> P s -> P s') ->
  forall xs s s', Forall Q xs -> for_each xs body s = Ok s' -> P s -> P s'.
Proof.
  intros Hbody xs. induction xs as [|x xs IH]; intros s s' HQ H Hs.
  - simpl in H. now inversion H; subst.
  - simpl in H. destruct (body x s) as [s1|e] eqn:E; simpl in H; [|discriminate].
    inversion HQ; subst. eapply IH; eauto.
Qed.

(** Every element of [activities] is a pair (folder name, activity). *)
Lemma slice_template_activities (adf : value) (t : ARMTemplate) :
  slice_template adf = Ok t ->
  Forall (fun item => exists folder_name p, item = VTuple [folder_name; p])
    (activities t).
Proof.
  unfold slice_template. intros H. returned. simpl.
  apply Forall_concat.
  eapply map_m_forall; [|eassumption].
  intros q l Hq. unfold pipeline_activities in Hq. returned.
  eapply map_m_forall; [|eassumption].
  intros x y Hy. simpl in Hy. returned. eauto.
Qed.

(** The slices are cut by the same comprehension: when one type can be
    selected, every type can. *)
Lemma resources_of_type_any (adf : value) (ty ty' : string) (l : list value) :
  resources_of_type adf ty = Ok l -> exists l', resources_of_type adf ty' = Ok l'.
Proof.
  unfold resources_of_type. intros H. returned. cbn [bind].
  rewrite E0. cbn [bind].
  eapply filter_m_ok; [|eassumption].
  intros x [b Hb]. simpl in Hb. returned. cbn [bind]. eauto.
Qed.

(** The activity-timeout check, run on the pairs [main] builds, counts
    nothing: a pair is not a mapping, so the test on [policy] is a
    membership test on the pair and the activity is never looked at. *)
Lemma timeout_check_on_pairs (acts : list value) (self self' : checker) :
  Forall (fun item => exists folder_name p, item = VTuple [folder_name; p]) acts ->
  check_activity_timeout_values acts self = Ok self' ->
  verbose_detail_table self' = verbose_detail_table self
  /\ exists row,
       summary_table self' = (summary_table self ++ [row])%list
       /\ IssueCount row = 0.
Proof.
  intros Hp H. unfold check_activity_timeout_values in H. returned.
  match goal with
  | E : for_each _ _ (enter self) = Ok ?st |- _ =>
      assert (st = enter self) as ->;
      [ refine (for_each_invariant_in (fun s => s = enter self) _ _ _ _ _ _ Hp E eq_refl)
      | ]
  end.
  { clear. intros x s s' (f & p & ->) H ->.
    unfold has_policy_timeout in H. cbn [bind contains] in H.
    destruct (list_mem (VStr "policy") [f; p]); cbn [bind getitem] in H;
      [discriminate|].
    now inversion H. }
  simpl. split; [reflexivity|]. eexists. split; reflexivity.
Qed.

Lemma pipeline_activities_in (p : value) (al items : list value) (a : value) :
  pipeline_activity_list p = Ok al ->
  pipeline_activities p = Ok items ->
  In a al ->
  exists folder_name, In (VTuple [folder_name; a]) items.
Proof.
  intros Hal H Hin. unfold pipeline_activities in H. rewrite Hal in H.
  cbn [bind] in H.
  destruct (map_m_in _ _ _ H a Hin) as [y [Hy Hin']].
  simpl in Hy. returned. eauto.
Qed.

Lemma slice_template_pipelines (adf : value) (t : ARMTemplate) :
  slice_template adf = Ok t ->
  resources_of_type adf "Microsoft.DataFactory/factories/pipelines"
  = Ok (pipelines t)
  /\ exists per_pipeline,
       map_m pipeline_activities (pipelines t) = Ok per_pipeline
       /\ activities t = List.concat per_pipeline.
Proof.
  unfold slice_template. intros H. returned. simpl. eauto.
Qed.

End Slicing.

(** C4 (the code departs from it).  A pipeline in folder [ingest] with
    one activity left at the default timeout: [main] hands the check
    the pair (folder name, activity), the check counts 0 issues and
    records nothing, whereas on the activity itself it counts 1; the
    run then stops in [check_activity_description], which calls [get]
    on the same pair. *)
Theorem default_timeout_not_counted :
  exists t self' self'',
    slice_template adf_default_timeout = Ok t
    /\ activities t = [VTuple [VStr "ingest"; wait_activity]]
    /\ check_activity_timeout_values (activities t) (init 1 false) = Ok self'
    /\ map IssueCount (summary_table self') = [0]
    /\ verbose_detail_table self' = []
    /\ check_activity_timeout_values [wait_activity] (init 1 false) = Ok self''
    /\ map IssueCount (summary_table self'') = [1]
    /\ lint adf_default_timeout 1 "y" = Raise AttributeError.
Proof.
  do 3 eexists. vm_compute. repeat split; reflexivity.
Qed.





(** C10, counterexample.  A pipeline with an empty [activities] list
    and no folder: the template is sliced without error, the run
    completes, and the pipelines-not-in-folder check reports it. *)
Lemma empty_pipeline_without_folder_is_reported :
  exists t self code,
    slice_template adf_empty_pipeline_without_folder = Ok t
    /\ lint adf_empty_pipeline_without_folder 1 "y" = Ok (self, code)
    /\ nth_error (summary_table self) 3
       = Some {| IssueCount := 1;
                 CheckDetail := "Pipeline(s) not organised into folders.";
                 Severity := "Low" |}
    /\ verbose_detail_table self
       = [ {| Component := "Pipeline"; Name := VStr "P1";
              FindingDetail := "Not organised into a folder.";
              FindingSeverity := "Low" |} ].
Proof.
  do 3 eexists. vm_compute. repeat split; reflexivity.
Qed.

Section MissingPipelineFields.

Variables (p : value) (props : list (string * value)).
Hypothesis Hprops : getitem p "properties" = Ok (VDict props).

Lemma pipeline_activities_no_activities :
  assoc "activities" props = None ->
  pipeline_activities p = Raise KeyError.
Proof.
  intros H. unfold pipeline_activities, pipeline_activity_list.
  rewrite Hprops. cbn [bind getitem]. now rewrite H.
Qed.

Lemma pipeline_activities_no_folder_name (a : value) (l : list value) :
  assoc "activities" props = Some (VList (a :: l)) ->
  assoc "folder" props = None
  \/ (exists f, assoc "folder" props = Some (VDict f) /\ assoc "name" f = None) ->
  pipeline_activities p = Raise KeyError.
Proof.
  intros H Hf. unfold pipeline_activities, pipeline_activity_list.
  rewrite Hprops. cbn [bind getitem]. rewrite H. cbn [bind iter map_m getitem].
  destruct Hf as [-> | (f & -> & Hn)]; [reflexivity|].
  cbn [bind getitem]. now rewrite Hn.
Qed.

Lemma pipeline_activities_empty :
  assoc "activities" props = Some (VList []) ->
  pipeline_activities p = Ok [].
Proof.
  intros H. unfold pipeline_activities, pipeline_activity_list.
  rewrite Hprops. cbn [bind getitem]. now rewrite H.
Qed.

End MissingPipelineFields.

(** C10, as the code has it.  Take a pipeline whose properties lack
    [activities], or hold at least one activity and lack [folder] or
    the folder's [name].  Slicing a template that contains it raises,
    and [main] ends there, before any check; the exception is
    [KeyError] when the pipelines before it, in template order, can be
    sliced.  A pipeline whose [activities] list is empty is sliced
    without its folder being read. *)
Theorem slicing_fails_on_missing_pipeline_fields (adf : value)
    (ps : list value) (p : value) (props : list (string * value)) :
  resources_of_type adf "Microsoft.DataFactory/factories/pipelines" = Ok ps ->
  In p ps ->
  getitem p "properties" = Ok (VDict props) ->
  (assoc "activities" props = None
   \/ (exists a l,
         assoc "activities" props = Some (VList (a :: l))
         /\ (assoc "folder" props = None
             \/ exists f, assoc "folder" props = Some (VDict f)
                          /\ assoc "name" f = None)) ->
   pipeline_activities p = Raise KeyError
   /\ (exists e, slice_template adf = Raise e
                 /\ forall self, main adf self = Raise e)
   /\ (forall pre post,
          ps = (pre ++ p :: post)%list ->
          Forall (fun q => exists items, pipeline_activities q = Ok items) pre ->
          slice_template adf = Raise KeyError
          /\ forall self, main adf self = Raise KeyError))
  /\ (assoc "activities" props = Some (VList []) ->
      pipeline_activities p = Ok []).
Proof.
  intros Hps Hin Hprops. split; [|now apply pipeline_activities_empty].
  intros Hbad.
  assert (Hp : pipeline_activities p = Raise KeyError).
  { destruct Hbad as [Hna | (a & l & Ha & Hf)].
    - eapply pipeline_activities_no_activities; eassumption.
    - eapply pipeline_activities_no_folder_name; eassumption. }
  assert (Hs : forall e, map_m pipeline_activities ps = Raise e ->
                         slice_template adf = Raise e
                         /\ forall self, main adf self = Raise e).
  { intros e He.
    assert (Hs : slice_template adf = Raise e).
    { unfold slice_template.
      destruct (resources_of_type_any _ _
                  "Microsoft.DataFactory/factories/linkedServices" _ Hps) as [l1 ->].
      destruct (resources_of_type_any _ _
                  "Microsoft.DataFactory/factories/datasets" _ Hps) as [l2 ->].
      rewrite Hps. cbn [bind]. now rewrite He. }
    split; [assumption|]. intros self. unfold main. now rewrite Hs. }
  split; [assumption|]. split.
  - destruct (map_m_raises _ _ _ Hp ps Hin) as [e He]. exists e. now apply Hs.
  - intros pre post -> Hpre. apply Hs. now apply map_m_first_raise.
Qed.

(** A pipeline with one activity and no folder. *)
Lemma slicing_fails_on_missing_pipeline_fields_witness :
  slice_template adf_pipeline_without_folder = Raise KeyError
  /\ forall self, main adf_pipeline_without_folder self = Raise KeyError.
Proof.
  refine (proj2 (proj2 (proj1
    (slicing_fails_on_missing_pipeline_fields adf_pipeline_without_folder
       [arm_resource "pipelines" "P1" (VDict [("activities", VList [wait_activity])]) []]
       (arm_resource "pipelines" "P1" (VDict [("activities", VList [wait_activity])]) [])
       [("activities", VList [wait_activity])] _ _ _) _)) [] [] eq_refl _).
  - vm_compute. reflexivity.
  - left. reflexivity.
  - vm_compute. reflexivity.
  - right. exists wait_activity, []. split; [reflexivity|]. left. reflexivity.
  - constructor.
Defined.

(* ================================================================== *)
(** * The resource identifier parser *)
(* ================================================================== *)

Section CleanName.

Lemma append_assoc (a b c : string) : ((a ++ b) ++ c = a ++ b ++ c)%string.
Proof. induction a as [|x a IH]; simpl; [reflexivity | now rewrite IH]. Qed.

Lemma has_char_app (c : ascii) (a b : string) :
  has_char c (a ++ b) = has_char c a || has_char c b.
Proof.
  induction a as [|x a IH]; simpl; [reflexivity|].
  now rewrite IH, orb_assoc.
Qed.

Lemma slice_to_last (s : string) (i : Z) :
  1 <= str_len s -> slice s i (-1) = slice s i (str_len s - 1).
Proof.
  intros H. unfold slice, adjust_index. simpl (-1 <? 0).
  destruct (str_len s - 1 <? 0) eqn:E; [apply Z.ltb_lt in E; lia|].
  replace (Z.max 0 (-1 + str_len s)) with (Z.min (str_len s - 1) (str_len s)) by lia.
  reflexivity.
Qed.

Lemma slice_decompose (s a m b : string) (i j : Z) :
  s = a ++ m ++ b -> i = str_len a -> j = str_len a + str_len m ->
  slice s i j = m.
Proof. intros -> -> ->. apply slice_middle. Qed.

Ltac lengths :=
  rewrite ?str_len_app, ?str_len_cons;
  change (str_len EmptyString) with 0;
  repeat match goal with
    | |- context [str_len ?s] =>
        lazymatch goal with
        | _ : 0 <= str_len s |- _ => fail
        | _ => pose proof (str_len_nonneg s)
        end
    end;
  lia.

(** With a slash and a closing quote after it: the text between the
    first slash and the last quote. *)
Lemma clean_name_between (pre mid post : string) :
  has_char "/" pre = false -> has_char "'" post = false ->
  clean_name_str (pre ++ "/" ++ mid ++ "'" ++ post) = mid.
Proof.
  intros Hpre Hpost. unfold clean_name_str.
  apply (slice_decompose _ (pre ++ "/") mid ("'" ++ post)).
  - now rewrite !append_assoc.
  - change ("/" ++ mid ++ "'" ++ post) with (String "/" (mid ++ "'" ++ post)).
    rewrite (find_first "/" pre _ Hpre). lengths.
  - replace (pre ++ "/" ++ mid ++ "'" ++ post)
      with ((pre ++ "/" ++ mid) ++ String "'" post)
      by (now rewrite !append_assoc).
    rewrite (rfind_last "'" _ post Hpost). lengths.
Qed.

(** Without a slash: from index 0 to the last quote. *)
Lemma clean_name_no_slash (mid post : string) :
  has_char "/" (mid ++ "'" ++ post) = false -> has_char "'" post = false ->
  clean_name_str (mid ++ "'" ++ post) = mid.
Proof.
  intros Hs Hpost. unfold clean_name_str.
  apply (slice_decompose _ EmptyString mid ("'" ++ post)).
  - reflexivity.
  - now rewrite (find_absent "/" _ Hs).
  - change ("'" ++ post) with (String "'" post).
    rewrite (rfind_last "'" mid post Hpost). lengths.
Qed.

(** Without any quote: one character is cut off the end. *)
Lemma clean_name_no_quote (pre mid : string) (c : ascii) :
  has_char "/" pre = false ->
  has_char "'" (pre ++ "/" ++ mid ++ String c EmptyString) = false ->
  clean_name_str (pre ++ "/" ++ mid ++ String c EmptyString) = mid.
Proof.
  intros Hpre Hq. unfold clean_name_str.
  rewrite (rfind_absent "'" _ Hq).
  rewrite slice_to_last by lengths.
  apply (slice_decompose _ (pre ++ "/") mid (String c EmptyString)).
  - now rewrite !append_assoc.
  - change ("/" ++ mid ++ String c EmptyString)
      with (String "/" (mid ++ String c EmptyString)).
    rewrite (find_first "/" pre _ Hpre). lengths.
  - lengths.
Qed.

Lemma clean_name_no_slash_no_quote (mid : string) (c : ascii) :
  has_char "/" (mid ++ String c EmptyString) = false ->
  has_char "'" (mid ++ String c EmptyString) = false ->
  clean_name_str (mid ++ String c EmptyString) = mid.
Proof.
  intros Hs Hq. unfold clean_name_str.
  rewrite (rfind_absent "'" _ Hq), (find_absent "/" _ Hs).
  rewrite slice_to_last by lengths.
  apply (slice_decompose _ EmptyString mid (String c EmptyString)).
  - reflexivity.
  - reflexivity.
  - lengths.
Qed.



End CleanName.

(** C6, counterexample.  A name with no single quote is not refused:
    the parser returns it cut after the slash and short of its last
    character. *)
Lemma clean_name_without_quote_returns :
  has_char "'" "factory/LS1" = false
  /\ clean_name (VStr "factory/LS1") = Ok "LS".
Proof. split; reflexivity. Qed.

(** C6, as the code has it.  On a string the parser never raises.
    When the last single quote follows the first slash it returns the
    text between them, and from index 0 when there is no slash.  When
    there is no single quote at all it returns what follows the first
    slash (or the whole string) short of its last character. *)
Theorem clean_name_parses :
  (forall raw, clean_name (VStr raw) = Ok (clean_name_str raw))
  /\ (forall pre mid post,
         has_char "/" pre = false -> has_char "'" post = false ->
         clean_name (VStr (pre ++ "/" ++ mid ++ "'" ++ post)) = Ok mid)
  /\ (forall mid post,
         has_char "/" (mid ++ "'" ++ post) = false ->
         has_char "'" post = false ->
         clean_name (VStr (mid ++ "'" ++ post)) = Ok mid)
  /\ (forall pre mid c,
         has_char "/" pre = false ->
         has_char "'" (pre ++ "/" ++ mid ++ String c EmptyString) = false ->
         clean_name (VStr (pre ++ "/" ++ mid ++ String c EmptyString)) = Ok mid)
  /\ (forall mid c,
         has_char "/" (mid ++ String c EmptyString) = false ->
         has_char "'" (mid ++ String c EmptyString) = false ->
         clean_name (VStr (mid ++ String c EmptyString)) = Ok mid).
Proof.
  unfold clean_name. cbn [as_str bind]. repeat split; intros.
  - now rewrite clean_name_between.
  - now rewrite clean_name_no_slash.
  - now rewrite clean_name_no_quote.
  - now rewrite clean_name_no_slash_no_quote.
Qed.

(** The name expression of an exported template. *)
Lemma clean_name_parses_witness :
  clean_name (VStr "[concat(parameters('factoryName'), '/LS1')]") = Ok "LS1".
Proof.
  exact (proj1 (proj2 clean_name_parses)
           "[concat(parameters('factoryName'), '" "LS1" ")]"
           eq_refl eq_refl).
Defined.



(* ================================================================== *)
(** * Orphan detection refines the specification *)
(* ================================================================== *)

Section Dedup.

Lemma filter_filter {A : Type} (p q : A -> bool) (l : list A) :
  filter p (filter q l) = filter (fun x => q x && p x) l.
Proof.
  induction l as [|x l IH]; simpl; [reflexivity|].
  destruct (q x); simpl; [destruct (p x)|]; now rewrite IH.
Qed.

Lemma filter_all {A : Type} (l : list A) : filter (fun _ => true) l = l.
Proof. induction l as [|x l IH]; simpl; [reflexivity | now rewrite IH]. Qed.

Lemma str_mem_app (x : string) (a b : list string) :
  str_mem x (a ++ b) = str_mem x a || str_mem x b.
Proof. apply existsb_app. Qed.

Lemma str_mem_in (x : string) (l : list string) :
  str_mem x l = true <-> In x l.
Proof.
  unfold str_mem. rewrite existsb_exists. split.
  - intros (y & Hy & E). apply String.eqb_eq in E. now subst.
  - intros H. exists x. split; [assumption | apply String.eqb_refl].
Qed.

(** The accumulating loop computes the set in order of first occurrence. *)
Lemma add_all_dedup (l acc : list string) :
  add_all l acc
  = (acc ++ filter (fun x => negb (str_mem x acc)) (dedup l))%list.
Proof.
  revert acc. induction l as [|x l IH]; intros acc.
  - simpl. now rewrite app_nil_r.
  - change (add_all (x :: l) acc) with (add_all l (append_new x acc)).
    unfold append_new. simpl dedup. simpl filter.
    destruct (str_mem x acc) eqn:M; simpl negb; cbv iota; rewrite IH.
    + f_equal. rewrite filter_filter. apply filter_ext. intros y.
      destruct (String.eqb y x) eqn:E; simpl; [|reflexivity].
      apply String.eqb_eq in E. subst. now rewrite M.
    + rewrite <- app_assoc. simpl. do 2 f_equal.
      rewrite filter_filter. apply filter_ext. intros y.
      rewrite str_mem_app. simpl. rewrite orb_false_r, negb_orb.
      apply andb_comm.
Qed.

Lemma add_all_nil (l : list string) : add_all l [] = dedup l.
Proof. rewrite add_all_dedup. simpl. apply filter_all. Qed.

Lemma add_all_app (l1 l2 acc : list string) :
  add_all (l1 ++ l2) acc = add_all l2 (add_all l1 acc).
Proof. apply fold_left_app. Qed.

Lemma dedup_in (x : string) (l : list string) : In x (dedup l) <-> In x l.
Proof.
  induction l as [|y l IH]; simpl; [tauto|].
  rewrite filter_In, IH, negb_true_iff, String.eqb_neq.
  destruct (String.eqb_spec x y) as [->|N]; [tauto|].
  split; [intros [H|[H _]]; auto | intros [H|H]; auto]. 
Qed.

End Dedup.

Section ReadFacts.

Lemma strings_of_map (l : list value) (ss : list string) :
  strings_of l = Some ss -> l = map VStr ss.
Proof.
  revert ss. induction l as [|v l IH]; intros ss H.
  - inversion H. reflexivity.
  - simpl in H. destruct v; try discriminate.
    destruct (strings_of l) as [ss'|]; [|discriminate].
    inversion H. simpl. now rewrite (IH ss' eq_refl).
Qed.

Lemma read_all_cons {A : Type} (f : value -> option A) (v : value)
    (l : list value) (rs : list A) :
  read_all f (v :: l) = Some rs ->
  exists r rs', rs = r :: rs' /\ f v = Some r /\ read_all f l = Some rs'.
Proof.
  simpl. destruct (f v) as [r|]; [|discriminate].
  destruct (read_all f l) as [rs'|]; [|discriminate].
  intros H. inversion H. eauto.
Qed.

Lemma read_all_nil {A : Type} (f : value -> option A) (rs : list A) :
  read_all f [] = Some rs -> rs = [].
Proof. simpl. now inversion 1. Qed.

Lemma read_resource_shape (v : value) (r : resource) :
  read_resource v = Some r ->
  exists kvs,
    v = VDict kvs
    /\ assoc "name" kvs = Some (VStr (res_name r))
    /\ assoc "type" kvs = Some (VStr (res_type r))
    /\ assoc "dependsOn" kvs
       = option_map (fun l => VList (map VStr l)) (res_dependsOn r).
Proof.
  unfold read_resource. intros H.
  destruct v as [| | | | |kvs|]; try discriminate.
  destruct (assoc "name" kvs) as [[| | |n| | |]|] eqn:N; try discriminate.
  destruct (assoc "type" kvs) as [[| | |t| | |]|] eqn:T; try discriminate.
  exists kvs.
  destruct (assoc "dependsOn" kvs) as [[| | | |ds| |]|] eqn:D; try discriminate.
  - destruct (strings_of ds) as [l|] eqn:S; [|discriminate].
    inversion H; subst; simpl. rewrite (strings_of_map _ _ S).
    repeat split; assumption || reflexivity.
  - inversion H; subst; simpl. repeat split; assumption || reflexivity.
Qed.

Lemma read_document_shape (adf : value) (rs : list resource) :
  read_document adf = Some rs ->
  exists kvs rl,
    adf = VDict kvs
    /\ assoc "resources" kvs = Some (VList rl)
    /\ read_all read_resource rl = Some rs.
Proof.
  unfold read_document. intros H.
  destruct adf as [| | | | |kvs|]; try discriminate.
  destruct (assoc "resources" kvs) as [[| | | |rl| |]|] eqn:R; try discriminate.
  eauto.
Qed.

End ReadFacts.

Section Orphans.

Lemma complete_resource_read (v : value) (r : resource) :
  read_resource v = Some r -> complete_resource v = Ok (identifier r).
Proof.
  intros H. destruct (read_resource_shape _ _ H) as (kvs & -> & Hn & Ht & _).
  unfold complete_resource, getitem. rewrite Hn, Ht. reflexivity.
Qed.

Lemma for_each_targets (l : list string) (acc : list string) :
  for_each (map VStr l)
    (fun dependant acc =>
       dependant_name <- clean_name dependant ;;
       let complete_dependant := replace dependant_name "/" "|" in
       Ok (append_new complete_dependant acc))
    acc
  = Ok (add_all (map target_identifier l) acc).
Proof.
  revert acc. induction l as [|d l IH]; intros acc; [reflexivity|].
  simpl map. cbn [for_each clean_name as_str bind]. now rewrite IH.
Qed.

Lemma add_dependants_read (v : value) (r : resource) (acc : list string) :
  read_resource v = Some r ->
  add_dependants v acc = Ok (add_all (map target_identifier (references r)) acc).
Proof.
  intros H. destruct (read_resource_shape _ _ H) as (kvs & -> & _ & _ & Hd).
  unfold add_dependants, has_single_dependency, references, contains, getitem.
  destruct (res_dependsOn r) as [l|]; simpl in Hd; rewrite Hd; cbn [bind]; [|reflexivity].
  destruct l as [|d [|d' l]].
  - reflexivity.
  - reflexivity.
  - cbn [len bind]. rewrite length_map.
    replace (Z.of_nat (List.length (d :: d' :: l)) =? 1) with false
      by (symmetry; apply Z.eqb_neq; simpl List.length; lia).
    cbn [bind iter]. apply for_each_targets.
Qed.

Lemma add_trigger_read (v : value) (r : resource) (acc : list string) :
  read_resource v = Some r ->
  add_trigger v acc
  = Ok (match references r with
        | [] => acc
        | _ :: _ => append_new (identifier r) acc
        end).
Proof.
  intros H. unfold add_trigger. rewrite (complete_resource_read _ _ H).
  destruct (read_resource_shape _ _ H) as (kvs & -> & _ & _ & Hd).
  unfold references, contains, getitem. cbn [bind].
  destruct (res_dependsOn r) as [l|]; simpl in Hd; rewrite Hd; cbn [bind]; [|reflexivity].
  destruct l as [|d l]; [reflexivity|].
  cbn [len bind]. rewrite length_map.
  replace (1 <=? Z.of_nat (List.length (d :: l))) with true
    by (symmetry; apply Z.leb_le; simpl List.length; lia).
  reflexivity.
Qed.

Lemma resources_loop_read (rl : list value) (rs : list resource)
    (acc : list string) :
  read_all read_resource rl = Some rs ->
  for_each rl
    (fun resource acc => c <- complete_resource resource ;; Ok (append_new c acc))
    acc
  = Ok (add_all (map identifier rs) acc).
Proof.
  revert rs acc. induction rl as [|v rl IH]; intros rs acc H.
  - apply read_all_nil in H. now subst.
  - apply read_all_cons in H as (r & rs' & -> & Hv & Hl).
    cbn [for_each]. rewrite (complete_resource_read _ _ Hv). cbn [bind].
    now rewrite (IH _ _ Hl).
Qed.

Lemma dependants_loop_read (rl : list value) (rs : list resource)
    (acc : list string) :
  read_all read_resource rl = Some rs ->
  for_each rl add_dependants acc
  = Ok (add_all
          (flat_map (fun r => map target_identifier (references r)) rs) acc).
Proof.
  revert rs acc. induction rl as [|v rl IH]; intros rs acc H.
  - apply read_all_nil in H. now subst.
  - apply read_all_cons in H as (r & rs' & -> & Hv & Hl).
    cbn [for_each]. rewrite (add_dependants_read _ _ _ Hv). cbn [bind].
    rewrite (IH _ _ Hl). simpl flat_map. now rewrite add_all_app.
Qed.

(** The triggers [main] selects, and what the third loop adds for them. *)
Lemma triggers_loop_read (rl : list value) (rs : list resource) :
  read_all read_resource rl = Some rs ->
  exists ts,
    filter_m
      (fun res =>
         t <- getitem res "type" ;;
         Ok (py_eq t (VStr "Microsoft.DataFactory/factories/triggers")))
      rl = Ok ts
    /\ forall acc,
         for_each ts add_trigger acc
         = Ok (add_all (map identifier (wired_triggers rs)) acc).
Proof.
  revert rs. induction rl as [|v rl IH]; intros rs H.
  - apply read_all_nil in H. subst. exists []. split; reflexivity.
  - apply read_all_cons in H as (r & rs' & -> & Hv & Hl).
    destruct (IH _ Hl) as (ts & Hts & Hloop).
    destruct (read_resource_shape _ _ Hv) as (kvs & Ev & _ & Ht & _).
    cbn [filter_m]. rewrite Hts. subst v. unfold getitem at 1. rewrite Ht.
    cbn [bind py_eq]. unfold wired_triggers. simpl filter.
    fold (wired_triggers rs'). unfold is_trigger at 1.
    destruct (String.eqb (res_type r) "Microsoft.DataFactory/factories/triggers").
    + eexists. split; [reflexivity|]. intros acc.
      cbn [for_each]. rewrite (add_trigger_read _ _ _ Hv). cbn [bind].
      rewrite Hloop. simpl andb.
      destruct (references r); reflexivity.
    + exists ts. split; [reflexivity|]. intros acc. simpl andb. cbv iota.
      apply Hloop.
Qed.

End Orphans.

(** C2.  On every Document, with the triggers [main] selects, the
    orphan list the code returns is [declared - referenced] of the
    specification, in declaration order. *)
Theorem orphans_are_declared_minus_referenced (adf : value)
    (rs : list resource) :
  read_document adf = Some rs ->
  exists triggers,
    resources_of_type adf "Microsoft.DataFactory/factories/triggers"
    = Ok triggers
    /\ resources_list adf = Ok (declared rs)
    /\ dependants_list adf triggers = Ok (referenced rs)
    /\ get_resource_dependants adf triggers = Ok (orphaned rs).
Proof.
  intros H. destruct (read_document_shape _ _ H) as (kvs & rl & -> & Hr & Hl).
  destruct (triggers_loop_read _ _ Hl) as (ts & Hts & Hloop).
  exists ts.
  assert (R1 : resources_of_type (VDict kvs)
                 "Microsoft.DataFactory/factories/triggers" = Ok ts).
  { unfold resources_of_type, getitem. rewrite Hr. cbn [bind iter]. exact Hts. }
  assert (R2 : resources_list (VDict kvs) = Ok (declared rs)).
  { unfold resources_list, getitem. rewrite Hr. cbn [bind iter].
    rewrite (resources_loop_read _ _ _ Hl). now rewrite add_all_nil. }
  assert (R3 : dependants_list (VDict kvs) ts = Ok (referenced rs)).
  { unfold dependants_list, getitem. rewrite Hr. cbn [bind iter].
    rewrite (dependants_loop_read _ _ _ Hl). cbn [bind]. rewrite Hloop.
    now rewrite <- add_all_app, add_all_nil. }
  repeat split; try assumption.
  unfold get_resource_dependants. rewrite R2, R3. reflexivity.
Qed.

(* ================================================================== *)
(** * The chain analyzer refines the specification *)
(* ================================================================== *)

Section ChainReading.

Lemma read_all_length {A : Type} (f : value -> option A) (l : list value)
    (rs : list A) :
  read_all f l = Some rs -> List.length l = List.length rs.
Proof.
  revert rs. induction l as [|v l IH]; intros rs H.
  - apply read_all_nil in H. now subst.
  - apply read_all_cons in H as (r & rs' & -> & _ & Hl).
    simpl. now rewrite (IH _ Hl).
Qed.

Lemma read_dependency_shape (v : value) (d : dependency) :
  read_dependency v = Some d ->
  exists kvs,
    v = VDict kvs
    /\ assoc "activity" kvs = Some (VStr (dep_activity d))
    /\ assoc "dependencyConditions" kvs
       = Some (VList (map VStr (dep_conditions d))).
Proof.
  unfold read_dependency. intros H.
  destruct v as [| | | | |kvs|]; try discriminate.
  destruct (assoc "activity" kvs) as [[| | |a| | |]|] eqn:A; try discriminate.
  destruct (assoc "dependencyConditions" kvs) as [[| | | |cs| |]|] eqn:C;
    try discriminate.
  destruct (strings_of cs) as [l|] eqn:S; [|discriminate].
  inversion H; subst; simpl. rewrite (strings_of_map _ _ S) in C.
  exists kvs. repeat split; assumption || reflexivity.
Qed.

Lemma read_activity_shape (v : value) (a : activity) :
  read_activity v = Some a ->
  exists kvs,
    v = VDict kvs
    /\ assoc "name" kvs = Some (VStr (act_name a))
    /\ match act_dependsOn a with
       | None => assoc "dependsOn" kvs = None
       | Some tds =>
           exists ds, assoc "dependsOn" kvs = Some (VList ds)
                      /\ read_all read_dependency ds = Some tds
       end.
Proof.
  unfold read_activity. intros H.
  destruct v as [| | | | |kvs|]; try discriminate.
  destruct (assoc "name" kvs) as [[| | |n| | |]|] eqn:N; try discriminate.
  exists kvs.
  destruct (assoc "dependsOn" kvs) as [[| | | |ds| |]|] eqn:D; try discriminate.
  - destruct (read_all read_dependency ds) as [tds|] eqn:R; [|discriminate].
    inversion H; subst; simpl. repeat split; eauto.
  - inversion H; subst; simpl. repeat split; assumption || reflexivity.
Qed.

Lemma read_pipeline_shape (v : value) (p : pipeline) :
  read_pipeline v = Some p ->
  exists kvs props al,
    v = VDict kvs
    /\ assoc "name" kvs = Some (VStr (pl_name p))
    /\ assoc "properties" kvs = Some (VDict props)
    /\ assoc "activities" props = Some (VList al)
    /\ read_all read_activity al = Some (pl_activities p).
Proof.
  unfold read_pipeline. intros H.
  destruct v as [| | | | |kvs|]; try discriminate.
  destruct (assoc "name" kvs) as [[| | |n| | |]|] eqn:N; try discriminate.
  destruct (assoc "properties" kvs) as [[| | | | |props|]|] eqn:P; try discriminate.
  destruct (assoc "activities" props) as [[| | | |al| |]|] eqn:A; try discriminate.
  destruct (read_all read_activity al) as [acts|] eqn:R; [|discriminate].
  inversion H; subst; simpl. exists kvs, props, al.
  repeat split; assumption || reflexivity.
Qed.

Lemma list_mem_strings (x : string) (l : list string) :
  list_mem (VStr x) (map VStr l) = member x l.
Proof.
  unfold list_mem, member. induction l as [|y l IH]; [reflexivity|].
  cbn [map existsb]. rewrite IH. reflexivity.
Qed.

Lemma append_new_value_strings (x : string) (acc : list string) :
  append_new_value (VStr x) (map VStr acc) = map VStr (append_new x acc).
Proof.
  unfold append_new_value, append_new. rewrite list_mem_strings.
  unfold member, str_mem. destruct (existsb (String.eqb x) acc); [reflexivity|].
  now rewrite map_app.
Qed.

Lemma filter_strings (p : string -> bool) (q : value -> bool) (l : list string) :
  (forall x, q (VStr x) = p x) ->
  filter q (map VStr l) = map VStr (filter p l).
Proof.
  intros H. induction l as [|x l IH]; simpl; [reflexivity|].
  rewrite H. destruct (p x); simpl; now rewrite IH.
Qed.

(** The innermost loop adds the targets that carry the condition. *)
Lemma collect_targets_read (c : string) (ds : list value)
    (tds : list dependency) (acc : list string) :
  read_all read_dependency ds = Some tds ->
  collect_targets c (VList ds) (map VStr acc)
  = Ok (map VStr
          (add_all
             (map dep_activity
                (filter (fun d => member c (dep_conditions d)) tds))
             acc)).
Proof.
  unfold collect_targets. cbn [iter bind].
  revert tds acc. induction ds as [|v ds IH]; intros tds acc H.
  - apply read_all_nil in H. now subst.
  - apply read_all_cons in H as (d & tds' & -> & Hv & Hl).
    destruct (read_dependency_shape _ _ Hv) as (kvs & -> & Ha & Hc).
    cbn [for_each]. unfold getitem at 1. rewrite Hc. cbn [bind contains].
    rewrite list_mem_strings. simpl filter.
    destruct (member c (dep_conditions d)).
    + unfold getitem at 1. rewrite Ha. cbn [bind].
      rewrite append_new_value_strings. now rewrite (IH _ _ Hl).
    + cbn [bind]. now rewrite (IH _ _ Hl).
Qed.

Lemma length_gt_one_nat (n : nat) : (1 <? Z.of_nat n) = (1 <? n)%nat.
Proof.
  destruct (1 <? n)%nat eqn:E.
  - apply Nat.ltb_lt in E. apply Z.ltb_lt. lia.
  - apply Nat.ltb_ge in E. apply Z.ltb_ge. lia.
Qed.

(** The first pass over the activities of a pipeline. *)
Lemma failure_loop_read (al : list value) (acts : list activity)
    (acc : list string) :
  read_all read_activity al = Some acts ->
  for_each al
    (fun activity acc =>
       has <- contains "dependsOn" activity ;;
       multi <- (if has
                 then d <- getitem activity "dependsOn" ;;
                      n <- len d ;; Ok (1 <? n)
                 else Ok false) ;;
       if multi
       then d <- getitem activity "dependsOn" ;;
            collect_targets "Failed" d acc
       else Ok acc)
    (map VStr acc)
  = Ok (map VStr
          (add_all
             (flat_map (targets_with "Failed")
                (filter (fun a => (1 <? List.length (dependencies a))%nat) acts))
             acc)).
Proof.
  revert acts acc. induction al as [|v al IH]; intros acts acc H.
  - apply read_all_nil in H. now subst.
  - apply read_all_cons in H as (a & acts' & -> & Hv & Hl).
    destruct (read_activity_shape _ _ Hv) as (kvs & -> & _ & Hd).
    cbn [for_each contains]. simpl filter. unfold dependencies at 1.
    destruct (act_dependsOn a) as [tds|] eqn:D.
    + destruct Hd as (ds & Hd & Hr). rewrite Hd. cbn [bind getitem].
      rewrite Hd. cbn [bind len]. rewrite (read_all_length _ _ _ Hr).
      rewrite length_gt_one_nat.
      destruct (1 <? List.length tds)%nat.
      * rewrite (collect_targets_read _ _ _ _ Hr). cbn [bind].
        rewrite (IH _ _ Hl). simpl flat_map. rewrite add_all_app.
        replace (targets_with "Failed" a)
          with (map dep_activity
                  (filter (fun d => member "Failed" (dep_conditions d)) tds))
          by (unfold targets_with, dependencies; now rewrite D).
        reflexivity.
      * apply (IH _ _ Hl).
    + rewrite Hd. cbn [bind]. apply (IH _ _ Hl).
Qed.

(** The activities of a given name, and the second pass over them. *)
Lemma success_inner_read (n : string) (al : list value)
    (acts : list activity) :
  read_all read_activity al = Some acts ->
  exists named,
    filter_m
      (fun act => m <- getitem act "name" ;; Ok (py_eq m (VStr n))) al
    = Ok named
    /\ forall acc,
         for_each named
           (fun activity acc =>
              has <- contains "dependsOn" activity ;;
              some <- (if has
                       then d <- getitem activity "dependsOn" ;;
                            k <- len d ;; Ok (1 <=? k)
                       else Ok false) ;;
              if some
              then d <- getitem activity "dependsOn" ;;
                   collect_targets "Succeeded" d acc
              else Ok acc)
           (map VStr acc)
         = Ok (map VStr
                 (add_all
                    (flat_map (targets_with "Succeeded")
                       (filter (fun a => String.eqb (act_name a) n) acts))
                    acc)).
Proof.
  revert acts. induction al as [|v al IH]; intros acts H.
  - apply read_all_nil in H. subst. exists []. split; reflexivity.
  - apply read_all_cons in H as (a & acts' & -> & Hv & Hl).
    destruct (IH _ Hl) as (named & Hn & Hloop).
    destruct (read_activity_shape _ _ Hv) as (kvs & -> & Hname & Hd).
    cbn [filter_m]. unfold getitem at 1. rewrite Hname. cbn [bind py_eq].
    rewrite Hn. cbn [bind]. simpl filter.
    destruct (String.eqb (act_name a) n); [|exists named; split; [reflexivity|assumption]].
    eexists. split; [reflexivity|]. intros acc.
    cbn [for_each contains]. simpl flat_map. rewrite add_all_app.
    destruct (act_dependsOn a) as [tds|] eqn:D.
    + replace (targets_with "Succeeded" a)
        with (map dep_activity
                (filter (fun d => member "Succeeded" (dep_conditions d)) tds))
        by (unfold targets_with, dependencies; now rewrite D).
      destruct Hd as (ds & Hd & Hr). rewrite Hd. cbn [bind getitem].
      rewrite Hd. cbn [bind len].
      destruct ds as [|d0 ds].
      * apply read_all_nil in Hr. subst tds. simpl. apply Hloop.
      * replace (1 <=? Z.of_nat (List.length (d0 :: ds))) with true
          by (symmetry; apply Z.leb_le; simpl List.length; lia).
        rewrite (collect_targets_read _ _ _ _ Hr). cbn [bind]. apply Hloop.
    + replace (targets_with "Succeeded" a) with (@nil string)
        by (unfold targets_with, dependencies; now rewrite D).
      rewrite Hd. cbn [bind]. apply Hloop.
Qed.

Section OnePipeline.

Variables (v : value) (p : pipeline).
Hypothesis Hread : read_pipeline v = Some p.

Lemma pipeline_activity_list_read :
  exists al,
    pipeline_activity_list v = Ok al
    /\ read_all read_activity al = Some (pl_activities p).
Proof.
  destruct (read_pipeline_shape _ _ Hread) as (kvs & props & al & -> & _ & Hp & Ha & Hr).
  exists al. split; [|assumption].
  unfold pipeline_activity_list, getitem. rewrite Hp. cbn [bind]. now rewrite Ha.
Qed.

Lemma activity_failure_dependencies_read :
  activity_failure_dependencies v
  = Ok (map VStr (mustHaveFailed (pl_activities p))).
Proof.
  destruct pipeline_activity_list_read as (al & Hal & Hr).
  unfold activity_failure_dependencies. rewrite Hal. cbn [bind].
  etransitivity; [exact (failure_loop_read _ _ [] Hr)|].
  now rewrite add_all_nil.
Qed.

Lemma success_loop_read (names acc : list string) :
  for_each (map VStr names)
    (fun activity_dependant acc =>
       al <- pipeline_activity_list v ;;
       named <- filter_m
                  (fun act =>
                     n <- getitem act "name" ;;
                     Ok (py_eq n activity_dependant))
                  al ;;
       for_each named
         (fun activity acc =>
            has <- contains "dependsOn" activity ;;
            some <- (if has
                     then d <- getitem activity "dependsOn" ;;
                          n <- len d ;; Ok (1 <=? n)
                     else Ok false) ;;
            if some
            then d <- getitem activity "dependsOn" ;;
                 collect_targets "Succeeded" d acc
            else Ok acc)
         acc)
    (map VStr acc)
  = Ok (map VStr
          (add_all
             (flat_map
                (fun n =>
                   flat_map (targets_with "Succeeded")
                     (filter (fun a => String.eqb (act_name a) n)
                        (pl_activities p)))
                names)
             acc)).
Proof.
  destruct pipeline_activity_list_read as (al & Hal & Hr). rewrite Hal.
  revert acc. induction names as [|n names IH]; intros acc; [reflexivity|].
  simpl map. cbn [for_each bind].
  destruct (success_inner_read n _ _ Hr) as (named & Hn & Hloop).
  rewrite Hn. cbn [bind]. rewrite Hloop. cbn [bind].
  rewrite IH. simpl flat_map. now rewrite add_all_app.
Qed.

Lemma activity_success_dependencies_read :
  activity_success_dependencies v (map VStr (mustHaveFailed (pl_activities p)))
  = Ok (map VStr (mustHaveSucceeded (pl_activities p))).
Proof.
  unfold activity_success_dependencies.
  etransitivity; [exact (success_loop_read _ [])|].
  now rewrite add_all_nil.
Qed.

Lemma problems_read :
  problems v = Ok (map VStr (contradictions (pl_activities p))).
Proof.
  unfold problems. rewrite activity_failure_dependencies_read. cbn [bind].
  rewrite activity_success_dependencies_read. cbn [bind].
  unfold contradictions. f_equal. apply filter_strings.
  intros x. apply list_mem_strings.
Qed.

End OnePipeline.

Lemma report_ok (self : checker) (c : string) (n : value) (d s : string)
    (st : loop_state) :
  report self c (Ok n) d s st
  = Ok (fst st + 1,
        if is_verbose self
        then (snd st ++ [ {| Component := c; Name := n; FindingDetail := d;
                             FindingSeverity := s |} ])%list
        else snd st).
Proof. unfold report. now destruct (is_verbose self). Qed.

Lemma chain_findings_cons (p : pipeline) (tps : list pipeline) :
  chain_findings (p :: tps)
  = if flagged p
    then {| Component := "Pipeline";
            Name := VStr (clean_name_str (pl_name p));
            FindingDetail := "Has an impossible AND/OR activity execution chain.";
            FindingSeverity := "High" |} :: chain_findings tps
    else chain_findings tps.
Proof. unfold chain_findings. simpl. now destruct (flagged p). Qed.

Lemma flagged_count_cons (p : pipeline) (tps : list pipeline) :
  Z.of_nat (List.length (filter flagged (p :: tps)))
  = (if flagged p then 1 else 0) + Z.of_nat (List.length (filter flagged tps)).
Proof. simpl. destruct (flagged p); simpl List.length; lia. Qed.

(** The loop of the check over the pipelines. *)
Lemma chain_loop_read (self : checker) (ps : list value)
    (tps : list pipeline) (st : loop_state) :
  read_all read_pipeline ps = Some tps ->
  for_each ps
    (fun pipeline st =>
       n <- getitem pipeline "name" ;;
       pipeline_name <- clean_name n ;;
       ps <- problems pipeline ;;
       match ps with
       | [] => Ok st
       | _ :: _ =>
           report self "Pipeline" (Ok (VStr pipeline_name))
             "Has an impossible AND/OR activity execution chain."
             "High" st
       end)
    st
  = Ok (fst st + Z.of_nat (List.length (filter flagged tps)),
        if is_verbose self
        then (snd st ++ chain_findings tps)%list
        else snd st).
Proof.
  revert tps st. induction ps as [|v ps IH]; intros tps st H.
  - apply read_all_nil in H. subst. simpl. rewrite Z.add_0_r, app_nil_r.
    destruct st, (is_verbose self); reflexivity.
  - apply read_all_cons in H as (p & tps' & -> & Hv & Hl).
    cbn [for_each]. rewrite (problems_read _ _ Hv).
    destruct (read_pipeline_shape _ _ Hv) as (kvs & props & al & -> & Hn & _).
    unfold getitem at 1. rewrite Hn. cbn [bind clean_name as_str].
    rewrite chain_findings_cons, flagged_count_cons.
    destruct (contradictions (pl_activities p)) as [|c cs] eqn:C; cbn [map bind].
    + replace (flagged p) with false by (unfold flagged; now rewrite C).
      rewrite (IH _ _ Hl). reflexivity.
    + replace (flagged p) with true by (unfold flagged; now rewrite C).
      rewrite report_ok. cbn [bind]. rewrite (IH _ _ Hl). cbn [fst snd].
      destruct (is_verbose self); f_equal; f_equal; try lia.
      now rewrite <- app_assoc.
Qed.

(** The whole check, on pipelines the data model can read. *)
Lemma chain_check_read (self : checker) (ps : list value)
    (tps : list pipeline) :
  read_all read_pipeline ps = Some tps ->
  check_pipeline_impossible_execution_chain ps self
  = Ok {| check_number := check_number self + 1;
          summary_table := (summary_table self ++ [chain_result tps])%list;
          verbose_detail_table :=
            if is_verbose self
            then (verbose_detail_table self ++ chain_findings tps)%list
            else verbose_detail_table self;
          verbose := verbose self;
          ignore_assertion := ignore_assertion self |}.
Proof.
  intros H. unfold check_pipeline_impossible_execution_chain. cbv zeta.
  rewrite (chain_loop_read self _ _ (enter self) H). cbn [bind].
  unfold finish, enter, chain_result. cbn [fst snd]. reflexivity.
Qed.

End ChainReading.

Section Contradictions.

Lemma member_in (x : string) (l : list string) : member x l = true <-> In x l.
Proof. apply str_mem_in. Qed.

Lemma targets_with_in (c : string) (a : activity) (n : string) :
  In n (targets_with c a)
  <-> exists d, In d (dependencies a) /\ In c (dep_conditions d)
                /\ dep_activity d = n.
Proof.
  unfold targets_with. rewrite in_map_iff. split.
  - intros (d & E & Hd). apply filter_In in Hd as [Hd Hc].
    apply member_in in Hc. eauto.
  - intros (d & Hd & Hc & E). exists d. split; [assumption|].
    apply filter_In. split; [assumption | now apply member_in].
Qed.

(** Step 1 as a set. *)
Lemma mustHaveFailed_in (acts : list activity) (n : string) :
  In n (mustHaveFailed acts)
  <-> exists a d,
        In a acts /\ (1 < List.length (dependencies a))%nat
        /\ In d (dependencies a) /\ In "Failed" (dep_conditions d)
        /\ dep_activity d = n.
Proof.
  unfold mustHaveFailed. rewrite dedup_in, in_flat_map. split.
  - intros (a & Ha & Hn). apply filter_In in Ha as [Ha Hlen].
    apply Nat.ltb_lt in Hlen. apply targets_with_in in Hn as (d & Hd & Hc & E).
    exists a, d. auto.
  - intros (a & d & Ha & Hlen & Hd & Hc & E). exists a. split.
    + apply filter_In. split; [assumption | now apply Nat.ltb_lt].
    + apply targets_with_in. eauto.
Qed.

(** Step 2 as a set. *)
Lemma mustHaveSucceeded_in (acts : list activity) (n : string) :
  In n (mustHaveSucceeded acts)
  <-> exists m a d,
        In m (mustHaveFailed acts) /\ In a acts /\ act_name a = m
        /\ In d (dependencies a) /\ In "Succeeded" (dep_conditions d)
        /\ dep_activity d = n.
Proof.
  unfold mustHaveSucceeded. rewrite dedup_in, in_flat_map. split.
  - intros (m & Hm & Hn). apply in_flat_map in Hn as (a & Ha & Hn).
    apply filter_In in Ha as [Ha E]. apply String.eqb_eq in E.
    apply targets_with_in in Hn as (d & Hd & Hc & E').
    exists m, a, d. auto 7.
  - intros (m & a & d & Hm & Ha & E & Hd & Hc & E'). exists m.
    split; [assumption|]. apply in_flat_map. exists a. split.
    + apply filter_In. split; [assumption | now apply String.eqb_eq].
    + apply targets_with_in. eauto.
Qed.

(** Step 3 and 4 as a set. *)
Lemma flagged_iff (p : pipeline) :
  flagged p = true
  <-> exists n, In n (mustHaveFailed (pl_activities p))
                /\ In n (mustHaveSucceeded (pl_activities p)).
Proof.
  unfold flagged, contradictions.
  destruct (filter _ (mustHaveFailed (pl_activities p))) as [|n l] eqn:F.
  - split; [discriminate|]. intros (n & Hf & Hs). exfalso.
    assert (X : In n []); [|contradiction].
    rewrite <- F. apply filter_In. split; [assumption | now apply member_in].
  - split; [|reflexivity]. intros _. exists n.
    assert (X : In n (n :: l)) by now left.
    rewrite <- F in X. apply filter_In in X as [Hf Hs].
    split; [assumption | now apply member_in].
Qed.

(** The verdict looks at the activities as a set. *)
Lemma flagged_same_activities (p p' : pipeline) :
  (forall a, In a (pl_activities p) <-> In a (pl_activities p')) ->
  flagged p = flagged p'.
Proof.
  intros Hsame.
  assert (F : forall n, In n (mustHaveFailed (pl_activities p))
                        <-> In n (mustHaveFailed (pl_activities p'))).
  { intros n. rewrite !mustHaveFailed_in.
    split; intros (a & d & Ha & H); exists a, d; (split; [now apply Hsame | exact H]). }
  assert (S : forall n, In n (mustHaveSucceeded (pl_activities p))
                        <-> In n (mustHaveSucceeded (pl_activities p'))).
  { intros n. rewrite !mustHaveSucceeded_in.
    split; intros (m & a & d & Hm & Ha & H); exists m, a, d;
      (split; [now apply F | split; [now apply Hsame | exact H]]). }
  apply eq_true_iff_eq. rewrite !flagged_iff.
  split; intros (n & Hf & Hs); exists n; (split; [now apply F | now apply S]).
Qed.

Lemma in_swapped {A : Type} (l1 l2 l3 : list A) (a b x : A) :
  In x (l1 ++ a :: l2 ++ b :: l3) <-> In x (l1 ++ b :: l2 ++ a :: l3).
Proof.
  rewrite !in_app_iff. simpl. rewrite !in_app_iff. simpl. tauto.
Qed.

End Contradictions.

(** C3.  On pipelines of the data model, the two passes of the check
    compute [mustHaveFailed] and [mustHaveSucceeded] of the
    specification, [problems] is their intersection, and the check
    counts one issue and records one Finding of severity High for each
    pipeline whose intersection is not empty. *)
Theorem chain_check_refines (ps : list value) (tps : list pipeline)
    (self : checker) :
  read_all read_pipeline ps = Some tps ->
  (forall v p,
      read_pipeline v = Some p ->
      activity_failure_dependencies v
      = Ok (map VStr (mustHaveFailed (pl_activities p)))
      /\ activity_success_dependencies v
           (map VStr (mustHaveFailed (pl_activities p)))
         = Ok (map VStr (mustHaveSucceeded (pl_activities p)))
      /\ problems v = Ok (map VStr (contradictions (pl_activities p)))
      /\ (forall n, In n (mustHaveFailed (pl_activities p))
                    <-> exists a d,
                          In a (pl_activities p)
                          /\ (1 < List.length (dependencies a))%nat
                          /\ In d (dependencies a)
                          /\ In "Failed" (dep_conditions d)
                          /\ dep_activity d = n)
      /\ (forall n, In n (mustHaveSucceeded (pl_activities p))
                    <-> exists m a d,
                          In m (mustHaveFailed (pl_activities p))
                          /\ In a (pl_activities p) /\ act_name a = m
                          /\ In d (dependencies a)
                          /\ In "Succeeded" (dep_conditions d)
                          /\ dep_activity d = n))
  /\ check_pipeline_impossible_execution_chain ps self
     = Ok {| check_number := check_number self + 1;
             summary_table := (summary_table self ++ [chain_result tps])%list;
             verbose_detail_table :=
               if is_verbose self
               then (verbose_detail_table self ++ chain_findings tps)%list
               else verbose_detail_table self;
             verbose := verbose self;
             ignore_assertion := ignore_assertion self |}.
Proof.
  intros H. split; [|now apply chain_check_read].
  intros v p Hv. repeat split.
  - now apply activity_failure_dependencies_read.
  - now apply activity_success_dependencies_read.
  - now apply problems_read.
  - now apply mustHaveFailed_in.
  - now apply mustHaveFailed_in.
  - now apply mustHaveSucceeded_in.
  - now apply mustHaveSucceeded_in.
Qed.

(** Two contradicting activities, one issue and one Finding. *)
Lemma chain_check_refines_witness :
  problems clash_pipeline = Ok [VStr "B"; VStr "C"]
  /\ problems plain_pipeline = Ok []
  /\ exists self',
       check_pipeline_impossible_execution_chain
         [clash_pipeline; plain_pipeline] (init 1 false) = Ok self'
       /\ map IssueCount (summary_table self') = [1]
       /\ map Name (verbose_detail_table self') = [VStr "clash"]
       /\ map FindingSeverity (verbose_detail_table self') = ["High"].
Proof.
  split; [vm_compute; reflexivity|]. split; [vm_compute; reflexivity|].
  eexists. split.
  - refine (proj2 (chain_check_refines [clash_pipeline; plain_pipeline] _
                     (init 1 false) _)).
    vm_compute. reflexivity.
  - vm_compute. repeat split; reflexivity.
Defined.

(** C8.  Two pipelines that differ only by two activities having
    changed places get the same verdict: [problems] is empty for both
    or for neither, and the check leaves the same checker. *)
Theorem chain_check_order_independent (v v' : value) (name : string)
    (l1 l2 l3 : list activity) (a b : activity) (self : checker) :
  read_pipeline v
  = Some {| pl_name := name; pl_activities := l1 ++ a :: l2 ++ b :: l3 |} ->
  read_pipeline v'
  = Some {| pl_name := name; pl_activities := l1 ++ b :: l2 ++ a :: l3 |} ->
  (exists ps ps',
      problems v = Ok ps /\ problems v' = Ok ps' /\ (ps = [] <-> ps' = []))
  /\ check_pipeline_impossible_execution_chain [v'] self
     = check_pipeline_impossible_execution_chain [v] self.
Proof.
  intros Hv Hv'.
  set (p := {| pl_name := name; pl_activities := l1 ++ a :: l2 ++ b :: l3 |}) in *.
  set (p' := {| pl_name := name; pl_activities := l1 ++ b :: l2 ++ a :: l3 |}) in *.
  assert (F : flagged p = flagged p').
  { apply flagged_same_activities. intros x. apply in_swapped. }
  split.
  - exists (map VStr (contradictions (pl_activities p))),
           (map VStr (contradictions (pl_activities p'))).
    split; [now apply problems_read|]. split; [now apply problems_read|].
    unfold flagged in F.
    destruct (contradictions (pl_activities p)),
             (contradictions (pl_activities p')); simpl;
      try discriminate; split; intros; reflexivity || discriminate.
  - assert (R : read_all read_pipeline [v] = Some [p])
      by (simpl; now rewrite Hv).
    assert (R' : read_all read_pipeline [v'] = Some [p'])
      by (simpl; now rewrite Hv').
    rewrite (chain_check_read self _ _ R), (chain_check_read self _ _ R').
    unfold chain_result, chain_findings. simpl filter. rewrite F.
    destruct (flagged p'); reflexivity.
Qed.

(** [A] and [B] of the clashing pipeline change places. *)
Lemma chain_check_order_independent_witness :
  check_pipeline_impossible_execution_chain [clash_pipeline_swapped] (init 1 false)
  = check_pipeline_impossible_execution_chain [clash_pipeline] (init 1 false).
Proof.
  refine (proj2
    (chain_check_order_independent clash_pipeline clash_pipeline_swapped
       "[concat(parameters('factoryName'), '/clash')]"
       []
       []
       [ {| act_name := "C";
            act_dependsOn :=
              Some [ {| dep_activity := "B"; dep_conditions := ["Succeeded"] |} ] |} ]
       {| act_name := "A";
          act_dependsOn :=
            Some [ {| dep_activity := "B"; dep_conditions := ["Failed"] |};
                   {| dep_activity := "C"; dep_conditions := ["Failed"] |} ] |}
       {| act_name := "B";
          act_dependsOn :=
            Some [ {| dep_activity := "C"; dep_conditions := ["Succeeded"] |} ] |}
       (init 1 false) _ _)); vm_compute; reflexivity.
Defined.

(** The small factory: the unused data set and the trigger with an
    empty [dependsOn] are the orphans. *)
Lemma orphans_are_declared_minus_referenced_witness :
  exists triggers,
    resources_of_type adf_small_factory "Microsoft.DataFactory/factories/triggers"
    = Ok triggers
    /\ get_resource_dependants adf_small_factory triggers
       = Ok ["datasets|D2"; "triggers|T2"].
Proof.
  destruct (orphans_are_declared_minus_referenced adf_small_factory
              [ {| res_type := "Microsoft.DataFactory/factories/linkedServices";
                   res_name := "[concat(parameters('factoryName'), '/LS1')]";
                   res_dependsOn := Some [] |};
                {| res_type := "Microsoft.DataFactory/factories/datasets";
                   res_name := "[concat(parameters('factoryName'), '/D1')]";
                   res_dependsOn :=
                     Some ["[concat(variables('factoryId'), '/linkedServices/LS1')]"] |};
                {| res_type := "Microsoft.DataFactory/factories/datasets";
                   res_name := "[concat(parameters('factoryName'), '/D2')]";
                   res_dependsOn :=
                     Some ["[concat(variables('factoryId'), '/linkedServices/LS1')]"] |};
                {| res_type := "Microsoft.DataFactory/factories/pipelines";
                   res_name := "[concat(parameters('factoryName'), '/P1')]";
                   res_dependsOn :=
                     Some ["[concat(variables('factoryId'), '/datasets/D1')]"] |};
                {| res_type := "Microsoft.DataFactory/factories/triggers";
                   res_name := "[concat(parameters('factoryName'), '/T1')]";
                   res_dependsOn :=
                     Some ["[concat(variables('factoryId'), '/pipelines/P1')]"] |};
                {| res_type := "Microsoft.DataFactory/factories/triggers";
                   res_name := "[concat(parameters('factoryName'), '/T2')]";
                   res_dependsOn := Some [] |} ]
              eq_refl)
    as (ts & Hts & _ & _ & Horph).
  exists ts. split; [exact Hts | exact Horph].
Defined.

(* ================================================================== *)
(** * The report of a completed run *)
(* ================================================================== *)

Section Rows.

Lemma report_nonneg (self : checker) (c : string) (n : result value)
    (d s : string) (st st' : loop_state) :
  report self c n d s st = Ok st' -> 0 <= fst st -> 0 <= fst st'.
Proof.
  unfold report. intros H Hs.
  destruct (is_verbose self); [destruct n; simpl in H; [|discriminate]|];
    inversion H; subst; simpl; lia.
Qed.

Lemma check_row_finish (self : checker) (cd sev : string) (st : loop_state) :
  0 <= fst st -> check_row cd sev self (finish self cd sev st).
Proof. intros H. exists (fst st). split; [assumption | reflexivity]. Qed.

End Rows.

(** The counter of a check's loop never goes below 0. *)
Ltac row_loop :=
  match goal with
  | H : for_each _ _ (enter ?self) = Ok ?st |- check_row _ _ ?self _ =>
      apply check_row_finish;
      refine (for_each_invariant (fun s => 0 <= fst s) _ _ _ _ _ H _);
      [ clear; intros x s s' Hb Hs; returned;
        solve [ assumption | eapply report_nonneg; eassumption ]
      | simpl; lia ]
  end.

Section CheckRows.

Variables (self self' : checker).

Lemma check_master_pipeline_without_triggers_row xs :
  check_master_pipeline_without_triggers xs self = Ok self' ->
  check_row "Master Pipeline(s) without any triggers attached. Directly or indirectly."
    "Medium" self self'.
Proof. unfold check_master_pipeline_without_triggers. intros H. returned. row_loop. Qed.

Lemma check_pipeline_impossible_execution_chain_row xs :
  check_pipeline_impossible_execution_chain xs self = Ok self' ->
  check_row "Pipeline(s) with an impossible AND/OR activity execution chain."
    "High" self self'.
Proof. unfold check_pipeline_impossible_execution_chain. intros H. returned. row_loop. Qed.

Lemma check_pipeline_descriptions_row xs :
  check_pipeline_descriptions xs self = Ok self' ->
  check_row "Pipeline(s) without a description value."
    "Low" self self'.
Proof. unfold check_pipeline_descriptions. intros H. returned. row_loop. Qed.

Lemma check_pipelines_not_in_folder_row xs :
  check_pipelines_not_in_folder xs self = Ok self' ->
  check_row "Pipeline(s) not organised into folders."
    "Low" self self'.
Proof. unfold check_pipelines_not_in_folder. intros H. returned. row_loop. Qed.

Lemma check_pipelines_without_annotation_row xs :
  check_pipelines_without_annotation xs self = Ok self' ->
  check_row "Pipeline(s) without annotations."
    "Low" self self'.
Proof. unfold check_pipelines_without_annotation. intros H. returned. row_loop. Qed.

Lemma check_data_flow_descriptions_row xs :
  check_data_flow_descriptions xs self = Ok self' ->
  check_row "Data Flow(s) without a description value."
    "Low" self self'.
Proof. unfold check_data_flow_descriptions. intros H. returned. row_loop. Qed.

Lemma check_activity_timeout_values_row xs :
  check_activity_timeout_values xs self = Ok self' ->
  check_row "Activities with timeout values still set to the service default value of 7 days."
    "High" self self'.
Proof. unfold check_activity_timeout_values. intros H. returned. row_loop. Qed.

Lemma check_copy_activity_diu_values_row xs :
  check_copy_activity_diu_values xs self = Ok self' ->
  check_row "Activities with DIU (Data Integration Units) values still set to the service default value of 'Auto'"
    "High" self self'.
Proof. unfold check_copy_activity_diu_values. intros H. returned. row_loop. Qed.

Lemma check_activity_description_row xs :
  check_activity_description xs self = Ok self' ->
  check_row "Activities without a description value."
    "Low" self self'.
Proof. unfold check_activity_description. intros H. returned. row_loop. Qed.

Lemma check_foreach_batch_size_unset_row xs :
  check_foreach_batch_size_unset xs self = Ok self' ->
  check_row "Activities ForEach iteration without a batch count value set."
    "High" self self'.
Proof. unfold check_foreach_batch_size_unset. intros H. returned. row_loop. Qed.

Lemma check_foreach_activity_batch_size_lt_service_maximum_row xs :
  check_foreach_activity_batch_size_lt_service_maximum xs self = Ok self' ->
  check_row "Activities ForEach iteration with a batch count size that is less than the service maximum."
    "Medium" self self'.
Proof. unfold check_foreach_activity_batch_size_lt_service_maximum. intros H. returned. row_loop. Qed.

Lemma check_linked_services_using_key_vault_row xs :
  check_linked_services_using_key_vault xs self = Ok self' ->
  check_row "Linked Service(s) not using Azure Key Vault to store credentials."
    "High" self self'.
Proof.
  unfold check_linked_services_using_key_vault. intros H. returned.
  apply check_row_finish. simpl. lia.
Qed.

Lemma check_orphaned_linked_services_row xs :
  check_orphaned_linked_services xs self = Ok self' ->
  check_row "Linked Service(s) not used by any other resource."
    "Medium" self self'.
Proof. unfold check_orphaned_linked_services. intros H. returned. row_loop. Qed.

Lemma check_linked_services_has_description_row xs :
  check_linked_services_has_description xs self = Ok self' ->
  check_row "Linked Service(s) without a description value."
    "Low" self self'.
Proof. unfold check_linked_services_has_description. intros H. returned. row_loop. Qed.

Lemma check_linked_services_has_annotation_row xs :
  check_linked_services_has_annotation xs self = Ok self' ->
  check_row "Linked Service(s) without annotations."
    "Low" self self'.
Proof. unfold check_linked_services_has_annotation. intros H. returned. row_loop. Qed.

Lemma check_orphaned_dataset_row xs :
  check_orphaned_dataset xs self = Ok self' ->
  check_row "Dataset(s) not used by any other resource."
    "Medium" self self'.
Proof. unfold check_orphaned_dataset. intros H. returned. row_loop. Qed.

Lemma check_datasets_without_description_row xs :
  check_datasets_without_description xs self = Ok self' ->
  check_row "Dataset(s) without a description value."
    "Low" self self'.
Proof. unfold check_datasets_without_description. intros H. returned. row_loop. Qed.

Lemma check_datasets_not_in_folder_row xs :
  check_datasets_not_in_folder xs self = Ok self' ->
  check_row "Dataset(s) not organised into folders."
    "Low" self self'.
Proof. unfold check_datasets_not_in_folder. intros H. returned. row_loop. Qed.

Lemma check_datasets_without_annotation_row xs :
  check_datasets_without_annotation xs self = Ok self' ->
  check_row "Dataset(s) without annotations."
    "Low" self self'.
Proof. unfold check_datasets_without_annotation. intros H. returned. row_loop. Qed.

Lemma check_orphaned_triggers_row xs :
  check_orphaned_triggers xs self = Ok self' ->
  check_row "Trigger(s) not used by any other resource."
    "Medium" self self'.
Proof. unfold check_orphaned_triggers. intros H. returned. row_loop. Qed.

Lemma check_triggers_has_description_row xs :
  check_triggers_has_description xs self = Ok self' ->
  check_row "Trigger(s) without a description value."
    "Low" self self'.
Proof. unfold check_triggers_has_description. intros H. returned. row_loop. Qed.

Lemma check_triggers_without_annotation_row xs :
  check_triggers_without_annotation xs self = Ok self' ->
  check_row "Trigger(s) without annotations."
    "Low" self self'.
Proof. unfold check_triggers_without_annotation. intros H. returned. row_loop. Qed.

End CheckRows.

Section RunRows.

Lemma ran_rows_nil (self : checker) : ran_rows [] self self.
Proof. exists []. rewrite app_nil_r. repeat split. constructor. Qed.

Lemma ran_rows_snoc (cat : list (string * string)) (cd sev : string)
    (a b c : checker) :
  ran_rows cat a b -> check_row cd sev b c ->
  ran_rows (cat ++ [(cd, sev)]) a c.
Proof.
  intros (rows & Hs & Hm & Hf) (n & Hn & Hs').
  exists (rows ++ [ {| IssueCount := n; CheckDetail := cd; Severity := sev |} ])%list.
  rewrite Hs', Hs, <- app_assoc. repeat split.
  - rewrite map_app, Hm. reflexivity.
  - apply Forall_app. split; [assumption|]. constructor; [assumption|constructor].
Qed.

End RunRows.

Create HintDb rows.

#[local] Hint Resolve
  check_master_pipeline_without_triggers_row
  check_pipeline_impossible_execution_chain_row
  check_pipeline_descriptions_row
  check_pipelines_not_in_folder_row
  check_pipelines_without_annotation_row
  check_data_flow_descriptions_row
  check_activity_timeout_values_row
  check_copy_activity_diu_values_row
  check_activity_description_row
  check_foreach_batch_size_unset_row
  check_foreach_activity_batch_size_lt_service_maximum_row
  check_linked_services_using_key_vault_row
  check_orphaned_linked_services_row
  check_linked_services_has_description_row
  check_linked_services_has_annotation_row
  check_orphaned_dataset_row
  check_datasets_without_description_row
  check_datasets_not_in_folder_row
  check_datasets_without_annotation_row
  check_orphaned_triggers_row
  check_triggers_has_description_row
  check_triggers_without_annotation_row : rows.

Opaque
  check_master_pipeline_without_triggers
  check_pipeline_impossible_execution_chain
  check_pipeline_descriptions
  check_pipelines_not_in_folder
  check_pipelines_without_annotation
  check_data_flow_descriptions
  check_activity_timeout_values
  check_copy_activity_diu_values
  check_activity_description
  check_foreach_batch_size_unset
  check_foreach_activity_batch_size_lt_service_maximum
  check_linked_services_using_key_vault
  check_orphaned_linked_services
  check_linked_services_has_description
  check_linked_services_has_annotation
  check_orphaned_dataset
  check_datasets_without_description
  check_datasets_not_in_folder
  check_datasets_without_annotation
  check_orphaned_triggers
  check_triggers_has_description
  check_triggers_without_annotation.

(** A completed catalog added the rows of the catalog, in its order. *)
Lemma run_checks_rows (t : ARMTemplate) (rr : list string) (self self' : checker) :
  run_checks t rr self = Ok self' -> ran_rows catalog self self'.
Proof.
  unfold run_checks. intros H. returned.
  change catalog with
    (fold_left (fun acc e => acc ++ [e])%list catalog (@nil (string * string))).
  cbn [fold_left catalog].
  do 22 (eapply ran_rows_snoc; [| solve [eauto with rows]]).
  apply ran_rows_nil.
Qed.

Transparent
  check_master_pipeline_without_triggers
  check_pipeline_impossible_execution_chain
  check_pipeline_descriptions
  check_pipelines_not_in_folder
  check_pipelines_without_annotation
  check_data_flow_descriptions
  check_activity_timeout_values
  check_copy_activity_diu_values
  check_activity_description
  check_foreach_batch_size_unset
  check_foreach_activity_batch_size_lt_service_maximum
  check_linked_services_using_key_vault
  check_orphaned_linked_services
  check_linked_services_has_description
  check_linked_services_has_annotation
  check_orphaned_dataset
  check_datasets_without_description
  check_datasets_not_in_folder
  check_datasets_without_annotation
  check_orphaned_triggers
  check_triggers_has_description
  check_triggers_without_annotation.

Section SummaryTable.

Variable c : colors.

Lemma columns_fold (rows : list summary_row) (cols : summary_columns) :
  fold_left
    (fun cols item =>
       if negb (IssueCount item =? 0)
       then {| IssueCountColumn :=
                 (IssueCountColumn cols ++ [IssueCount item])%list;
               CheckDetailsColumn :=
                 (CheckDetailsColumn cols ++ [CheckDetail item])%list;
               SeverityColumn :=
                 (SeverityColumn cols
                    ++ [get_colored_severity c (Severity item)])%list |}
       else cols)
    rows cols
  = let kept := filter (fun item => negb (IssueCount item =? 0)) rows in
    {| IssueCountColumn := (IssueCountColumn cols ++ map IssueCount kept)%list;
       CheckDetailsColumn := (CheckDetailsColumn cols ++ map CheckDetail kept)%list;
       SeverityColumn :=
         (SeverityColumn cols
            ++ map (fun item => get_colored_severity c (Severity item)) kept)%list |}.
Proof.
  revert cols. induction rows as [|r rows IH]; intros cols.
  - simpl. rewrite !app_nil_r. now destruct cols.
  - cbn [fold_left filter]. rewrite IH.
    destruct (negb (IssueCount r =? 0)); [|reflexivity].
    cbv zeta. cbn [IssueCountColumn CheckDetailsColumn SeverityColumn map].
    now rewrite <- !app_assoc.
Qed.

Lemma count_fold (rows : list summary_row) (acc : Z) :
  fold_left (fun acc item => if negb (IssueCount item =? 0) then acc + 1 else acc)
    rows acc
  = acc + Z.of_nat (List.length
                      (filter (fun item => negb (IssueCount item =? 0)) rows)).
Proof.
  revert acc. induction rows as [|r rows IH]; intros acc.
  - simpl. lia.
  - cbn [fold_left filter]. rewrite IH.
    destruct (negb (IssueCount r =? 0)); simpl List.length; lia.
Qed.

Lemma total_fold (rows : list summary_row) (acc : Z) :
  fold_left (fun acc item => acc + IssueCount item) rows acc
  = acc + total_issue_count rows.
Proof.
  revert acc. induction rows as [|r rows IH]; intros acc.
  - simpl. lia.
  - cbn [fold_left]. rewrite IH. simpl. lia.
Qed.

(** The severity column and the two totals of the summary. *)
Lemma summary_totals (self : checker) :
  SeverityColumn (Columns (log_summary_table c self))
  = map (fun item => get_colored_severity c (Severity item)) (shown_rows self)
  /\ ChecksWithIssues (log_summary_table c self)
     = Z.of_nat (List.length (shown_rows self))
  /\ TotalIssueCount (log_summary_table c self)
     = total_issue_count (summary_table self).
Proof.
  unfold log_summary_table. cbn [Columns ChecksWithIssues TotalIssueCount].
  rewrite columns_fold, count_fold, total_fold. cbv zeta.
  cbn [SeverityColumn app]. fold (shown_rows self). repeat split; lia.
Qed.

(** The summary shows the rows whose count is not 0, in the order of
    the table, with the three columns aligned; the two totals count
    those rows and add up all counts. *)
Theorem summary_shows_nonzero_rows (self : checker) :
  let out := log_summary_table c self in
  IssueCountColumn (Columns out) = map IssueCount (shown_rows self)
  /\ CheckDetailsColumn (Columns out) = map CheckDetail (shown_rows self)
  /\ SeverityColumn (Columns out)
     = map (fun item => get_colored_severity c (Severity item)) (shown_rows self)
  /\ ~ In 0 (IssueCountColumn (Columns out))
  /\ ChecksWithIssues out = Z.of_nat (List.length (shown_rows self))
  /\ TotalIssueCount out = total_issue_count (summary_table self)
  /\ (Details out = None <-> verbose self = 0).
Proof.
  cbv zeta. unfold log_summary_table. cbn [Columns ChecksWithIssues TotalIssueCount Details].
  rewrite columns_fold, count_fold, total_fold. cbv zeta.
  cbn [IssueCountColumn CheckDetailsColumn SeverityColumn app].
  fold (shown_rows self). repeat split; try lia.
  - intros Hin. apply in_map_iff in Hin as (r & E & Hr).
    apply filter_In in Hr as [_ Hr]. rewrite E in Hr. discriminate Hr.
  - unfold is_verbose. destruct (verbose self =? 0) eqn:E; simpl.
    + intros _. now apply Z.eqb_eq.
    + discriminate.
  - unfold is_verbose. intros ->. reflexivity.
Qed.

Lemma total_ge_count (rows : list summary_row) :
  Forall (fun r => 0 <= IssueCount r) rows ->
  Z.of_nat (List.length (filter (fun item => negb (IssueCount item =? 0)) rows))
  <= total_issue_count rows.
Proof.
  induction 1 as [|r rows Hr _ IH]; simpl; [lia|].
  destruct (IssueCount r =? 0) eqn:E; simpl negb; cbv iota.
  - lia.
  - apply Z.eqb_neq in E. simpl List.length. lia.
Qed.

Lemma colored_catalog_severity (sev : string) :
  In sev ["Low"; "Medium"; "High"] -> get_colored_severity c sev <> None.
Proof.
  intros [<-|[<-|[<-|[]]]]; vm_compute; discriminate.
Qed.

(** A completed run leaves the twenty-two rows of the catalog, in the
    order of [main], with counts that are not negative; the summary
    then reports 22 checks, at most 22 checks with issues, never more
    of them than issues, and every severity it shows is coloured. *)
Theorem completed_run_follows_catalog (adf : value) (v : Z)
    (assertion : string) (self : checker) (code : option bool) :
  lint adf v assertion = Ok (self, code) ->
  map (fun r => (CheckDetail r, Severity r)) (summary_table self) = catalog
  /\ Forall (fun r => 0 <= IssueCount r) (summary_table self)
  /\ ChecksRan (log_summary_table c self) = 22
  /\ 0 <= ChecksWithIssues (log_summary_table c self) <= 22
  /\ ChecksWithIssues (log_summary_table c self)
     <= TotalIssueCount (log_summary_table c self)
  /\ ~ In None (SeverityColumn (Columns (log_summary_table c self))).
Proof.
  intros H. unfold lint, main in H. returned.
  match goal with
  | E : run_checks _ _ _ = Ok _ |- _ =>
      pose proof (run_checks_rows _ _ _ _ E) as (rows & Hs & Hm & Hf);
      pose proof (run_checks_ran _ _ _ _ E) as (Hn & _)
  end.
  simpl in Hs, Hn.
  destruct (summary_totals self) as (S3 & S5 & S6).
  rewrite S3, S5, S6. unfold shown_rows. rewrite Hs.
  assert (L : List.length rows = 22%nat).
  { rewrite <- (length_map (fun r => (CheckDetail r, Severity r))), Hm. reflexivity. }
  pose proof (filter_length_le (fun item => negb (IssueCount item =? 0)) rows).
  repeat split; try assumption; try lia.
  - now apply total_ge_count.
  - intros Hin. apply in_map_iff in Hin as (r & Er & Hr).
    apply filter_In in Hr as [Hr _].
    apply (colored_catalog_severity (Severity r)); [|assumption].
    assert (Hc : In (CheckDetail r, Severity r) catalog)
      by (rewrite <- Hm; now apply (in_map (fun r => (CheckDetail r, Severity r)))).
    clear - Hc. unfold catalog in Hc. simpl in Hc.
    repeat (destruct Hc as [Hc|Hc];
            [inversion Hc; simpl; tauto|]).
    contradiction.
Qed.

(** Each issue counted is recorded as one Finding when the run is
    verbose, and none is recorded otherwise. *)
Theorem findings_match_issue_count (adf : value) (v : Z)
    (assertion : string) (self : checker) (code : option bool) :
  lint adf v assertion = Ok (self, code) ->
  (v = 0 -> verbose_detail_table self = [])
  /\ (v <> 0 ->
      Z.of_nat (List.length (verbose_detail_table self))
      = TotalIssueCount (log_summary_table c self)).
Proof.
  intros H. unfold lint in H.
  apply main_ran in H as [(_ & _ & _ & rows & fs & Hs & _ & Hd & Hq & Hc) _].
  simpl in Hs, Hd.
  destruct (summary_totals self) as (_ & _ & ->).
  rewrite Hd, Hs. unfold is_verbose in Hq, Hc. simpl in Hq, Hc. split.
  - intros ->. now rewrite (Hq eq_refl).
  - intros Hv. apply Hc. apply negb_true_iff. now apply Z.eqb_neq.
Qed.

End SummaryTable.

(** The small factory, verbose: rows of the catalog, ten checks with
    issues. *)
Lemma completed_run_follows_catalog_witness :
  exists self code,
    lint adf_small_factory 1 "y" = Ok (self, code)
    /\ map (fun r => (CheckDetail r, Severity r)) (summary_table self) = catalog
    /\ ChecksRan (log_summary_table ansi_colors self) = 22.
Proof.
  destruct (lint adf_small_factory 1 "y") as [[self code]|e] eqn:H;
    [|vm_compute in H; discriminate H].
  exists self, code. split; [reflexivity|].
  destruct (completed_run_follows_catalog ansi_colors _ _ _ _ _ H)
    as (Hc & _ & Hn & _).
  split; assumption.
Defined.

(** The small factory, verbose: as many Findings as issues. *)
Lemma findings_match_issue_count_witness :
  exists self code,
    lint adf_small_factory 1 "y" = Ok (self, code)
    /\ Z.of_nat (List.length (verbose_detail_table self))
       = TotalIssueCount (log_summary_table ansi_colors self).
Proof.
  destruct (lint adf_small_factory 1 "y") as [[self code]|e] eqn:H;
    [|vm_compute in H; discriminate H].
  exists self, code. split; [reflexivity|].
  apply (proj2 (findings_match_issue_count ansi_colors _ _ _ _ _ H)).
  discriminate.
Defined.

(** One Finding, twenty-two checks: the status is 0. *)
Lemma lint_exit_status_witness :
  exists self code,
    lint adf_one_finding 1 "y" = Ok (self, code)
    /\ (exit_status (lint adf_one_finding 1 "y") = 0
        <-> (List.length (verbose_detail_table self) <= 22)%nat).
Proof.
  destruct (lint adf_one_finding 1 "y") as [[self code]|e] eqn:H;
    [|vm_compute in H; discriminate H].
  exists self, code. split; [reflexivity|].
  rewrite <- H.
  exact (proj2 (proj2 (lint_exit_status adf_one_finding 1 "y" self code eq_refl H))).
Defined.

(* ================================================================== *)
(** * The assertion flag *)
(* ================================================================== *)

(** Only the assertion value [n] keeps [assert_adf_lint_free] from
    calling [sys.exit]: a completed run then ends with status 0, and
    with any other value [sys.exit] receives [has_errors]. *)
Theorem assertion_flag_decides_exit (adf : value) (v : Z) (assertion : string)
    (self : checker) (code : option bool) :
  lint adf v assertion = Ok (self, code) ->
  (assertion = "n" -> code = None /\ exit_status (lint adf v assertion) = 0)
  /\ (assertion <> "n" ->
      code = Some (has_errors self)
      /\ exit_status (lint adf v assertion) = Z.b2z (has_errors self)).
Proof.
  intros H. rewrite H. unfold lint in H.
  apply main_ran in H as [(_ & _ & Hi & _) ->]. simpl in Hi.
  unfold assert_adf_lint_free, exit_status. rewrite Hi. split.
  - intros ->. simpl. split; reflexivity.
  - intros Hn. apply String.eqb_neq in Hn. rewrite Hn. simpl. split; reflexivity.
Qed.

(** Suppressed, and asserted with an upper-case letter. *)
Lemma assertion_flag_decides_exit_witness :
  (exists self, lint adf_one_finding 1 "n" = Ok (self, None))
  /\ (exists self, lint adf_one_finding 1 "N" = Ok (self, Some (has_errors self))).
Proof.
  split.
  - destruct (lint adf_one_finding 1 "n") as [[self code]|e] eqn:H;
      [|vm_compute in H; discriminate H].
    destruct (proj1 (assertion_flag_decides_exit _ _ _ _ _ H) eq_refl) as [-> _].
    exists self. reflexivity.
  - destruct (lint adf_one_finding 1 "N") as [[self code]|e] eqn:H;
      [|vm_compute in H; discriminate H].
    assert (N : "N" <> "n") by discriminate.
    destruct (proj2 (assertion_flag_decides_exit _ _ _ _ _ H) N) as [-> _].
    exists self. reflexivity.
Defined.

(* ================================================================== *)
(** * Templates with activities, empty templates, malformed templates *)
(* ================================================================== *)

Section Activities.

Lemma check_activity_description_on_pair (folder_name p : value)
    (rest : list value) (self : checker) :
  check_activity_description (VTuple [folder_name; p] :: rest) self
  = Raise AttributeError.
Proof. reflexivity. Qed.

Lemma foreach_activities_on_pair (folder_name p : value) (rest : list value) :
  foreach_activities (VTuple [folder_name; p] :: rest) = Raise AttributeError.
Proof. reflexivity. Qed.

End Activities.

(** [main] pairs every activity with its folder name, and
    [check_activity_description] calls [get] on the pair: as soon as
    one pipeline of the template holds an activity, that check raises
    [AttributeError] on the list [main] builds and the run never
    completes. *)
Theorem any_activity_aborts_run (adf : value) (ps : list value) (p : value)
    (a : value) (al : list value) (self : checker) :
  resources_of_type adf "Microsoft.DataFactory/factories/pipelines" = Ok ps ->
  In p ps ->
  pipeline_activity_list p = Ok (a :: al) ->
  (forall t self0,
      slice_template adf = Ok t ->
      check_activity_description (activities t) self0 = Raise AttributeError)
  /\ exists e, main adf self = Raise e.
Proof.
  intros Hps Hp Hal.
  assert (Hd : forall t self0,
             slice_template adf = Ok t ->
             check_activity_description (activities t) self0
             = Raise AttributeError).
  { intros t self0 Et.
    pose proof (slice_template_activities _ _ Et) as Hpairs.
    destruct (slice_template_pipelines _ _ Et) as (Hps' & pp & Hpp & Hacts).
    rewrite Hps in Hps'. inversion Hps' as [Eps]. rewrite <- Eps in Hpp.
    destruct (map_m_in _ _ _ Hpp p Hp) as (items & Hitems & Hin).
    destruct (pipeline_activities_in _ _ _ a Hal Hitems (or_introl eq_refl))
      as [f Hf].
    assert (Hin' : In (VTuple [f; a]) (activities t))
      by (rewrite Hacts; apply in_concat; eauto).
    destruct (activities t) as [|x rest]; [contradiction|].
    inversion Hpairs as [|? ? (f' & p' & ->) _]. reflexivity. }
  split; [exact Hd|].
  unfold main.
  destruct (slice_template adf) as [t|e] eqn:Et; [|simpl; eauto].
  cbn [bind].
  destruct (get_resource_dependants adf (triggers t)) as [rr|e]; [|simpl; eauto].
  cbn [bind]. unfold run_checks.
  do 8 match goal with
       | |- exists e, bind (bind ?m ?k) _ = Raise e =>
           destruct m; cbn [bind]; [| eauto]
       end.
  rewrite (Hd t _ eq_refl). simpl. eauto.
Qed.

(** The pipeline with one activity left at its default timeout. *)
Lemma any_activity_aborts_run_witness :
  exists e, main adf_default_timeout (init 1 false) = Raise e.
Proof.
  refine (proj2
    (any_activity_aborts_run adf_default_timeout
       [arm_resource "pipelines" "P1"
          (VDict [("activities", VList [wait_activity]);
                  ("folder", VDict [("name", VStr "ingest")])])
          []]
       (arm_resource "pipelines" "P1"
          (VDict [("activities", VList [wait_activity]);
                  ("folder", VDict [("name", VStr "ingest")])])
          [])
       wait_activity [] (init 1 false) _ _ _)).
  - vm_compute. reflexivity.
  - left. reflexivity.
  - vm_compute. reflexivity.
Defined.

Section NothingToCheck.

Variable self : checker.

Lemma clean_run_zero : clean_run 0 self self.
Proof. unfold clean_run. simpl. rewrite app_nil_r. repeat split. lia. Qed.

Lemma clean_run_succ (n : nat) (a b c : checker) :
  clean_run n a b -> clean_step b c -> clean_run (S n) a c.
Proof.
  intros (Hn & Hs & Hd & Hi) (cd & sev & ->). unfold clean_run, finish.
  cbn [check_number summary_table verbose_detail_table ignore_assertion fst snd].
  rewrite map_app, Hs, <- app_assoc. cbn [map IssueCount].
  repeat split; try assumption; [lia|].
  f_equal. change [0] with (repeat 0 1). rewrite <- repeat_app.
  f_equal. lia.
Qed.

Lemma check_master_pipeline_without_triggers_nil :
  exists self', check_master_pipeline_without_triggers [] self = Ok self' /\ clean_step self self'.
Proof. eexists. split; [reflexivity|]. do 2 eexists. reflexivity. Qed.

Lemma check_pipeline_impossible_execution_chain_nil :
  exists self', check_pipeline_impossible_execution_chain [] self = Ok self' /\ clean_step self self'.
Proof. eexists. split; [reflexivity|]. do 2 eexists. reflexivity. Qed.

Lemma check_pipeline_descriptions_nil :
  exists self', check_pipeline_descriptions [] self = Ok self' /\ clean_step self self'.
Proof. eexists. split; [reflexivity|]. do 2 eexists. reflexivity. Qed.

Lemma check_pipelines_not_in_folder_nil :
  exists self', check_pipelines_not_in_folder [] self = Ok self' /\ clean_step self self'.
Proof. eexists. split; [reflexivity|]. do 2 eexists. reflexivity. Qed.

Lemma check_pipelines_without_annotation_nil :
  exists self', check_pipelines_without_annotation [] self = Ok self' /\ clean_step self self'.
Proof. eexists. split; [reflexivity|]. do 2 eexists. reflexivity. Qed.

Lemma check_data_flow_descriptions_nil :
  exists self', check_data_flow_descriptions [] self = Ok self' /\ clean_step self self'.
Proof. eexists. split; [reflexivity|]. do 2 eexists. reflexivity. Qed.

Lemma check_activity_timeout_values_nil :
  exists self', check_activity_timeout_values [] self = Ok self' /\ clean_step self self'.
Proof. eexists. split; [reflexivity|]. do 2 eexists. reflexivity. Qed.

Lemma check_copy_activity_diu_values_nil :
  exists self', check_copy_activity_diu_values [] self = Ok self' /\ clean_step self self'.
Proof. eexists. split; [reflexivity|]. do 2 eexists. reflexivity. Qed.

Lemma check_activity_description_nil :
  exists self', check_activity_description [] self = Ok self' /\ clean_step self self'.
Proof. eexists. split; [reflexivity|]. do 2 eexists. reflexivity. Qed.

Lemma check_foreach_batch_size_unset_nil :
  exists self', check_foreach_batch_size_unset [] self = Ok self' /\ clean_step self self'.
Proof. eexists. split; [reflexivity|]. do 2 eexists. reflexivity. Qed.

Lemma check_foreach_activity_batch_size_lt_service_maximum_nil :
  exists self', check_foreach_activity_batch_size_lt_service_maximum [] self = Ok self' /\ clean_step self self'.
Proof. eexists. split; [reflexivity|]. do 2 eexists. reflexivity. Qed.

Lemma check_linked_services_using_key_vault_nil :
  exists self', check_linked_services_using_key_vault [] self = Ok self' /\ clean_step self self'.
Proof.
  eexists. split; [reflexivity|]. do 2 eexists. unfold finish. simpl.
  destruct (is_verbose self); rewrite ?app_nil_r; reflexivity.
Qed.

Lemma check_orphaned_linked_services_nil :
  exists self', check_orphaned_linked_services [] self = Ok self' /\ clean_step self self'.
Proof. eexists. split; [reflexivity|]. do 2 eexists. reflexivity. Qed.

Lemma check_linked_services_has_description_nil :
  exists self', check_linked_services_has_description [] self = Ok self' /\ clean_step self self'.
Proof. eexists. split; [reflexivity|]. do 2 eexists. reflexivity. Qed.

Lemma check_linked_services_has_annotation_nil :
  exists self', check_linked_services_has_annotation [] self = Ok self' /\ clean_step self self'.
Proof. eexists. split; [reflexivity|]. do 2 eexists. reflexivity. Qed.

Lemma check_orphaned_dataset_nil :
  exists self', check_orphaned_dataset [] self = Ok self' /\ clean_step self self'.
Proof. eexists. split; [reflexivity|]. do 2 eexists. reflexivity. Qed.

Lemma check_datasets_without_description_nil :
  exists self', check_datasets_without_description [] self = Ok self' /\ clean_step self self'.
Proof. eexists. split; [reflexivity|]. do 2 eexists. reflexivity. Qed.

Lemma check_datasets_not_in_folder_nil :
  exists self', check_datasets_not_in_folder [] self = Ok self' /\ clean_step self self'.
Proof. eexists. split; [reflexivity|]. do 2 eexists. reflexivity. Qed.

Lemma check_datasets_without_annotation_nil :
  exists self', check_datasets_without_annotation [] self = Ok self' /\ clean_step self self'.
Proof. eexists. split; [reflexivity|]. do 2 eexists. reflexivity. Qed.

Lemma check_orphaned_triggers_nil :
  exists self', check_orphaned_triggers [] self = Ok self' /\ clean_step self self'.
Proof. eexists. split; [reflexivity|]. do 2 eexists. reflexivity. Qed.

Lemma check_triggers_has_description_nil :
  exists self', check_triggers_has_description [] self = Ok self' /\ clean_step self self'.
Proof. eexists. split; [reflexivity|]. do 2 eexists. reflexivity. Qed.

Lemma check_triggers_without_annotation_nil :
  exists self', check_triggers_without_annotation [] self = Ok self' /\ clean_step self self'.
Proof. eexists. split; [reflexivity|]. do 2 eexists. reflexivity. Qed.

End NothingToCheck.

(** A template whose [resources] list is empty gives a clean report:
    twenty-two rows with count 0, no Finding, status 0, whatever the
    flags and the other keys of the template. *)
Theorem empty_template_is_clean (kvs : list (string * value)) (v : Z)
    (assertion : string) :
  assoc "resources" kvs = Some (VList []) ->
  exists self code,
    lint (VDict kvs) v assertion = Ok (self, code)
    /\ map IssueCount (summary_table self) = repeat 0 22
    /\ verbose_detail_table self = []
    /\ check_number self = 22
    /\ exit_status (lint (VDict kvs) v assertion) = 0.
Proof.
  intros H.
  assert (L : exists self,
             lint (VDict kvs) v assertion = Ok (self, assert_adf_lint_free self)
             /\ clean_run 22 (init v (String.eqb assertion "n")) self).
  { assert (E : forall ty, resources_of_type (VDict kvs) ty = Ok []).
    { intros ty. unfold resources_of_type, getitem. now rewrite H. }
    assert (G : get_resource_dependants (VDict kvs) [] = Ok []).
    { unfold get_resource_dependants, resources_list, dependants_list, getitem.
      now rewrite H. }
  unfold lint, main, slice_template. rewrite !E.
  cbn [bind map_m List.concat triggers]. rewrite G. cbn [bind].
  pose proof (clean_run_zero (init v (String.eqb assertion "n"))) as R.
  revert R. generalize (init v (String.eqb assertion "n")) at 2 3.
  unfold run_checks.
  cbn [linked_services datasets pipelines activities dataflows triggers].
  intros s R.
  destruct (check_master_pipeline_without_triggers_nil s) as (s' & -> & Hs);
    cbn [bind]; apply (clean_run_succ _ _ _ _ R) in Hs; clear R s;
    rename Hs into R; rename s' into s.
  destruct (check_pipeline_impossible_execution_chain_nil s) as (s' & -> & Hs);
    cbn [bind]; apply (clean_run_succ _ _ _ _ R) in Hs; clear R s;
    rename Hs into R; rename s' into s.
  destruct (check_pipeline_descriptions_nil s) as (s' & -> & Hs);
    cbn [bind]; apply (clean_run_succ _ _ _ _ R) in Hs; clear R s;
    rename Hs into R; rename s' into s.
  destruct (check_pipelines_not_in_folder_nil s) as (s' & -> & Hs);
    cbn [bind]; apply (clean_run_succ _ _ _ _ R) in Hs; clear R s;
    rename Hs into R; rename s' into s.
  destruct (check_pipelines_without_annotation_nil s) as (s' & -> & Hs);
    cbn [bind]; apply (clean_run_succ _ _ _ _ R) in Hs; clear R s;
    rename Hs into R; rename s' into s.
  destruct (check_data_flow_descriptions_nil s) as (s' & -> & Hs);
    cbn [bind]; apply (clean_run_succ _ _ _ _ R) in Hs; clear R s;
    rename Hs into R; rename s' into s.
  destruct (check_activity_timeout_values_nil s) as (s' & -> & Hs);
    cbn [bind]; apply (clean_run_succ _ _ _ _ R) in Hs; clear R s;
    rename Hs into R; rename s' into s.
  destruct (check_copy_activity_diu_values_nil s) as (s' & -> & Hs);
    cbn [bind]; apply (clean_run_succ _ _ _ _ R) in Hs; clear R s;
    rename Hs into R; rename s' into s.
  destruct (check_activity_description_nil s) as (s' & -> & Hs);
    cbn [bind]; apply (clean_run_succ _ _ _ _ R) in Hs; clear R s;
    rename Hs into R; rename s' into s.
  destruct (check_foreach_batch_size_unset_nil s) as (s' & -> & Hs);
    cbn [bind]; apply (clean_run_succ _ _ _ _ R) in Hs; clear R s;
    rename Hs into R; rename s' into s.
  destruct (check_foreach_activity_batch_size_lt_service_maximum_nil s) as (s' & -> & Hs);
    cbn [bind]; apply (clean_run_succ _ _ _ _ R) in Hs; clear R s;
    rename Hs into R; rename s' into s.
  destruct (check_linked_services_using_key_vault_nil s) as (s' & -> & Hs);
    cbn [bind]; apply (clean_run_succ _ _ _ _ R) in Hs; clear R s;
    rename Hs into R; rename s' into s.
  destruct (check_orphaned_linked_services_nil s) as (s' & -> & Hs);
    cbn [bind]; apply (clean_run_succ _ _ _ _ R) in Hs; clear R s;
    rename Hs into R; rename s' into s.
  destruct (check_linked_services_has_description_nil s) as (s' & -> & Hs);
    cbn [bind]; apply (clean_run_succ _ _ _ _ R) in Hs; clear R s;
    rename Hs into R; rename s' into s.
  destruct (check_linked_services_has_annotation_nil s) as (s' & -> & Hs);
    cbn [bind]; apply (clean_run_succ _ _ _ _ R) in Hs; clear R s;
    rename Hs into R; rename s' into s.
  destruct (check_orphaned_dataset_nil s) as (s' & -> & Hs);
    cbn [bind]; apply (clean_run_succ _ _ _ _ R) in Hs; clear R s;
    rename Hs into R; rename s' into s.
  destruct (check_datasets_without_description_nil s) as (s' & -> & Hs);
    cbn [bind]; apply (clean_run_succ _ _ _ _ R) in Hs; clear R s;
    rename Hs into R; rename s' into s.
  destruct (check_datasets_not_in_folder_nil s) as (s' & -> & Hs);
    cbn [bind]; apply (clean_run_succ _ _ _ _ R) in Hs; clear R s;
    rename Hs into R; rename s' into s.
  destruct (check_datasets_without_annotation_nil s) as (s' & -> & Hs);
    cbn [bind]; apply (clean_run_succ _ _ _ _ R) in Hs; clear R s;
    rename Hs into R; rename s' into s.
  destruct (check_orphaned_triggers_nil s) as (s' & -> & Hs);
    cbn [bind]; apply (clean_run_succ _ _ _ _ R) in Hs; clear R s;
    rename Hs into R; rename s' into s.
  destruct (check_triggers_has_description_nil s) as (s' & -> & Hs);
    cbn [bind]; apply (clean_run_succ _ _ _ _ R) in Hs; clear R s;
    rename Hs into R; rename s' into s.
  destruct (check_triggers_without_annotation_nil s) as (s' & -> & Hs);
    cbn [bind]; apply (clean_run_succ _ _ _ _ R) in Hs; clear R s;
    rename Hs into R; rename s' into s.
    exists s. split; [reflexivity | exact R]. }
  destruct L as (s & L & Hn & Hs & Hd & Hi). simpl in Hn, Hs, Hd, Hi.
  exists s. eexists. rewrite L. split; [reflexivity|].
  repeat split; try assumption.
  unfold exit_status, assert_adf_lint_free, has_errors. rewrite Hd.
  destruct (negb (ignore_assertion s)); simpl; [|reflexivity].
  replace (Z.of_nat (List.length (summary_table s)) <? 0) with false;
    [reflexivity|]. symmetry. apply Z.ltb_ge. lia.
Qed.

Lemma empty_template_is_clean_witness :
  exists self code,
    lint (VDict [("contentVersion", VStr "1.0.0.0"); ("resources", VList [])])
      1 "y" = Ok (self, code)
    /\ map IssueCount (summary_table self) = repeat 0 22.
Proof.
  destruct (empty_template_is_clean
              [("contentVersion", VStr "1.0.0.0"); ("resources", VList [])]
              1 "y" eq_refl) as (self & code & H & Hc & _).
  exists self, code. split; assumption.
Defined.

(** Malformed templates stop [main] while it slices them: without a
    [resources] key it raises [KeyError]; when the template is not a
    mapping, or [resources] is a number, a boolean or null, it raises
    [TypeError]; and the first resource without a [type] key raises
    [KeyError] when the resources before it are mappings with one. *)
Theorem malformed_template_raises (self : checker) :
  (forall kvs, assoc "resources" kvs = None ->
               main (VDict kvs) self = Raise KeyError)
  /\ (forall adf, (forall kvs, adf <> VDict kvs) ->
                  main adf self = Raise TypeError)
  /\ (forall kvs rs, assoc "resources" kvs = Some rs ->
                     iter rs = Raise TypeError ->
                     main (VDict kvs) self = Raise TypeError)
  /\ (forall kvs pre r post,
         assoc "resources" kvs = Some (VList (pre ++ VDict r :: post)) ->
         Forall (fun q => exists t, getitem q "type" = Ok t) pre ->
         assoc "type" r = None ->
         main (VDict kvs) self = Raise KeyError).
Proof.
  repeat split.
  - intros kvs H. unfold main, slice_template, resources_of_type, getitem.
    now rewrite H.
  - intros adf H. unfold main, slice_template, resources_of_type.
    destruct adf; try reflexivity. exfalso. eapply H. reflexivity.
  - intros kvs rs H Hi. unfold main, slice_template, resources_of_type, getitem.
    rewrite H. cbn [bind]. now rewrite Hi.
  - intros kvs pre r post H Hpre Hr.
    unfold main, slice_template, resources_of_type, getitem at 1.
    rewrite H. cbn [bind iter].
    assert (F : filter_m
                  (fun res =>
                     t <- getitem res "type" ;;
                     Ok (py_eq t (VStr "Microsoft.DataFactory/factories/linkedServices")))
                  (pre ++ VDict r :: post) = Raise KeyError).
    { clear H. induction Hpre as [|q pre [t Hq] _ IH]; simpl.
      - now rewrite Hr.
      - rewrite Hq. cbn [bind]. now rewrite IH. }
    now rewrite F.
Qed.

Lemma malformed_template_raises_witness :
  main (VDict [("contentVersion", VStr "1.0.0.0")]) (init 1 false) = Raise KeyError
  /\ main (VList []) (init 1 false) = Raise TypeError.
Proof.
  split.
  - apply (proj1 (malformed_template_raises (init 1 false))). reflexivity.
  - apply (proj1 (proj2 (malformed_template_raises (init 1 false)))).
    discriminate.
Defined.

(* ================================================================== *)
(** * More on the helpers *)
(* ================================================================== *)

Section CleanType.

Lemma append_nil_r (s : string) : (s ++ EmptyString)%string = s.
Proof. induction s as [|a s IH]; simpl; [reflexivity | now rewrite IH]. Qed.

Lemma slice_all (s : string) : slice s 0 (str_len s) = s.
Proof.
  apply (slice_decompose s EmptyString s EmptyString).
  - simpl. now rewrite append_nil_r.
  - reflexivity.
  - change (str_len EmptyString) with 0. lia.
Qed.

(** A string that holds [c] splits at the last [c]. *)
Lemma split_at_last (c : ascii) (s : string) :
  has_char c s = true ->
  exists pre post, s = (pre ++ String c post)%string /\ has_char c post = false.
Proof.
  induction s as [|a s IH]; [discriminate|].
  simpl. intros H. destruct (has_char c s) eqn:Hs.
  - destruct (IH eq_refl) as (pre & post & -> & Hp).
    exists (String a pre), post. split; [reflexivity | assumption].
  - rewrite orb_false_r in H. apply Ascii.eqb_eq in H. subst a.
    exists EmptyString, s. split; [reflexivity | assumption].
Qed.

Lemma clean_type_after_last_slash (pre post : string) :
  has_char "/" post = false ->
  clean_type_str (pre ++ "/" ++ post) = post.
Proof.
  intros H. unfold clean_type_str, slice_from.
  change ("/" ++ post) with (String "/" post).
  rewrite (rfind_last "/" pre post H).
  apply (slice_decompose _ (pre ++ "/") post EmptyString).
  - now rewrite append_nil_r, append_assoc.
  - rewrite str_len_app. reflexivity.
  - rewrite !str_len_app, str_len_cons. change (str_len "/") with 1. lia.
Qed.

Lemma clean_type_without_slash (s : string) :
  has_char "/" s = false -> clean_type_str s = s.
Proof.
  intros H. unfold clean_type_str, slice_from.
  rewrite (rfind_absent "/" s H). apply slice_all.
Qed.

End CleanType.

(** [clean_type] returns what follows the last slash, the whole string
    when there is none; its result holds no slash, so cleaning a type
    twice changes nothing.  On anything but a string it raises
    [AttributeError]. *)
Theorem clean_type_keeps_last_segment :
  (forall pre post,
      has_char "/" post = false ->
      clean_type (VStr (pre ++ "/" ++ post)) = Ok post)
  /\ (forall s, has_char "/" s = false -> clean_type (VStr s) = Ok s)
  /\ (forall s, has_char "/" (clean_type_str s) = false)
  /\ (forall s, (t <- clean_type (VStr s) ;; clean_type (VStr t))
                = clean_type (VStr s))
  /\ (forall v, (forall s, v <> VStr s) -> clean_type v = Raise AttributeError).
Proof.
  assert (N : forall s, has_char "/" (clean_type_str s) = false).
  { intros s. destruct (has_char "/" s) eqn:H.
    - destruct (split_at_last _ _ H) as (pre & post & -> & Hp).
      change (String "/" post) with ("/" ++ post).
      now rewrite clean_type_after_last_slash.
    - now rewrite clean_type_without_slash. }
  unfold clean_type. cbn [as_str bind]. repeat split.
  - intros pre post H. now rewrite clean_type_after_last_slash.
  - intros s H. now rewrite clean_type_without_slash.
  - exact N.
  - intros s. now rewrite (clean_type_without_slash _ (N s)).
  - intros v H. destruct v; try reflexivity. exfalso. eapply H. reflexivity.
Qed.

Lemma clean_type_keeps_last_segment_witness :
  clean_type (VStr "Microsoft.DataFactory/factories/pipelines") = Ok "pipelines".
Proof.
  exact (proj1 clean_type_keeps_last_segment
           "Microsoft.DataFactory/factories" "pipelines" eq_refl).
Defined.

Section References.

Lemma replace_slash_cons (a : ascii) (s : string) :
  replace (String a s) "/" "|"
  = ((if Ascii.eqb a "/" then "|" else String a EmptyString)
     ++ replace s "/" "|")%string.
Proof.
  unfold replace. cbn [replace_from]. rewrite prefix_one.
  destruct (Ascii.eqb a "/"); reflexivity.
Qed.

Lemma replace_slash_app (a b : string) :
  replace (a ++ b) "/" "|" = (replace a "/" "|" ++ replace b "/" "|")%string.
Proof.
  induction a as [|x a IH]; [reflexivity|].
  change (String x a ++ b) with (String x (a ++ b)).
  rewrite !replace_slash_cons, IH. now rewrite append_assoc.
Qed.

Lemma replace_slash_absent (s : string) :
  has_char "/" s = false -> replace s "/" "|" = s.
Proof.
  induction s as [|a s IH]; [reflexivity|].
  intros H. cbn [has_char] in H. apply orb_false_iff in H as [Ha Hs].
  rewrite replace_slash_cons, Ha, (IH Hs). reflexivity.
Qed.

(** A reference changes no character but its slashes, and leaves no
    slash. *)
Lemma replace_slash_none (s : string) :
  has_char "/" (replace s "/" "|") = false.
Proof.
  induction s as [|a s IH]; [reflexivity|].
  rewrite replace_slash_cons. destruct (Ascii.eqb a "/") eqn:E.
  - exact IH.
  - cbn [append has_char]. now rewrite E, IH.
Qed.

End References.

(** A reference [.../family/name'...] in a [dependsOn] list and the
    resource whose type ends in [/family] and whose name expression
    ends in [/name'...] get the same identifier [family|name], when
    [family] and [name] hold no slash: this is what lets the orphan
    detection match a reference with the resource it names. *)
Theorem reference_matches_identifier
    (ref_head ref_tail type_head name_head name_tail family name : string) :
  has_char "/" ref_head = false -> has_char "'" ref_tail = false ->
  has_char "/" name_head = false -> has_char "'" name_tail = false ->
  has_char "/" family = false -> has_char "/" name = false ->
  replace
    (clean_name_str (ref_head ++ "/" ++ family ++ "/" ++ name ++ "'" ++ ref_tail))
    "/" "|"
  = clean_type_str (type_head ++ "/" ++ family) ++ "|"
    ++ clean_name_str (name_head ++ "/" ++ name ++ "'" ++ name_tail)
  /\ complete_resource
       (VDict [("name", VStr (name_head ++ "/" ++ name ++ "'" ++ name_tail));
               ("type", VStr (type_head ++ "/" ++ family))])
     = Ok (family ++ "|" ++ name).
Proof.
  intros H1 H2 H3 H4 H5 H6.
  assert (E : clean_name_str
                (ref_head ++ "/" ++ family ++ "/" ++ name ++ "'" ++ ref_tail)
              = family ++ "/" ++ name).
  { replace (ref_head ++ "/" ++ family ++ "/" ++ name ++ "'" ++ ref_tail)
      with (ref_head ++ "/" ++ (family ++ "/" ++ name) ++ "'" ++ ref_tail)
      by (now rewrite !append_assoc).
    now apply clean_name_between. }
  rewrite E, !replace_slash_app, (replace_slash_absent _ H5),
    (replace_slash_absent _ H6).
  rewrite (clean_type_after_last_slash _ _ H5), (clean_name_between _ _ _ H3 H4).
  split; [reflexivity|].
  unfold complete_resource. cbn [getitem assoc String.eqb Ascii.eqb Bool.eqb bind
                                 clean_name clean_type as_str].
  now rewrite (clean_type_after_last_slash _ _ H5), (clean_name_between _ _ _ H3 H4).
Qed.

Lemma reference_matches_identifier_witness :
  replace
    (clean_name_str "[concat(variables('factoryId'), '/linkedServices/LS1')]")
    "/" "|"
  = clean_type_str "Microsoft.DataFactory/factories/linkedServices" ++ "|"
    ++ clean_name_str "[concat(parameters('factoryName'), '/LS1')]".
Proof.
  exact (proj1 (reference_matches_identifier
           "[concat(variables('factoryId'), '" ")]"
           "Microsoft.DataFactory/factories"
           "[concat(parameters('factoryName'), '" ")]"
           "linkedServices" "LS1"
           eq_refl eq_refl eq_refl eq_refl eq_refl eq_refl)).
Defined.

(* ================================================================== *)
(** * More on the orphan list *)
(* ================================================================== *)

Section OrphanInvariants.

Lemma append_new_nodup (x : string) (l : list string) :
  NoDup l -> NoDup (append_new x l).
Proof.
  intros H. unfold append_new. destruct (str_mem x l) eqn:M; [assumption|].
  apply NoDup_app; [assumption | repeat constructor; intros [] | ].
  intros y Hy [<-|[]]. apply str_mem_in in Hy. congruence.
Qed.

Lemma append_new_in (x y : string) (l : list string) :
  In y (append_new x l) <-> y = x \/ In y l.
Proof.
  unfold append_new. destruct (str_mem x l) eqn:M.
  - apply str_mem_in in M. split; [auto | intros [->|H]; assumption].
  - rewrite in_app_iff. simpl. split; [intros [H|[H|[]]]; auto | intros [H|H]; auto].
Qed.

Lemma complete_resource_has_bar (res : value) (x : string) :
  complete_resource res = Ok x -> has_char "|" x = true.
Proof.
  unfold complete_resource. intros H. returned.
  rewrite has_char_app. simpl. apply orb_true_r.
Qed.

(** The first loop: no identifier twice, and only identifiers of
    resources of the template. *)
Lemma resources_list_invariant (adf : value) (l : list string) :
  resources_list adf = Ok l ->
  NoDup l
  /\ forall x, In x l ->
       exists rs rl res,
         getitem adf "resources" = Ok rs /\ iter rs = Ok rl
         /\ In res rl /\ complete_resource res = Ok x.
Proof.
  unfold resources_list. intros H.
  destruct (getitem adf "resources") as [rs|] eqn:Ers; cbn [bind] in H; [|discriminate].
  destruct (iter rs) as [rl|] eqn:Erl; cbn [bind] in H; [|discriminate].
  assert (P : NoDup l
              /\ forall x, In x l ->
                   exists res, In res rl /\ complete_resource res = Ok x).
  { refine (for_each_invariant_in
              (fun acc => NoDup acc
                          /\ forall x, In x acc ->
                               exists res, In res rl /\ complete_resource res = Ok x)
              (fun res => In res rl) _ _ _ _ _ _ H _).
    - intros res acc acc' Hin Hb [Hnd Hall]. returned. split.
      + now apply append_new_nodup.
      + intros x Hx. apply append_new_in in Hx as [->|Hx]; [|now apply Hall].
        exists res. auto.
    - apply Forall_forall. auto.
    - split; [constructor | intros x []]. }
  destruct P as [Hnd Hall]. split; [assumption|].
  intros x Hx. destruct (Hall x Hx) as (res & Hin & Hc).
  exists rs, rl, res. auto.
Qed.

(** Filtering keeps the order of the elements it keeps. *)
Lemma filter_keeps_order {A : Type} (keep : A -> bool) (l : list A)
    (x y : A) (pre mid post : list A) :
  filter keep l = (pre ++ x :: mid ++ y :: post)%list ->
  exists pre' mid' post', l = (pre' ++ x :: mid' ++ y :: post')%list.
Proof.
  revert pre. induction l as [|d l IH]; intros pre E.
  - destruct pre; discriminate E.
  - simpl in E. destruct (keep d).
    + destruct pre as [|p pre].
      * simpl in E. inversion E as [[Ex Er]].
        assert (Hy : In y l).
        { assert (Hy : In y (filter keep l))
            by (rewrite Er; apply in_app_iff; right; now left).
          now apply filter_In in Hy. }
        apply in_split in Hy as (mid' & post' & ->).
        exists [], mid', post'. subst. reflexivity.
      * simpl in E. inversion E as [[Ep Er]].
        destruct (IH _ Er) as (pre' & mid' & post' & ->).
        exists (p :: pre'), mid', post'. reflexivity.
    + destruct (IH _ E) as (pre' & mid' & post' & ->).
      exists (d :: pre'), mid', post'. reflexivity.
Qed.

End OrphanInvariants.

(** Whenever [get_resource_dependants] returns, on any template and
    any list of triggers: the list holds no identifier twice, every
    entry is the identifier of a resource of the template, in
    declaration order, and holds the separator the checks split it at. *)
Theorem orphan_list_is_duplicate_free (adf : value) (triggers : list value)
    (orphans : list string) :
  get_resource_dependants adf triggers = Ok orphans ->
  NoDup orphans
  /\ (forall x, In x orphans ->
        exists rs rl res,
          getitem adf "resources" = Ok rs /\ iter rs = Ok rl
          /\ In res rl /\ complete_resource res = Ok x)
  /\ (forall x, In x orphans -> has_char "|" x = true)
  /\ exists declared, resources_list adf = Ok declared
                      /\ forall x y pre mid post,
                           orphans = (pre ++ x :: mid ++ y :: post)%list ->
                           exists pre' mid' post',
                             declared = (pre' ++ x :: mid' ++ y :: post')%list.
Proof.
  unfold get_resource_dependants. intros H.
  destruct (resources_list adf) as [declared|] eqn:Ed; cbn [bind] in H; [|discriminate].
  destruct (dependants_list adf triggers) as [referenced|]; cbn [bind] in H;
    [|discriminate].
  inversion H as [Ho]. clear H.
  destruct (resources_list_invariant _ _ Ed) as [Hnd Hall].
  assert (Hin : forall x, In x (filter (fun res => negb (str_mem res referenced)) declared)
                          -> In x declared)
    by (intros x Hx; now apply filter_In in Hx).
  repeat split.
  - now apply NoDup_filter.
  - intros x Hx. apply Hall. now apply Hin.
  - intros x Hx. destruct (Hall x (Hin x Hx)) as (_ & _ & res & _ & _ & _ & Hc).
    eapply complete_resource_has_bar; eassumption.
  - exists declared. split; [reflexivity|].
    intros x y pre mid post E. subst orphans.
    eapply filter_keeps_order; eassumption.
Qed.

Lemma orphan_list_is_duplicate_free_witness :
  NoDup ["datasets|D2"; "triggers|T2"].
Proof.
  refine (proj1 (orphan_list_is_duplicate_free adf_small_factory
            [arm_resource "triggers" "T1" (VDict []) ["pipelines/P1"];
             arm_resource "triggers" "T2" (VDict []) []]
            ["datasets|D2"; "triggers|T2"] _)).
  vm_compute. reflexivity.
Defined.

Section DependsOnShapes.

Variables (kvs : list (string * value)) (acc : list string).

Lemma add_dependants_single (v : value) :
  assoc "dependsOn" kvs = Some (VList [v]) ->
  add_dependants (VDict kvs) acc
  = Ok (append_new (replace (clean_name_str (str v)) "/" "|") acc).
Proof.
  intros H. unfold add_dependants, has_single_dependency, contains, getitem.
  rewrite H. reflexivity.
Qed.

Lemma add_dependants_several (v w : value) (l : list value) :
  assoc "dependsOn" kvs = Some (VList (v :: w :: l)) ->
  (forall s, v <> VStr s) ->
  add_dependants (VDict kvs) acc = Raise AttributeError.
Proof.
  intros H Hv. unfold add_dependants, has_single_dependency, contains, getitem.
  rewrite H. cbn [bind len].
  replace (Z.of_nat (List.length (v :: w :: l)) =? 1) with false
    by (symmetry; apply Z.eqb_neq; simpl List.length; lia).
  cbn [bind iter for_each].
  destruct v; try reflexivity. exfalso. eapply Hv. reflexivity.
Qed.

Lemma add_dependants_none :
  assoc "dependsOn" kvs = None \/ assoc "dependsOn" kvs = Some (VList []) ->
  add_dependants (VDict kvs) acc = Ok acc.
Proof.
  intros [H|H]; unfold add_dependants, has_single_dependency, contains, getitem;
    rewrite H; reflexivity.
Qed.

End DependsOnShapes.

(** The two shapes of [dependsOn] are not read alike.  A list with
    exactly one entry is turned into text with [str], so any value is
    accepted; a list with several entries is parsed entry by entry and
    raises [AttributeError] when the first entry is not a string.  A
    missing or empty list adds nothing. *)
Theorem depends_on_shapes_differ (kvs : list (string * value))
    (acc : list string) :
  (forall v, assoc "dependsOn" kvs = Some (VList [v]) ->
             add_dependants (VDict kvs) acc
             = Ok (append_new (replace (clean_name_str (str v)) "/" "|") acc))
  /\ (forall v w l,
         assoc "dependsOn" kvs = Some (VList (v :: w :: l)) ->
         (forall s, v <> VStr s) ->
         add_dependants (VDict kvs) acc = Raise AttributeError)
  /\ (assoc "dependsOn" kvs = None \/ assoc "dependsOn" kvs = Some (VList []) ->
      add_dependants (VDict kvs) acc = Ok acc).
Proof.
  repeat split.
  - apply add_dependants_single.
  - apply add_dependants_several.
  - apply add_dependants_none.
Qed.

Lemma depends_on_shapes_differ_witness :
  add_dependants (VDict [("dependsOn", VList [VInt 5])]) [] = Ok [EmptyString]
  /\ add_dependants (VDict [("dependsOn", VList [VInt 5; VInt 6])]) []
     = Raise AttributeError.
Proof.
  split.
  - exact (proj1 (depends_on_shapes_differ [("dependsOn", VList [VInt 5])] [])
             (VInt 5) eq_refl).
  - apply (proj1 (proj2 (depends_on_shapes_differ
                           [("dependsOn", VList [VInt 5; VInt 6])] []))
             (VInt 5) (VInt 6) []); [reflexivity | discriminate].
Defined.

Section OrphanMeaning.

(** The orphan list of a template the data model can read. *)
Lemma get_resource_dependants_read (adf : value) (rs : list resource) :
  read_document adf = Some rs ->
  exists ts,
    resources_of_type adf "Microsoft.DataFactory/factories/triggers" = Ok ts
    /\ get_resource_dependants adf ts = Ok (orphaned rs).
Proof.
  intros H. destruct (read_document_shape _ _ H) as (kvs & rl & -> & Hr & Hl).
  destruct (triggers_loop_read _ _ Hl) as (ts & Hts & Hloop).
  exists ts. split.
  - unfold resources_of_type, getitem. rewrite Hr. cbn [bind iter]. exact Hts.
  - unfold get_resource_dependants, resources_list, dependants_list, getitem.
    rewrite Hr. cbn [bind iter].
    rewrite (resources_loop_read _ _ _ Hl), (dependants_loop_read _ _ _ Hl).
    cbn [bind]. rewrite Hloop. cbn [bind].
    now rewrite <- add_all_app, !add_all_nil.
Qed.

Lemma referenced_in (rs : list resource) (i : string) :
  In i (referenced rs)
  <-> (exists r' ref, In r' rs /\ In ref (references r')
                      /\ target_identifier ref = i)
      \/ (exists r', In r' rs /\ is_trigger r' = true
                     /\ references r' <> [] /\ identifier r' = i).
Proof.
  unfold referenced. rewrite dedup_in, in_app_iff, in_flat_map, in_map_iff.
  split.
  - intros [(r' & Hr' & Hi) | (r' & E & Hw)].
    + apply in_map_iff in Hi as (ref & E & Href). left. eauto.
    + unfold wired_triggers in Hw. apply filter_In in Hw as [Hr' Hc].
      apply andb_true_iff in Hc as [Ht Hne]. right. exists r'.
      repeat split; try assumption. intros N. rewrite N in Hne. discriminate.
  - intros [(r' & ref & Hr' & Href & E) | (r' & Hr' & Ht & Hne & E)].
    + left. exists r'. split; [assumption|]. apply in_map_iff. eauto.
    + right. exists r'. split; [assumption|]. unfold wired_triggers.
      apply filter_In. split; [assumption|]. rewrite Ht. simpl.
      destruct (references r'); [contradiction | reflexivity].
Qed.

End OrphanMeaning.

(** What the orphan list means on a template of the data model: a
    resource is reported exactly when no [dependsOn] entry of any
    resource is normalized to its identifier and no trigger with a
    non-empty [dependsOn] has its identifier.  So a resource that is
    referred to is never reported, and neither is a trigger that
    refers to something. *)
Theorem orphans_are_the_unreferenced (adf : value) (rs : list resource)
    (triggers : list value) (orphans : list string) :
  read_document adf = Some rs ->
  resources_of_type adf "Microsoft.DataFactory/factories/triggers" = Ok triggers ->
  get_resource_dependants adf triggers = Ok orphans ->
  forall r,
    In r rs ->
    (In (identifier r) orphans
     <-> (forall r' ref, In r' rs -> In ref (references r') ->
                         target_identifier ref <> identifier r)
         /\ (forall r', In r' rs -> is_trigger r' = true ->
                        references r' <> [] -> identifier r' <> identifier r)).
Proof.
  intros H Ht Ho r Hr.
  destruct (get_resource_dependants_read _ _ H) as (ts & Hts & Hor).
  rewrite Ht in Hts. inversion Hts; subst ts. rewrite Ho in Hor.
  inversion Hor; subst orphans. clear Hor Hts.
  unfold orphaned. rewrite filter_In, negb_true_iff.
  assert (D : In (identifier r) (declared rs)).
  { unfold declared. apply dedup_in. now apply in_map. }
  assert (M : member (identifier r) (referenced rs) = false
              <-> ~ In (identifier r) (referenced rs)).
  { rewrite <- member_in. destruct (member (identifier r) (referenced rs));
      split; congruence. }
  rewrite M, referenced_in. split.
  - intros [_ N]. split.
    + intros r' ref Hr' Href E. apply N. left. eauto.
    + intros r' Hr' Htr Hne E. apply N. right. eauto.
  - intros [N1 N2]. split; [assumption|].
    intros [(r' & ref & Hr' & Href & E) | (r' & Hr' & Htr & Hne & E)].
    + eapply N1; eassumption.
    + eapply N2; eassumption.
Qed.

(** In the small factory the first data set is referred to by the
    pipeline: it is not reported. *)
Lemma orphans_are_the_unreferenced_witness :
  ~ In "datasets|D1" ["datasets|D2"; "triggers|T2"].
Proof.
  intros Hin.
  refine (proj1 (proj1
    (orphans_are_the_unreferenced adf_small_factory
       [ {| res_type := "Microsoft.DataFactory/factories/linkedServices";
            res_name := "[concat(parameters('factoryName'), '/LS1')]";
            res_dependsOn := Some [] |};
         {| res_type := "Microsoft.DataFactory/factories/datasets";
            res_name := "[concat(parameters('factoryName'), '/D1')]";
            res_dependsOn :=
              Some ["[concat(variables('factoryId'), '/linkedServices/LS1')]"] |};
         {| res_type := "Microsoft.DataFactory/factories/datasets";
            res_name := "[concat(parameters('factoryName'), '/D2')]";
            res_dependsOn :=
              Some ["[concat(variables('factoryId'), '/linkedServices/LS1')]"] |};
         {| res_type := "Microsoft.DataFactory/factories/pipelines";
            res_name := "[concat(parameters('factoryName'), '/P1')]";
            res_dependsOn :=
              Some ["[concat(variables('factoryId'), '/datasets/D1')]"] |};
         {| res_type := "Microsoft.DataFactory/factories/triggers";
            res_name := "[concat(parameters('factoryName'), '/T1')]";
            res_dependsOn :=
              Some ["[concat(variables('factoryId'), '/pipelines/P1')]"] |};
         {| res_type := "Microsoft.DataFactory/factories/triggers";
            res_name := "[concat(parameters('factoryName'), '/T2')]";
            res_dependsOn := Some [] |} ]
       [arm_resource "triggers" "T1" (VDict []) ["pipelines/P1"];
        arm_resource "triggers" "T2" (VDict []) []]
       ["datasets|D2"; "triggers|T2"]
       eq_refl _ _
       {| res_type := "Microsoft.DataFactory/factories/datasets";
          res_name := "[concat(parameters('factoryName'), '/D1')]";
          res_dependsOn :=
            Some ["[concat(variables('factoryId'), '/linkedServices/LS1')]"] |}
       _) Hin)
    {| res_type := "Microsoft.DataFactory/factories/pipelines";
       res_name := "[concat(parameters('factoryName'), '/P1')]";
       res_dependsOn :=
         Some ["[concat(variables('factoryId'), '/datasets/D1')]"] |}
    "[concat(variables('factoryId'), '/datasets/D1')]" _ _ _).
  - vm_compute. reflexivity.
  - vm_compute. reflexivity.
  - right. left. reflexivity.
  - do 3 right. left. reflexivity.
  - left. reflexivity.
  - vm_compute. reflexivity.
Defined.

(* ================================================================== *)
(** * The orphan checks on the orphan list *)
(* ================================================================== *)

Section OrphanChecks.

Lemma prefix_bar (c : ascii) (s : string) :
  String.prefix "|" (String c s) = Ascii.eqb c "|".
Proof.
  cbn [String.prefix]. destruct (ascii_dec "|" c) as [<-|N].
  - destruct s; reflexivity.
  - symmetry. apply Ascii.eqb_neq. congruence.
Qed.

Lemma split_from_nonempty (s cur : string) :
  exists x l, split_from "|" s 0 cur = x :: l.
Proof.
  revert cur. induction s as [|c s IH]; intros cur; cbn [split_from].
  - eauto.
  - destruct (String.prefix "|" (String c s)); eauto.
Qed.

(** An identifier with a bar splits into two pieces at least. *)
Lemma split_from_second (s cur : string) :
  has_char "|" s = true ->
  exists x y l, split_from "|" s 0 cur = x :: y :: l.
Proof.
  revert cur. induction s as [|c s IH]; intros cur H; [discriminate H|].
  cbn [split_from]. rewrite prefix_bar. cbn [has_char] in H.
  destruct (Ascii.eqb c "|").
  - change (String.length "|" - 1)%nat with 0%nat.
    destruct (split_from_nonempty s EmptyString) as (y & l & ->). eauto.
  - apply IH. exact H.
Qed.

Lemma second_part_read (r : string) :
  has_char "|" r = true ->
  (parts <- split r "|" ;; p <- nth_str parts 1 ;; Ok (VStr p))
  = Ok (VStr (second_part r)).
Proof.
  intros H. unfold split, second_part. cbn [bind].
  destruct (split_from_second r EmptyString H) as (x & y & l & ->).
  reflexivity.
Qed.

(** Without a bar in it a string is one piece. *)
Lemma split_from_plain (s cur : string) :
  has_char "|" s = false ->
  split_from "|" s 0 cur = [(cur ++ s)%string].
Proof.
  revert cur. induction s as [|c s IH]; intros cur H; cbn [split_from].
  - now rewrite append_nil_r.
  - rewrite prefix_bar. cbn [has_char] in H.
    apply orb_false_iff in H as [-> H]. rewrite IH by assumption.
    now rewrite append_assoc.
Qed.

Lemma split_from_first_bar (t n cur : string) :
  has_char "|" t = false ->
  split_from "|" (t ++ String "|" n) 0 cur
  = (cur ++ t)%string :: split_from "|" n 0 EmptyString.
Proof.
  revert cur. induction t as [|c t IH]; intros cur H.
  - change (EmptyString ++ String "|" n)%string with (String "|" n).
    cbn [split_from]. rewrite prefix_bar. now rewrite append_nil_r.
  - change (String c t ++ String "|" n)%string
      with (String c (t ++ String "|" n)).
    cbn [split_from]. rewrite prefix_bar. cbn [has_char] in H.
    apply orb_false_iff in H as [-> H]. rewrite IH by assumption.
    now rewrite append_assoc.
Qed.

(** The name an orphan check shows for [type|name]. *)
Lemma second_part_of_identifier (t n : string) :
  has_char "|" t = false -> has_char "|" n = false ->
  second_part (t ++ "|" ++ n) = n.
Proof.
  intros Ht Hn. unfold second_part.
  change ("|" ++ n)%string with (String "|" n).
  rewrite split_from_first_bar by assumption.
  now rewrite split_from_plain.
Qed.

Variable self : checker.
Variables component finding : string.

Lemma orphan_loop (found : list string) (st : loop_state) :
  Forall (fun r => has_char "|" r = true) found ->
  for_each found
    (fun redundant_resource st =>
       parts <- split redundant_resource "|" ;;
       report self component (p <- nth_str parts 1 ;; Ok (VStr p))
         finding "Medium" st)
    st
  = Ok (fst st + Z.of_nat (List.length found),
        if is_verbose self
        then (snd st ++ orphan_findings component finding found)%list
        else snd st).
Proof.
  intros H. revert st. induction H as [|r found Hr _ IH]; intros st.
  - cbn [for_each List.length orphan_findings map]. rewrite Z.add_0_r, app_nil_r.
    destruct st, (is_verbose self); reflexivity.
  - cbn [for_each].
    assert (E : (parts <- split r "|" ;;
                 report self component (p <- nth_str parts 1 ;; Ok (VStr p))
                   finding "Medium" st)
                = Ok (fst st + 1,
                      if is_verbose self
                      then (snd st ++ orphan_findings component finding [r])%list
                      else snd st)).
    { pose proof (second_part_read r Hr) as R. unfold split in *.
      cbn [bind] in *. unfold report.
      destruct (is_verbose self); [|reflexivity].
      destruct (nth_str (split_from "|" r 0 EmptyString) 1);
        cbn [bind] in *; [|discriminate R].
      inversion R. reflexivity. }
    rewrite E. cbn [bind]. rewrite IH. cbn [fst snd]. f_equal. f_equal.
    + cbn [List.length]. rewrite Nat2Z.inj_succ. lia.
    + destruct (is_verbose self); [|reflexivity].
      now rewrite <- app_assoc.
Qed.

End OrphanChecks.

Lemma orphans_have_bar (adf : value) (triggers : list value)
    (orphans : list string) :
  get_resource_dependants adf triggers = Ok orphans ->
  Forall (fun r => has_char "|" r = true) orphans.
Proof.
  unfold get_resource_dependants. intros H.
  destruct (resources_list adf) as [declared|] eqn:Ed; cbn [bind] in H;
    [|discriminate].
  destruct (dependants_list adf triggers) as [referenced|]; cbn [bind] in H;
    [|discriminate].
  inversion H; subst orphans. apply Forall_forall. intros x Hx.
  apply filter_In in Hx as [Hx _].
  destruct (resources_list_invariant _ _ Ed) as [_ Hall].
  destruct (Hall x Hx) as (rs & rl & res & _ & _ & _ & Hc).
  eapply complete_resource_has_bar. eassumption.
Qed.

(** The four orphan checks on the list [get_resource_dependants]
    returns never raise: each counts the identifiers with its prefix
    (for the pipelines check, also holding [master]), and when verbose
    records a Finding of severity Medium for each, named by what
    follows the first bar of the identifier. *)
Theorem orphan_checks_count_their_prefix (adf : value)
    (triggers : list value) (orphans : list string) (self : checker) :
  get_resource_dependants adf triggers = Ok orphans ->
  check_master_pipeline_without_triggers orphans self
  = Ok (orphan_outcome self
          "Master Pipeline(s) without any triggers attached. Directly or indirectly."
          "Pipeline" "Does not have any triggers attached."
          (filter (fun r => startswith r "pipelines" && str_contains r "master")
             orphans))
  /\ check_orphaned_linked_services orphans self
     = Ok (orphan_outcome self
             "Linked Service(s) not used by any other resource."
             "Linked Service" "Not used by any other resource."
             (filter (fun r => startswith r "linkedServices") orphans))
  /\ check_orphaned_dataset orphans self
     = Ok (orphan_outcome self
             "Dataset(s) not used by any other resource."
             "Dataset" "Not used by any other resource."
             (filter (fun r => startswith r "datasets") orphans))
  /\ check_orphaned_triggers orphans self
     = Ok (orphan_outcome self
             "Trigger(s) not used by any other resource."
             "Trigger" "Not used by any other resource."
             (filter (fun r => startswith r "triggers") orphans)).
Proof.
  intros H. pose proof (orphans_have_bar _ _ _ H) as B.
  assert (F : forall keep,
             Forall (fun r => has_char "|" r = true) (filter keep orphans)).
  { intros keep. apply Forall_forall. intros x Hx.
    apply filter_In in Hx as [Hx _]. revert x Hx. now apply Forall_forall. }
  unfold check_master_pipeline_without_triggers,
    check_orphaned_linked_services, check_orphaned_dataset,
    check_orphaned_triggers, orphan_outcome.
  repeat split; rewrite orphan_loop by apply F; cbn [bind enter fst snd];
    rewrite Z.add_0_l; reflexivity.
Qed.

(** On the small factory the data set check counts the one orphaned
    data set. *)
Lemma orphan_checks_count_their_prefix_witness :
  check_orphaned_dataset ["datasets|D2"; "triggers|T2"] (init 1 false)
  = Ok (orphan_outcome (init 1 false)
          "Dataset(s) not used by any other resource."
          "Dataset" "Not used by any other resource." ["datasets|D2"]).
Proof.
  exact (proj1 (proj2 (proj2
    (orphan_checks_count_their_prefix adf_small_factory
       [arm_resource "triggers" "T1" (VDict []) ["pipelines/P1"];
        arm_resource "triggers" "T2" (VDict []) []]
       ["datasets|D2"; "triggers|T2"] (init 1 false) eq_refl)))).
Defined.

(* ================================================================== *)
(** * Sensitive property names *)
(* ================================================================== *)

Section Substrings.

Lemma prefix_split (p s : string) :
  String.prefix p s = true <-> exists b, s = (p ++ b)%string.
Proof.
  revert s. induction p as [|x p IH]; intros s.
  - split; [intros _; exists s; reflexivity | intros _; destruct s; reflexivity].
  - destruct s as [|y s]; cbn [String.prefix].
    + split; [discriminate | intros [b H]; discriminate H].
    + destruct (ascii_dec x y) as [<-|N].
      * rewrite IH. split; intros [b H]; exists b.
        -- now rewrite H.
        -- now inversion H.
      * split; [discriminate | intros [b H]; inversion H; congruence].
Qed.

Lemma find_cons (c : ascii) (s sub : string) :
  find (String c s) sub
  = if String.prefix sub (String c s) then 0
    else if find s sub <? 0 then -1 else find s sub + 1.
Proof. reflexivity. Qed.

Lemma find_lower_bound (s sub : string) : -1 <= find s sub.
Proof.
  induction s as [|c s IH].
  - cbn [find]. destruct (String.prefix sub EmptyString); lia.
  - rewrite find_cons. destruct (String.prefix sub (String c s)); [lia|].
    destruct (find s sub <? 0) eqn:E; lia.
Qed.

(** [sub in s] holds exactly when [s] is [sub] between two strings. *)
Lemma str_contains_split (s sub : string) :
  str_contains s sub = true <-> exists a b, s = (a ++ sub ++ b)%string.
Proof.
  unfold str_contains. rewrite Z.leb_le. split.
  - induction s as [|c s IH].
    + cbn [find]. destruct (String.prefix sub EmptyString) eqn:P; [|lia].
      intros _. apply prefix_split in P as [b ->]. now exists EmptyString, b.
    + rewrite find_cons.
      destruct (String.prefix sub (String c s)) eqn:P.
      * intros _. apply prefix_split in P as [b ->]. now exists EmptyString, b.
      * destruct (find s sub <? 0) eqn:E; [lia|]. intros _.
        apply Z.ltb_ge in E. destruct (IH E) as (a & b & ->).
        now exists (String c a), b.
  - intros (a & b & ->). induction a as [|c a IH].
    + change (EmptyString ++ sub ++ b)%string with (sub ++ b)%string.
      assert (P : String.prefix sub (sub ++ b) = true)
        by (apply prefix_split; now exists b).
      destruct (sub ++ b)%string; cbn [find]; rewrite P; lia.
    + change (String c a ++ sub ++ b)%string
        with (String c (a ++ sub ++ b)).
      rewrite find_cons.
      destruct (String.prefix sub (String c (a ++ sub ++ b))); [lia|].
      destruct (find (a ++ sub ++ b) sub <? 0) eqn:E; [|lia].
      apply Z.ltb_lt in E. lia.
Qed.

Lemma lower_app (a b : string) :
  lower (a ++ b) = (lower a ++ lower b)%string.
Proof. induction a as [|c a IH]; simpl; [reflexivity | now rewrite IH]. Qed.

Lemma lower_split (n x y : string) :
  lower n = (x ++ y)%string ->
  exists a b, n = (a ++ b)%string /\ lower a = x /\ lower b = y.
Proof.
  revert n. induction x as [|c x IH]; intros n H.
  - exists EmptyString, n. auto.
  - destruct n as [|d n]; [discriminate H|].
    cbn [lower] in H. change (String c x ++ y)%string with (String c (x ++ y)) in H.
    inversion H as [[Hc Hn]]. destruct (IH _ Hn) as (a & b & -> & Ha & Hb).
    exists (String d a), b. cbn [lower]. rewrite Ha. repeat split; assumption.
Qed.

Lemma lower_contains (n w : string) :
  str_contains (lower n) w = true
  <-> exists a k b, n = (a ++ k ++ b)%string /\ lower k = w.
Proof.
  rewrite str_contains_split. split.
  - intros (x & y & H).
    apply lower_split in H as (a & r & -> & <- & H).
    apply lower_split in H as (k & b & -> & <- & <-).
    now exists a, k, b.
  - intros (a & k & b & -> & <-). exists (lower a), (lower b).
    now rewrite !lower_app.
Qed.

End Substrings.

(** A property name is sensitive exactly when it holds, in any mix of
    upper and lower case and anywhere in the name, one of the words
    key, secret, password and token. *)
Theorem sensitive_names_hold_a_word (name : string) :
  is_sensitive_property name = true
  <-> exists a k b,
        name = (a ++ k ++ b)%string
        /\ In (lower k) ["key"; "secret"; "password"; "token"].
Proof.
  unfold is_sensitive_property. rewrite !orb_true_iff, !lower_contains.
  split.
  - intros [[[(a & k & b & E & L)|(a & k & b & E & L)]
            |(a & k & b & E & L)]|(a & k & b & E & L)];
      exists a, k, b; (split; [exact E|]); rewrite L; simpl; auto.
  - intros (a & k & b & E & [L|[L|[L|[L|[]]]]]).
    + left. left. left. now exists a, k, b.
    + left. left. right. now exists a, k, b.
    + left. right. now exists a, k, b.
    + right. now exists a, k, b.
Qed.

(* ================================================================== *)
(** * Linked services and the key vault *)
(* ================================================================== *)

Section KeyVault.

#[local] Abbreviation in_scope_m :=
  (fun ls : value =>
     p <- getitem ls "properties" ;;
     t <- getitem p "type" ;;
     Ok (negb (py_eq t (VStr "AzureKeyVault")))).

Lemma read_linked_service_shape (v : value) (l : linked_service) :
  read_linked_service v = Some l ->
  exists kvs p,
    v = VDict kvs
    /\ assoc "name" kvs = Some (VStr (ls_name l))
    /\ assoc "properties" kvs = Some (VDict p)
    /\ assoc "type" p = Some (ls_type l)
    /\ assoc "typeProperties" p = Some (VDict (ls_typeProperties l)).
Proof.
  unfold read_linked_service. intros H.
  destruct v as [| | | | |kvs|]; try discriminate H.
  destruct (assoc "name" kvs) as [[| | |n| | |]|] eqn:En; try discriminate H.
  destruct (assoc "properties" kvs) as [[| | | | |p|]|] eqn:Ep;
    try discriminate H.
  destruct (assoc "type" p) as [t|] eqn:Et; try discriminate H.
  destruct (assoc "typeProperties" p) as [[| | | | |tp|]|] eqn:Etp;
    try discriminate H.
  inversion H; subst l. exists kvs, p. repeat split; assumption.
Qed.

(** A key vault is dropped by the comprehension, whatever else it
    holds. *)
Lemma key_vault_dropped (l1 l2 : list value) (kv p t : value) :
  getitem kv "properties" = Ok p ->
  getitem p "type" = Ok t ->
  py_eq t (VStr "AzureKeyVault") = true ->
  filter_m in_scope_m (l1 ++ kv :: l2) = filter_m in_scope_m (l1 ++ l2).
Proof.
  intros Hp Ht He. induction l1 as [|x l1 IH].
  - cbn [app filter_m]. cbv beta. rewrite Hp. cbn [bind].
    rewrite Ht. cbn [bind]. rewrite He. cbn [negb].
    destruct (filter_m in_scope_m l2); reflexivity.
  - cbn [app filter_m]. now rewrite IH.
Qed.

Lemma candidates_read (lss : list value) (ls : list linked_service) :
  read_all read_linked_service lss = Some ls ->
  exists candidates,
    filter_m in_scope_m lss = Ok candidates
    /\ read_all read_linked_service candidates = Some (filter in_scope ls).
Proof.
  revert ls. induction lss as [|v lss IH]; intros ls H.
  - apply read_all_nil in H. subst ls. exists []. split; reflexivity.
  - apply read_all_cons in H as (l & ls' & -> & Hv & Hl).
    destruct (IH _ Hl) as (cs & Hf & Hr).
    destruct (read_linked_service_shape _ _ Hv) as (kvs & p & -> & _ & Hp & Ht & _).
    cbn [filter_m]. rewrite Hf. unfold getitem. rewrite Hp. cbn [bind].
    rewrite Ht. cbn [bind filter].
    unfold in_scope at 1.
    destruct (negb (py_eq (ls_type l) (VStr "AzureKeyVault"))).
    + exists (VDict kvs :: cs). split; [reflexivity|].
      cbn [read_all]. now rewrite Hv, Hr.
    + exists cs. split; [reflexivity | assumption].
Qed.

Lemma entry_has_arrow (c p : string) : has_arrow (c ++ " -> " ++ p) = true.
Proof. apply str_contains_split. now exists c, p. Qed.

Lemma add_all_forall (P : string -> Prop) (l acc : list string) :
  Forall P acc -> Forall P l -> Forall P (add_all l acc).
Proof.
  intros Ha Hl. revert acc Ha. induction Hl as [|x l Hx _ IH]; intros acc Ha.
  - exact Ha.
  - change (add_all (x :: l) acc) with (add_all l (append_new x acc)).
    apply IH. unfold append_new. destruct (str_mem x acc); [assumption|].
    apply Forall_app. split; [assumption | now constructor].
Qed.

Lemma no_arrow_not_listed (c : string) (acc : list string) :
  has_arrow c = false -> Forall (fun e => has_arrow e = true) acc ->
  str_mem c acc = false.
Proof.
  intros Hc Ha. destruct (str_mem c acc) eqn:M; [|reflexivity].
  apply str_mem_in in M. rewrite Forall_forall in Ha.
  specialize (Ha _ M). congruence.
Qed.

(** The inner loop on one linked service whose name holds no arrow:
    the exposed properties are added, nothing is removed. *)
Lemma scan_exposed (v : value) (l : linked_service) (acc : list string) :
  read_linked_service v = Some l ->
  has_arrow (clean_name_str (ls_name l)) = false ->
  Forall (fun e => has_arrow e = true) acc ->
  scan_type_properties v (ls_typeProperties l) acc
  = Ok (add_all (exposed l) acc).
Proof.
  intros Hv Hc. unfold exposed.
  destruct (read_linked_service_shape _ _ Hv) as (kvs & p & -> & Hn & _).
  assert (G : getitem (VDict kvs) "name" = Ok (VStr (ls_name l)))
    by (unfold getitem; now rewrite Hn).
  unfold scan_type_properties. rewrite G. unfold clean_name, as_str.
  cbn [bind]. generalize (ls_typeProperties l) as props.
  intros props. revert acc.
  induction props as [|[pn pv] props IH]; intros acc Ha; [reflexivity|].
  cbn [for_each filter]. unfold exposes at 1. cbn [fst snd].
  destruct (negb (str_contains (str pv) "secretName") && is_sensitive_property pn).
  - cbn [bind map fst]. rewrite IH.
    + reflexivity.
    + unfold append_new. destruct (str_mem _ acc); [assumption|].
      apply Forall_app. split; [assumption|].
      constructor; [apply entry_has_arrow | constructor].
  - rewrite (no_arrow_not_listed _ _ Hc Ha). cbn [bind]. now apply IH.
Qed.

Lemma exposed_have_arrow (l : linked_service) :
  Forall (fun e => has_arrow e = true) (exposed l).
Proof.
  unfold exposed. apply Forall_forall. intros e He.
  apply in_map_iff in He as (prop & <- & _). apply entry_has_arrow.
Qed.

Lemma candidates_loop (cs : list value) (ls : list linked_service)
    (acc : list string) :
  read_all read_linked_service cs = Some ls ->
  (forall l, In l ls -> has_arrow (clean_name_str (ls_name l)) = false) ->
  Forall (fun e => has_arrow e = true) acc ->
  for_each cs
    (fun linked_service acc =>
       p <- getitem linked_service "properties" ;;
       tp <- getitem p "typeProperties" ;;
       props <- items tp ;;
       scan_type_properties linked_service props acc)
    acc
  = Ok (add_all (flat_map exposed ls) acc).
Proof.
  revert ls acc. induction cs as [|v cs IH]; intros ls acc H Hc Ha.
  - apply read_all_nil in H. now subst ls.
  - apply read_all_cons in H as (l & ls' & -> & Hv & Hl).
    cbn [for_each flat_map]. rewrite add_all_app.
    destruct (read_linked_service_shape _ _ Hv) as (kvs & p & E & _ & Hp & _ & Htp).
    assert (B : (p <- getitem v "properties" ;;
                 tp <- getitem p "typeProperties" ;;
                 props <- items tp ;;
                 scan_type_properties v props acc)
                = Ok (add_all (exposed l) acc)).
    { rewrite <- (scan_exposed v l acc Hv (Hc l (or_introl eq_refl)) Ha).
      subst v. unfold getitem at 1. rewrite Hp. cbn [bind].
      unfold getitem at 1. rewrite Htp. reflexivity. }
    rewrite B. cbn [bind]. apply IH.
    + assumption.
    + intros l' Hl'. apply Hc. now right.
    + apply add_all_forall; [assumption | apply exposed_have_arrow].
Qed.

End KeyVault.

Section SecretReferences.

Lemma join_holds (sep x : string) (l : list string) :
  In x l -> exists a b, join sep l = (a ++ x ++ b)%string.
Proof.
  induction l as [|y l IH]; intros H; [contradiction|].
  destruct H as [->|H].
  - destruct l as [|z l].
    + exists EmptyString, EmptyString. cbn [join].
      now rewrite append_nil_r.
    + exists EmptyString, (sep ++ join sep (z :: l))%string. reflexivity.
  - destruct l as [|z l]; [contradiction|].
    destruct (IH H) as (a & b & E). exists (y ++ sep ++ a)%string, b.
    change (join sep (y :: z :: l))
      with (y ++ sep ++ join sep (z :: l))%string.
    rewrite E. now rewrite !append_assoc.
Qed.

Lemma assoc_in (k : string) (kvs : list (string * value)) (v : value) :
  assoc k kvs = Some v -> In (k, v) kvs.
Proof.
  induction kvs as [|[k' v'] kvs IH]; [discriminate|].
  cbn [assoc]. destruct (String.eqb_spec k k') as [->|N].
  - intros H. inversion H. now left.
  - intros H. right. now apply IH.
Qed.

(** The text of an object with a [secretName] key mentions it. *)
Lemma secret_reference_mentions (kvs : list (string * value)) (w : value) :
  assoc "secretName" kvs = Some w ->
  str_contains (str (VDict kvs)) "secretName" = true.
Proof.
  intros H. apply assoc_in in H.
  apply (in_map (fun kv => repr_str (fst kv) ++ ": " ++ repr (snd kv))%string)
    in H.
  destruct (join_holds ", " _ _ H) as (a & b & E).
  apply str_contains_split. cbn [str repr]. rewrite E. cbn [fst snd].
  exists ("{" ++ a ++ "'")%string, ("': " ++ repr w ++ b ++ "}")%string.
  change (repr_str "secretName") with ("'" ++ "secretName" ++ "'")%string.
  now rewrite !append_assoc.
Qed.

(** With nothing exposed the inner loop leaves the empty list empty. *)
Lemma scan_nothing (v : value) (l : linked_service) :
  read_linked_service v = Some l ->
  Forall (fun prop => exposes prop = false) (ls_typeProperties l) ->
  scan_type_properties v (ls_typeProperties l) [] = Ok [].
Proof.
  intros Hv.
  destruct (read_linked_service_shape _ _ Hv) as (kvs & p & -> & Hn & _).
  assert (G : getitem (VDict kvs) "name" = Ok (VStr (ls_name l)))
    by (unfold getitem; now rewrite Hn).
  unfold scan_type_properties. rewrite G. unfold clean_name, as_str.
  cbn [bind]. generalize (ls_typeProperties l) as props.
  induction props as [|[pn pv] props IH]; intros H; [reflexivity|].
  inversion H as [|? ? He Hr]; subst. unfold exposes in He. cbn [fst snd] in He.
  cbn [for_each]. rewrite He. cbn [str_mem existsb bind]. now apply IH.
Qed.

End SecretReferences.

(** On linked services the check can read, none of whose canonical
    names holds [" -> "], the check lists, once each and in template
    order, [name -> property] for every property with a sensitive name
    whose value does not mention [secretName], of every linked service
    that is not a key vault; the count is the length of that list. *)
Theorem exposed_properties_are_listed (linked_services : list value)
    (ls : list linked_service) (self : checker) :
  read_all read_linked_service linked_services = Some ls ->
  (forall l, In l ls -> has_arrow (clean_name_str (ls_name l)) = false) ->
  check_linked_services_using_key_vault linked_services self
  = Ok (key_vault_outcome self
          (dedup (flat_map exposed (filter in_scope ls)))).
Proof.
  intros H Hc. destruct (candidates_read _ _ H) as (cs & Hf & Hr).
  unfold check_linked_services_using_key_vault. rewrite Hf. cbn [bind].
  rewrite (candidates_loop cs (filter in_scope ls) [] Hr).
  - cbn [bind]. now rewrite add_all_nil.
  - intros l Hl. apply filter_In in Hl as [Hl _]. now apply Hc.
  - constructor.
Qed.

(** The storage service next to the key vault: its connection string
    is not a sensitive name, its token is listed, its account key is a
    key vault reference, and the key vault itself is skipped. *)
Lemma exposed_properties_are_listed_witness :
  check_linked_services_using_key_vault
    [Examples.storage_linked_service; Examples.key_vault_linked_service_full]
    (init 1 false)
  = Ok (key_vault_outcome (init 1 false) ["Storage -> sasToken"]).
Proof.
  refine (exposed_properties_are_listed
            [Examples.storage_linked_service;
             Examples.key_vault_linked_service_full]
            [ {| ls_name := "[concat(parameters('factoryName'), '/Storage')]";
                 ls_type := VStr "AzureBlobStorage";
                 ls_typeProperties :=
                   [("connectionString", VStr "DefaultEndpointsProtocol=https");
                    ("sasToken", VStr "sv=2020");
                    ("accountKey",
                     VDict [("type", VStr "AzureKeyVaultSecret");
                            ("secretName", VStr "storage-key")])] |};
              {| ls_name := "[concat(parameters('factoryName'), '/Vault')]";
                 ls_type := VStr "AzureKeyVault";
                 ls_typeProperties := [("baseUrl", VStr "https://vault")] |} ]
            (init 1 false) eq_refl _).
  intros l [<-|[<-|[]]]; vm_compute; reflexivity.
Defined.

(** A linked service whose [properties.type] is [AzureKeyVault] is
    left out of the check wherever it stands in the list and whatever
    else it holds: with or without it the check does the same. *)
Theorem key_vault_services_are_skipped (before after : list value)
    (key_vault properties type : value) (self : checker) :
  getitem key_vault "properties" = Ok properties ->
  getitem properties "type" = Ok type ->
  py_eq type (VStr "AzureKeyVault") = true ->
  check_linked_services_using_key_vault (before ++ key_vault :: after) self
  = check_linked_services_using_key_vault (before ++ after) self.
Proof.
  intros Hp Ht He. unfold check_linked_services_using_key_vault.
  now rewrite (key_vault_dropped before after key_vault properties type Hp Ht He).
Qed.

(** A key vault without [typeProperties] does not disturb the check
    of the storage service. *)
Lemma key_vault_services_are_skipped_witness :
  check_linked_services_using_key_vault
    ([Examples.storage_linked_service]
       ++ Examples.key_vault_linked_service :: [])
    (init 1 false)
  = check_linked_services_using_key_vault
      ([Examples.storage_linked_service] ++ []) (init 1 false).
Proof.
  exact (key_vault_services_are_skipped [Examples.storage_linked_service] []
           Examples.key_vault_linked_service
           (VDict [("type", VStr "AzureKeyVault")]) (VStr "AzureKeyVault")
           (init 1 false) eq_refl eq_refl eq_refl).
Defined.

(** Linked services all of whose sensitively named properties are
    objects with a [secretName] key pass the check: it counts 0 and
    records no Finding, whatever the names of the services. *)
Theorem key_vault_references_pass (linked_services : list value)
    (ls : list linked_service) (self : checker) :
  read_all read_linked_service linked_services = Some ls ->
  (forall l name v,
     In l ls -> in_scope l = true -> In (name, v) (ls_typeProperties l) ->
     is_sensitive_property name = true ->
     exists kvs w, v = VDict kvs /\ assoc "secretName" kvs = Some w) ->
  check_linked_services_using_key_vault linked_services self
  = Ok (key_vault_outcome self []).
Proof.
  intros H Hs. destruct (candidates_read _ _ H) as (cs & Hf & Hr).
  unfold check_linked_services_using_key_vault. rewrite Hf. cbn [bind].
  assert (L : for_each cs
                (fun linked_service acc =>
                   p <- getitem linked_service "properties" ;;
                   tp <- getitem p "typeProperties" ;;
                   props <- items tp ;;
                   scan_type_properties linked_service props acc)
                [] = Ok []).
  { assert (Hs' : forall l name v,
               In l (filter in_scope ls) -> In (name, v) (ls_typeProperties l) ->
               is_sensitive_property name = true ->
               exists kvs w, v = VDict kvs /\ assoc "secretName" kvs = Some w).
    { intros l name v Hl. apply filter_In in Hl as [Hl Hi]. now apply Hs. }
    clear Hs Hf H. revert Hr Hs'. generalize (filter in_scope ls) as ls'.
    induction cs as [|v cs IH]; intros ls' Hr Hs; [reflexivity|].
    apply read_all_cons in Hr as (l & ls'' & -> & Hv & Hl).
    cbn [for_each].
    destruct (read_linked_service_shape _ _ Hv)
      as (kvs & p & E & _ & Hp & _ & Htp).
    assert (B : (p <- getitem v "properties" ;;
                 tp <- getitem p "typeProperties" ;;
                 props <- items tp ;;
                 scan_type_properties v props [])
                = Ok []).
    { rewrite <- (scan_nothing v l Hv).
      - subst v. unfold getitem at 1. rewrite Hp. cbn [bind].
        unfold getitem at 1. rewrite Htp. reflexivity.
      - apply Forall_forall. intros [name w] Hin. unfold exposes.
        cbn [fst snd]. destruct (is_sensitive_property name) eqn:S;
          [|apply andb_false_r].
        destruct (Hs l name w (or_introl eq_refl) Hin S) as (kvs' & w' & -> & Hk).
        now rewrite (secret_reference_mentions _ _ Hk). }
    rewrite B. cbn [bind]. apply (IH ls'' Hl).
    intros l' name w Hl'. apply Hs. now right. }
  rewrite L. reflexivity.
Qed.

(** The storage service with only its account key, kept in the key
    vault. *)
Lemma key_vault_references_pass_witness :
  check_linked_services_using_key_vault
    [Examples.vaulted_linked_service] (init 1 false)
  = Ok (key_vault_outcome (init 1 false) []).
Proof.
  refine (key_vault_references_pass [Examples.vaulted_linked_service]
            [ {| ls_name := "[concat(parameters('factoryName'), '/Storage')]";
                 ls_type := VStr "AzureBlobStorage";
                 ls_typeProperties :=
                   [("accountKey",
                     VDict [("type", VStr "AzureKeyVaultSecret");
                            ("secretName", VStr "storage-key")])] |} ]
            (init 1 false) eq_refl _).
  intros l name v [<-|[]] _ [E|[]] _. inversion E.
  exists [("type", VStr "AzureKeyVaultSecret"); ("secretName", VStr "storage-key")],
    (VStr "storage-key"). split; reflexivity.
Defined.

(* ================================================================== *)
(** * The ForEach checks *)
(* ================================================================== *)

Section Counting.

Context {K : Type}.
Variables (f : value -> option K) (flag : K -> bool) (row : K -> detail_row).
Variable P : K -> Prop.
Variable self : checker.
Variable body : value -> loop_state -> result loop_state.

Hypothesis body_counts :
  forall x k st,
    f x = Some k -> P k ->
    body x st
    = Ok (if flag k
          then (fst st + 1,
                if is_verbose self then (snd st ++ [row k])%list else snd st)
          else st).

(** A loop that counts, and when verbose records, the elements it
    flags. *)
Lemma counting_loop (xs : list value) (ks : list K) (st : loop_state) :
  read_all f xs = Some ks -> Forall P ks ->
  for_each xs body st
  = Ok (fst st + Z.of_nat (List.length (filter flag ks)),
        if is_verbose self
        then (snd st ++ map row (filter flag ks))%list
        else snd st).
Proof.
  revert ks st. induction xs as [|x xs IH]; intros ks st H HP.
  - apply read_all_nil in H. subst ks. cbn. rewrite Z.add_0_r, app_nil_r.
    destruct st, (is_verbose self); reflexivity.
  - apply read_all_cons in H as (k & ks' & -> & Hx & Hl).
    inversion HP as [|? ? Hk HP']; subst.
    cbn [for_each]. rewrite (body_counts x k st Hx Hk). cbn [bind].
    rewrite (IH ks' _ Hl HP'). cbn [filter]. destruct (flag k).
    + cbn [fst snd List.length map]. f_equal. f_equal.
      * rewrite Nat2Z.inj_succ. lia.
      * destruct (is_verbose self); [|reflexivity].
        now rewrite <- app_assoc.
    + reflexivity.
Qed.

End Counting.

Section ForEach.

Lemma filter_filter_sub {A : Type} (p q : A -> bool) (l : list A) :
  (forall x, p x = true -> q x = true) ->
  filter p (filter q l) = filter p l.
Proof.
  intros H. induction l as [|x l IH]; [reflexivity|].
  cbn [filter]. destruct (q x) eqn:Q.
  - cbn [filter]. now rewrite IH.
  - destruct (p x) eqn:Px; [|assumption].
    rewrite (H x Px) in Q. discriminate Q.
Qed.

Lemma read_kind_dict (v : value) (k : activity_kind) :
  read_kind v = Some k ->
  exists kvs,
    v = VDict kvs
    /\ py_eq (match assoc "type" kvs with Some t => t | None => VNone end)
         (VStr "ForEach") = is_loop k.
Proof.
  unfold read_kind. intros H. destruct v as [| | | | |kvs|]; try discriminate H.
  exists kvs. split; [reflexivity|].
  destruct (py_eq _ (VStr "ForEach")).
  - destruct (assoc "typeProperties" kvs) as [[| | | | |tp|]|];
      try discriminate H.
    destruct (assoc "isSequential" tp) as [[|b| | | | |]|],
             (assoc "batchCount" tp) as [[| |n| | | |]|];
      try discriminate H; inversion H; reflexivity.
  - inversion H. reflexivity.
Qed.

Lemma read_kind_loop (v : value) (name : value) (s : bool) (b : option Z) :
  read_kind v = Some (Loop name s b) ->
  exists kvs tp,
    v = VDict kvs
    /\ assoc "typeProperties" kvs = Some (VDict tp)
    /\ name = match assoc "name" kvs with
              | Some n => n
              | None => VStr "Unnamed ForEach Activity"
              end
    /\ (forall d : value,
          truthy (match assoc "isSequential" tp with
                  | Some x => x
                  | None => VBool false
                  end) = s)
    /\ forall d : value,
         match assoc "batchCount" tp with Some x => x | None => d end
         = match b with Some n => VInt n | None => d end.
Proof.
  unfold read_kind. intros H. destruct v as [| | | | |kvs|]; try discriminate H.
  destruct (py_eq _ (VStr "ForEach")); [|discriminate H].
  destruct (assoc "typeProperties" kvs) as [[| | | | |tp|]|] eqn:Etp;
    try discriminate H.
  exists kvs, tp.
  destruct (assoc "isSequential" tp) as [[|x| | | | |]|],
           (assoc "batchCount" tp) as [[| |n| | | |]|];
    try discriminate H; inversion H; subst; repeat split; try reflexivity; assumption.
Qed.

Lemma foreach_activities_read (activities : list value)
    (ks : list activity_kind) :
  read_all read_kind activities = Some ks ->
  exists fe,
    foreach_activities activities = Ok fe
    /\ read_all read_kind fe = Some (filter is_loop ks).
Proof.
  unfold foreach_activities.
  revert ks. induction activities as [|v vs IH]; intros ks H.
  - apply read_all_nil in H. subst ks. exists []. split; reflexivity.
  - apply read_all_cons in H as (k & ks' & -> & Hv & Hl).
    destruct (IH _ Hl) as (fe & Hf & Hr).
    destruct (read_kind_dict _ _ Hv) as (kvs & -> & Ht).
    cbn [filter_m]. rewrite Hf. unfold get. cbn [bind]. rewrite Ht.
    cbn [filter]. destruct (is_loop k).
    + exists (VDict kvs :: fe). split; [reflexivity|].
      cbn [read_all]. now rewrite Hv, Hr.
    + exists fe. split; [reflexivity | assumption].
Qed.

Lemma loops_only (ks : list activity_kind) :
  Forall (fun k => is_loop k = true) (filter is_loop ks).
Proof. apply Forall_forall. intros k Hk. now apply filter_In in Hk. Qed.

End ForEach.

(** The two ForEach checks on activities they can read (objects; a
    ForEach has [typeProperties] with a boolean [isSequential] and an
    integer [batchCount] when present): activities of other types are
    ignored and sequential loops are never flagged; a parallel loop
    is flagged by the first check when it has no batch count or the
    batch count 0, and by the second when its batch count is below
    50, negative numbers and 0 included.  Each check counts the loops
    it flags and, when verbose, records one Finding for each. *)
Theorem foreach_checks_count_parallel_loops (activities : list value)
    (ks : list activity_kind) (self : checker) :
  read_all read_kind activities = Some ks ->
  check_foreach_batch_size_unset activities self
  = Ok (foreach_outcome self
          "Activities ForEach iteration without a batch count value set."
          "High" "ForEach does not have a batch count value set."
          (filter batch_unset ks))
  /\ check_foreach_activity_batch_size_lt_service_maximum activities self
     = Ok (foreach_outcome self
             "Activities ForEach iteration with a batch count size that is less than the service maximum."
             "Medium"
             "ForEach has a batch size that is less than the service maximum."
             (filter batch_small ks)).
Proof.
  intros H. destruct (foreach_activities_read _ _ H) as (fe & Hf & Hr).
  unfold check_foreach_batch_size_unset,
    check_foreach_activity_batch_size_lt_service_maximum, foreach_outcome.
  rewrite Hf. cbn [bind]. split.
  - rewrite counting_loop
      with (f := read_kind) (flag := batch_unset)
           (row := (fun k => {| Component := "Activity"; Name := kind_name k;
                                FindingDetail :=
                                  "ForEach does not have a batch count value set.";
                                FindingSeverity := "High" |}))
           (P := fun k => is_loop k = true) (ks := filter is_loop ks)
           (self := self);
      [ | | exact Hr | apply loops_only ].
    + cbn [bind enter fst snd]. rewrite Z.add_0_l.
      rewrite filter_filter_sub; [reflexivity|].
      intros [|n s b] Hk; [discriminate Hk | reflexivity].
    + intros x [|name s b] st Hx Hk; [discriminate Hk|].
      destruct (read_kind_loop _ _ _ _ Hx) as (kvs & tp & -> & Htp & -> & Hs & Hb).
      unfold getitem. rewrite Htp. cbn [bind]. unfold get at 1 2. cbn [bind].
      rewrite (Hs VNone), (Hb (VStr EmptyString)).
      destruct s; [reflexivity|]. cbn [negb andb].
      destruct b as [n|]; cbn [truthy batch_unset].
      * rewrite negb_involutive. destruct (n =? 0); [|reflexivity].
        unfold report, get. cbn [kind_name].
        destruct (is_verbose self); reflexivity.
      * unfold report, get. cbn [kind_name].
        destruct (is_verbose self); reflexivity.
  - rewrite counting_loop
      with (f := read_kind) (flag := batch_small)
           (row := (fun k => {| Component := "Activity"; Name := kind_name k;
                                FindingDetail :=
                                  "ForEach has a batch size that is less than the service maximum.";
                                FindingSeverity := "Medium" |}))
           (P := fun k => is_loop k = true) (ks := filter is_loop ks)
           (self := self);
      [ | | exact Hr | apply loops_only ].
    + cbn [bind enter fst snd]. rewrite Z.add_0_l.
      rewrite filter_filter_sub; [reflexivity|].
      intros [|n s b] Hk; [discriminate Hk | reflexivity].
    + intros x [|name s b] st Hx Hk; [discriminate Hk|].
      destruct (read_kind_loop _ _ _ _ Hx) as (kvs & tp & -> & Htp & -> & Hs & Hb).
      unfold getitem. rewrite Htp. cbn [bind]. unfold get at 1 2. cbn [bind].
      rewrite (Hs VNone), (Hb VNone).
      destruct s; [reflexivity|]. cbn [negb andb].
      destruct b as [n|]; cbn [is_none negb int bind batch_small];
        [|reflexivity].
      destruct (n <? 50); [|reflexivity].
      unfold report, get. cbn [kind_name].
      destruct (is_verbose self); reflexivity.
Qed.

(** Four activities: a Wait, a sequential loop, a parallel loop with
    batch count 0 and a parallel loop without one. *)
Lemma foreach_checks_count_parallel_loops_witness :
  check_foreach_batch_size_unset
    [Examples.wait_named "W" [];
     Examples.foreach_activity "S" [("isSequential", VBool true)];
     Examples.foreach_activity "Z" [("batchCount", VInt 0)];
     Examples.foreach_activity "N" []] (init 1 false)
  = Ok (foreach_outcome (init 1 false)
          "Activities ForEach iteration without a batch count value set."
          "High" "ForEach does not have a batch count value set."
          [Loop (VStr "Z") false (Some 0); Loop (VStr "N") false None]).
Proof.
  exact (proj1
    (foreach_checks_count_parallel_loops
       [Examples.wait_named "W" [];
        Examples.foreach_activity "S" [("isSequential", VBool true)];
        Examples.foreach_activity "Z" [("batchCount", VInt 0)];
        Examples.foreach_activity "N" []]
       [Other; Loop (VStr "S") true None; Loop (VStr "Z") false (Some 0);
        Loop (VStr "N") false None]
       (init 1 false) eq_refl)).
Defined.

(* ================================================================== *)
(** * The documentation checks *)
(* ================================================================== *)

Section Documentation.

Lemma read_described_shape (v : value) (d : described) :
  read_described v = Some d ->
  getitem v "name" = Ok (VStr (d_name d))
  /\ getitem v "properties" = Ok (VDict (d_properties d)).
Proof.
  unfold read_described, getitem. intros H.
  destruct v as [| | | | |kvs|]; try discriminate H.
  destruct (assoc "name" kvs) as [[| | |n| | |]|]; try discriminate H.
  destruct (assoc "properties" kvs) as [[| | | | |p|]|]; try discriminate H.
  inversion H. split; reflexivity.
Qed.

Variable self : checker.
Variables component finding : string.

#[local] Abbreviation row d :=
  {| Component := component;
     Name := VStr (clean_name_str (d_name d));
     FindingDetail := finding;
     FindingSeverity := "Low" |}.

#[local] Abbreviation counted flag d st :=
  (Ok (if flag d
       then (fst st + 1,
             if is_verbose self
             then List.app (snd st) (cons (row d) nil)
             else snd st)
       else st)).

Lemma report_counted (d : described) (st : loop_state) :
  report self component (Ok (VStr (clean_name_str (d_name d)))) finding
    "Low" st
  = Ok (fst st + 1,
        if is_verbose self then (snd st ++ [row d])%list else snd st).
Proof. unfold report. destruct (is_verbose self); reflexivity. Qed.

Lemma description_body (v : value) (d : described) (st : loop_state) :
  read_described v = Some d ->
  (n <- getitem v "name" ;;
   name <- clean_name n ;;
   props <- getitem v "properties" ;;
   description <- get props "description" (VStr EmptyString) ;;
   if negb (truthy description)
   then report self component (Ok (VStr name)) finding "Low" st
   else Ok st)
  = counted lacks_description d st.
Proof.
  intros H. destruct (read_described_shape _ _ H) as [-> ->].
  unfold clean_name, as_str, get, lacks_description. cbn [bind].
  destruct (assoc "description" (d_properties d)) as [x|].
  - destruct (negb (truthy x)); [apply report_counted | reflexivity].
  - apply report_counted.
Qed.

Lemma folder_body (v : value) (d : described) (st : loop_state) :
  read_described v = Some d ->
  is_some (folder_name d) = true ->
  (n <- getitem v "name" ;;
   name <- clean_name n ;;
   props <- getitem v "properties" ;;
   folder <- get props "folder" (VDict []) ;;
   folder_name <- get folder "name" (VStr EmptyString) ;;
   if negb (truthy folder_name)
   then report self component (Ok (VStr name)) finding "Low" st
   else Ok st)
  = counted lacks_folder d st.
Proof.
  intros H F. destruct (read_described_shape _ _ H) as [-> ->].
  unfold clean_name, as_str, get, lacks_folder. cbn [bind].
  unfold folder_name in *.
  destruct (assoc "folder" (d_properties d)) as [[| | | | |folder|]|];
    try discriminate F; cbn [bind assoc truthy String.eqb negb].
  - destruct (assoc "name" folder) as [x|].
    + destruct (negb (truthy x)); [apply report_counted | reflexivity].
    + apply report_counted.
  - apply report_counted.
Qed.

Lemma annotation_body (v : value) (d : described) (st : loop_state) :
  read_described v = Some d ->
  is_some (annotation_count d) = true ->
  (n <- getitem v "name" ;;
   name <- clean_name n ;;
   props <- getitem v "properties" ;;
   annotations <- get props "annotations" (VList []) ;;
   count <- len annotations ;;
   if count <=? 0
   then report self component (Ok (VStr name)) finding "Low" st
   else Ok st)
  = counted lacks_annotation d st.
Proof.
  intros H F. destruct (read_described_shape _ _ H) as [-> ->].
  unfold clean_name, as_str, get, lacks_annotation. cbn [bind].
  unfold annotation_count in *.
  destruct (assoc "annotations" (d_properties d)) as [a|].
  - destruct (len a) as [n|]; [|discriminate F]. cbn [bind].
    destruct (n <=? 0); [apply report_counted | reflexivity].
  - cbn [len List.length bind]. apply report_counted.
Qed.

End Documentation.

(** The five description checks on resources with a string name and an
    object [properties]: each counts the resources whose description
    is absent or not true (the empty string, [null]) and, when
    verbose, names each by its canonical name, in template order. *)
Theorem description_checks_count_undescribed (resources : list value)
    (ds : list described) (self : checker) :
  read_all read_described resources = Some ds ->
  check_pipeline_descriptions resources self
  = Ok (documentation_outcome self "Pipeline(s) without a description value."
          "Pipeline" "Does not have a description."
          (filter lacks_description ds))
  /\ check_data_flow_descriptions resources self
     = Ok (documentation_outcome self
             "Data Flow(s) without a description value."
             "Data Flow" "Does not have a description."
             (filter lacks_description ds))
  /\ check_linked_services_has_description resources self
     = Ok (documentation_outcome self
             "Linked Service(s) without a description value."
             "Linked Service" "Does not have a description."
             (filter lacks_description ds))
  /\ check_datasets_without_description resources self
     = Ok (documentation_outcome self "Dataset(s) without a description value."
             "Dataset" "Does not have a description."
             (filter lacks_description ds))
  /\ check_triggers_has_description resources self
     = Ok (documentation_outcome self "Trigger(s) without a description value."
             "Trigger" "Does not have a description."
             (filter lacks_description ds)).
Proof.
  intros Hr.
  unfold check_pipeline_descriptions, check_data_flow_descriptions,
    check_linked_services_has_description, check_datasets_without_description,
    check_triggers_has_description, documentation_outcome.
  repeat split;
    (erewrite counting_loop
       with (f := read_described) (ks := ds) (self := self)
            (flag := lacks_description) (P := fun _ => True);
     [ cbn [bind enter fst snd]; rewrite Z.add_0_l; reflexivity
     | intros x k st Hx _; now apply description_body
     | exact Hr
     | apply Forall_forall; intros; exact I ]).
Qed.

(** Of three pipelines, the one without a description and the one with
    an empty description are counted. *)
Lemma description_checks_count_undescribed_witness :
  check_pipeline_descriptions
    [Examples.arm_resource "pipelines" "P1" (VDict []) [];
     Examples.arm_resource "pipelines" "P2"
       (VDict [("description", VStr "Loads the sales")]) [];
     Examples.arm_resource "pipelines" "P3"
       (VDict [("description", VStr EmptyString)]) []]
    (init 1 false)
  = Ok (documentation_outcome (init 1 false)
          "Pipeline(s) without a description value."
          "Pipeline" "Does not have a description."
          [ {| d_name := "[concat(parameters('factoryName'), '/P1')]";
               d_properties := [] |};
            {| d_name := "[concat(parameters('factoryName'), '/P3')]";
               d_properties := [("description", VStr EmptyString)] |} ]).
Proof.
  exact (proj1
    (description_checks_count_undescribed
       [Examples.arm_resource "pipelines" "P1" (VDict []) [];
        Examples.arm_resource "pipelines" "P2"
          (VDict [("description", VStr "Loads the sales")]) [];
        Examples.arm_resource "pipelines" "P3"
          (VDict [("description", VStr EmptyString)]) []]
       [ {| d_name := "[concat(parameters('factoryName'), '/P1')]";
            d_properties := [] |};
         {| d_name := "[concat(parameters('factoryName'), '/P2')]";
            d_properties := [("description", VStr "Loads the sales")] |};
         {| d_name := "[concat(parameters('factoryName'), '/P3')]";
            d_properties := [("description", VStr EmptyString)] |} ]
       (init 1 false) eq_refl)).
Defined.

(** The two folder checks on resources whose [folder], when present,
    is an object: each counts the resources without a folder or whose
    folder has no name or a name that is not true. *)
Theorem folder_checks_count_unfiled (resources : list value)
    (ds : list described) (self : checker) :
  read_all read_described resources = Some ds ->
  Forall (fun d => is_some (folder_name d) = true) ds ->
  check_pipelines_not_in_folder resources self
  = Ok (documentation_outcome self "Pipeline(s) not organised into folders."
          "Pipeline" "Not organised into a folder."
          (filter lacks_folder ds))
  /\ check_datasets_not_in_folder resources self
     = Ok (documentation_outcome self "Dataset(s) not organised into folders."
             "Dataset" "Not organised into a folder."
             (filter lacks_folder ds)).
Proof.
  intros Hr HF.
  unfold check_pipelines_not_in_folder, check_datasets_not_in_folder,
    documentation_outcome.
  split;
    (erewrite counting_loop
       with (f := read_described) (ks := ds) (self := self)
            (flag := lacks_folder)
            (P := fun d => is_some (folder_name d) = true);
     [ cbn [bind enter fst snd]; rewrite Z.add_0_l; reflexivity
     | intros x k st Hx Hk; now apply folder_body
     | exact Hr
     | exact HF ]).
Qed.

(** A data set in a folder and one whose folder has no name. *)
Lemma folder_checks_count_unfiled_witness :
  check_datasets_not_in_folder
    [Examples.arm_resource "datasets" "D1"
       (VDict [("folder", VDict [("name", VStr "raw")])]) [];
     Examples.arm_resource "datasets" "D2" (VDict [("folder", VDict [])]) []]
    (init 1 false)
  = Ok (documentation_outcome (init 1 false)
          "Dataset(s) not organised into folders."
          "Dataset" "Not organised into a folder."
          [ {| d_name := "[concat(parameters('factoryName'), '/D2')]";
               d_properties := [("folder", VDict [])] |} ]).
Proof.
  refine (proj2
    (folder_checks_count_unfiled
       [Examples.arm_resource "datasets" "D1"
          (VDict [("folder", VDict [("name", VStr "raw")])]) [];
        Examples.arm_resource "datasets" "D2" (VDict [("folder", VDict [])]) []]
       [ {| d_name := "[concat(parameters('factoryName'), '/D1')]";
            d_properties := [("folder", VDict [("name", VStr "raw")])] |};
         {| d_name := "[concat(parameters('factoryName'), '/D2')]";
            d_properties := [("folder", VDict [])] |} ]
       (init 1 false) eq_refl _)).
  repeat constructor.
Defined.

(** The four annotation checks on resources whose [annotations], when
    present, has a length: each counts the resources without
    annotations or with none in the list. *)
Theorem annotation_checks_count_unannotated (resources : list value)
    (ds : list described) (self : checker) :
  read_all read_described resources = Some ds ->
  Forall (fun d => is_some (annotation_count d) = true) ds ->
  check_pipelines_without_annotation resources self
  = Ok (documentation_outcome self "Pipeline(s) without annotations."
          "Pipeline" "Does not have any annotations."
          (filter lacks_annotation ds))
  /\ check_linked_services_has_annotation resources self
     = Ok (documentation_outcome self "Linked Service(s) without annotations."
             "Linked Service" "Does not have any annotations."
             (filter lacks_annotation ds))
  /\ check_datasets_without_annotation resources self
     = Ok (documentation_outcome self "Dataset(s) without annotations."
             "Dataset" "Does not have any annotations."
             (filter lacks_annotation ds))
  /\ check_triggers_without_annotation resources self
     = Ok (documentation_outcome self "Trigger(s) without annotations."
             "Trigger" "Does not have any annotations."
             (filter lacks_annotation ds)).
Proof.
  intros Hr HF.
  unfold check_pipelines_without_annotation,
    check_linked_services_has_annotation, check_datasets_without_annotation,
    check_triggers_without_annotation, documentation_outcome.
  repeat split;
    (erewrite counting_loop
       with (f := read_described) (ks := ds) (self := self)
            (flag := lacks_annotation)
            (P := fun d => is_some (annotation_count d) = true);
     [ cbn [bind enter fst snd]; rewrite Z.add_0_l; reflexivity
     | intros x k st Hx Hk; now apply annotation_body
     | exact Hr
     | exact HF ]).
Qed.

(** A trigger with one annotation and one with an empty list. *)
Lemma annotation_checks_count_unannotated_witness :
  check_triggers_without_annotation
    [Examples.arm_resource "triggers" "T1"
       (VDict [("annotations", VList [VStr "nightly"])]) [];
     Examples.arm_resource "triggers" "T2"
       (VDict [("annotations", VList [])]) []]
    (init 1 false)
  = Ok (documentation_outcome (init 1 false) "Trigger(s) without annotations."
          "Trigger" "Does not have any annotations."
          [ {| d_name := "[concat(parameters('factoryName'), '/T2')]";
               d_properties := [("annotations", VList [])] |} ]).
Proof.
  refine (proj2 (proj2 (proj2
    (annotation_checks_count_unannotated
       [Examples.arm_resource "triggers" "T1"
          (VDict [("annotations", VList [VStr "nightly"])]) [];
        Examples.arm_resource "triggers" "T2"
          (VDict [("annotations", VList [])]) []]
       [ {| d_name := "[concat(parameters('factoryName'), '/T1')]";
            d_properties := [("annotations", VList [VStr "nightly"])] |};
         {| d_name := "[concat(parameters('factoryName'), '/T2')]";
            d_properties := [("annotations", VList [])] |} ]
       (init 1 false) eq_refl _)))).
  repeat constructor.
Defined.

(* ================================================================== *)
(** * The DIU check *)
(* ================================================================== *)

(** On the pairs [(folder name, activity)] it can read, the DIU check
    counts the Copy activities with a [policy.timeout] whose
    [dataIntegrationUnits] is absent or [null], and names each
    [folder/name].  An activity without [policy.timeout] is never
    counted, a Copy activity with the default DIU included. *)
Theorem diu_check_counts_timed_copies (activities : list value)
    (ts : list timed_activity) (self : checker) :
  read_all read_timed activities = Some ts ->
  check_copy_activity_diu_values activities self
  = Ok (finish self
          "Activities with DIU (Data Integration Units) values still set to the service default value of 'Auto'"
          "High"
          (Z.of_nat (List.length (filter default_diu ts)),
           if is_verbose self
           then (verbose_detail_table self
                   ++ map (fun a =>
                             {| Component := "Activity";
                                Name := VStr (shown a);
                                FindingDetail :=
                                  "DIU still set to the service default value of 'Auto'.";
                                FindingSeverity := "High" |})
                        (filter default_diu ts))%list
           else verbose_detail_table self)).
Proof.
  intros Hr. unfold check_copy_activity_diu_values.
  erewrite counting_loop
    with (f := read_timed) (ks := ts) (self := self) (flag := default_diu)
         (P := fun _ => True);
    [ cbn [bind enter fst snd]; rewrite Z.add_0_l; reflexivity
    | | exact Hr | apply Forall_forall; intros; exact I ].
  intros x k st Hx _. unfold read_timed in Hx.
  destruct x as [| | | | | |[|folder_name [|[| | | | |kvs|] [|]]]];
    try discriminate Hx.
  cbn [unpack2 bind]. unfold has_policy_timeout, contains, getitem.
  destruct (assoc "policy" kvs) as [[| | | | |policy|]|];
    try discriminate Hx; cbn [bind].
  - destruct (assoc "timeout" policy) as [timeout|]; cbn [bind].
    + destruct (assoc "typeProperties" kvs) as [[| | | | |tp|]|];
        try discriminate Hx.
      destruct (assoc "type" kvs) as [t|]; try discriminate Hx.
      inversion Hx; subst k. cbn [bind get default_diu shown].
      destruct (py_eq t (VStr "Copy")); cbn [andb]; [|reflexivity].
      destruct (assoc "dataIntegrationUnits" tp) as [d|].
      * destruct (is_none d); [|reflexivity].
        unfold report. destruct (is_verbose self); reflexivity.
      * cbn [is_none]. unfold report. destruct (is_verbose self); reflexivity.
    + inversion Hx. reflexivity.
  - inversion Hx. reflexivity.
Qed.

(** A Copy activity with the default DIU and a timeout is counted;
    the same activity without a policy is not. *)
Lemma diu_check_counts_timed_copies_witness :
  check_copy_activity_diu_values
    [VTuple [VStr "ingest"; Examples.copy_activity "Timed" true];
     VTuple [VStr "ingest"; Examples.copy_activity "Untimed" false]]
    (init 1 false)
  = Ok (finish (init 1 false)
          "Activities with DIU (Data Integration Units) values still set to the service default value of 'Auto'"
          "High"
          (1, [ {| Component := "Activity";
                   Name := VStr "ingest/Timed";
                   FindingDetail :=
                     "DIU still set to the service default value of 'Auto'.";
                   FindingSeverity := "High" |} ])).
Proof.
  exact (diu_check_counts_timed_copies
           [VTuple [VStr "ingest"; Examples.copy_activity "Timed" true];
            VTuple [VStr "ingest"; Examples.copy_activity "Untimed" false]]
           [Timed "ingest/Timed" true true; Untimed]
           (init 1 false) eq_refl).
Defined.
